(** * arma-support-web: permission checks, dynamic CRUD and the player
      panel handlers, embedded from the Python sources under [app/].

    Conventions of the embedding.
    - A Python [str] is a [string]; where the code looks at single characters
      ([strip]) one character stands for one code point below 256.  Integers
      are [Z]; the flag columns of the permission tables are integers that the
      queries compare with 1.
    - A database table with a fixed shape is a list of records (one record
      per row, a field per column); the key/value store, whose primary key is
      the triple (pid, k, side), is a finite map keyed by that triple.
    - A [SELECT ... JOIN ... WHERE ... LIMIT 1] followed by [.first()] is a
      list comprehension followed by [head]; [bool(row)] is [Py.truthy].
      Column comparison is plain equality on the stored value (collations and
      implicit conversions of the database server are not modelled), and a
      statement takes effect when it is executed (constraint violations and
      other errors of the database server that depend on the schema or on
      the stored rows are not modelled; a statement the code builds
      malformed, an UPDATE that sets no column, raises).
    - A handler is a computation in a state-and-exception monad over the
      world it can touch (database, session, clock); [raise] keeps the state
      reached so far. *)

From Stdlib Require Import ZArith String Ascii DecimalString.
From stdpp Require Import base decidable option list strings gmap.

#[local] Open Scope Z_scope.

(* ===================================================================== *)
(** ** Exceptions and the handler monad                                   *)
(* ===================================================================== *)

Inductive Exn : Type :=
  | HTTPException (status_code : Z)
  | ValueError (msg : string)
  | KeyError (key : string)
  | DBAPIError (statement : string).

Inductive Result (A : Type) : Type :=
  | Ok (a : A)
  | Raise (e : Exn).
Arguments Ok {A} a.
Arguments Raise {A} e.

Definition M (S A : Type) : Type := S → Result A * S.

Definition ret {S A : Type} (a : A) : M S A := λ s, (Ok a, s).
Definition raise {S A : Type} (e : Exn) : M S A := λ s, (Raise e, s).
Definition bind {S A B : Type} (m : M S A) (k : A → M S B) : M S B :=
  λ s, match m s with
       | (Ok a, s') => k a s'
       | (Raise e, s') => (Raise e, s')
       end.
Definition gets {S A : Type} (f : S → A) : M S A := λ s, (Ok (f s), s).
Definition modify {S : Type} (f : S → S) : M S unit := λ s, (Ok tt, f s).

#[global] Instance M_ret {S} : MRet (M S) := λ A, @ret S A.
#[global] Instance M_bind {S} : MBind (M S) := λ A B k m, @bind S A B m k.

(* ===================================================================== *)
(** ** Python string helpers                                              *)
(* ===================================================================== *)

Module Py.

(** [str.isspace] on one code point below 256. *)
Definition isspace (c : ascii) : bool :=
  let n := Z.of_N (N_of_ascii c) in
  ((9 <=? n)%Z && (n <=? 13)%Z) || ((28 <=? n)%Z && (n <=? 32)%Z)
  || (n =? 133)%Z || (n =? 160)%Z.

Fixpoint lstrip (s : string) : string :=
  match s with
  | EmptyString => EmptyString
  | String c s' => if isspace c then lstrip s' else s
  end.

Definition rstrip (s : string) : string :=
  String.rev (lstrip (String.rev s)).

(** [s.strip()] *)
Definition strip (s : string) : string := rstrip (lstrip s).

(** [x or d] for an optional string [x]: [None] and the empty string are
    both falsy. *)
Definition or_else (x : option string) (d : string) : string :=
  match x with
  | Some s => if decide (s = "") then d else s
  | None => d
  end.

(** [bool(row)] for the result of [.first()]. *)
Definition truthy {A : Type} (row : option A) : bool :=
  match row with Some _ => true | None => false end.


(** [s.lower()] on code points below 256: the letters A-Z and the accented
    capitals of Latin-1 move 32 places up. *)
Definition lower_char (c : ascii) : ascii :=
  let n := Z.of_N (N_of_ascii c) in
  if ((65 <=? n)%Z && (n <=? 90)%Z)
     || ((192 <=? n)%Z && (n <=? 222)%Z && negb (n =? 215)%Z)
  then ascii_of_N (Z.to_N (n + 32))
  else c.

Fixpoint lower (s : string) : string :=
  match s with
  | EmptyString => EmptyString
  | String c s' => String (lower_char c) (lower s')
  end.

(** [s.startswith(prefix)] *)
Definition startswith (s prefix : string) : bool := String.prefix prefix s.

(** [len(s)] *)
Definition len (s : string) : Z := Z.of_nat (String.length s).

End Py.

(* ===================================================================== *)
(** ** The database ([app/db.py] and the admin tables the queries name)   *)
(* ===================================================================== *)

Module Db.

(** admin_users (id, username, password_hash, is_active) *)
Record AdminUser : Type := {
  au_id : Z;
  au_username : string;
  au_password_hash : string;
  au_is_active : Z;
}.

(** admin_roles (id, name) *)
Record AdminRole : Type := { r_id : Z; r_name : string }.

(** admin_user_roles (user_id, role_id) *)
Record AdminUserRole : Type := { ur_user_id : Z; ur_role_id : Z }.

(** admin_permissions (role_id, table_name, can_view, can_create,
    can_update, can_delete) *)
Record AdminPermission : Type := {
  p_role_id : Z;
  p_table_name : string;
  p_can_view : Z;
  p_can_create : Z;
  p_can_update : Z;
  p_can_delete : Z;
}.

(** admin_panel_permissions (role_id, can_admin_access, ...) *)
Record AdminPanelPermission : Type := {
  ap_role_id : Z;
  ap_can_admin_access : Z;
  ap_can_user_create : Z;
  ap_can_user_toggle : Z;
  ap_can_user_role_add : Z;
  ap_can_user_role_remove : Z;
  ap_can_role_create : Z;
  ap_can_permissions_edit : Z;
}.

(** admin_kv_permissions (role_id, side, field_name, can_edit) *)
Record AdminKvPermission : Type := {
  kp_role_id : Z;
  kp_side : Z;
  kp_field_name : string;
  kp_can_edit : Z;
}.

(** kvstore: value column [v] and type tag [t] under the primary key
    (pid, k, side). *)
Record KvValue : Type := { kv_v : string; kv_t : option string }.

(** support_cases; the two timestamp columns are maintained by the
    database server and left out. *)
Record SupportCase : Type := {
  sc_id : Z;
  sc_player_pid : string;
  sc_player_name : option string;
  sc_case_type : string;
  sc_area : string;
  sc_supporter_name : string;
  sc_scn : option string;
  sc_content : option string;
  sc_status : string;
}.

(** vehicles *)
Record Vehicle : Type := {
  v_id : Z;
  v_side : string;
  v_classname : string;
  v_type : string;
  v_pid : string;
  v_alive : Z;
  v_active : Z;
  v_sold : Z;
  v_locked : Z;
  v_color : Z;
  v_trunk : string;
  v_chip : Z;
  v_ts_bought : Z;
  v_ts_modified : Z;
}.

Record Store : Type := {
  admin_users : list AdminUser;
  admin_roles : list AdminRole;
  admin_user_roles : list AdminUserRole;
  admin_permissions : list AdminPermission;
  admin_panel_permissions : list AdminPanelPermission;
  admin_kv_permissions : list AdminKvPermission;
  kvstore : gmap (string * string * Z) KvValue;
  support_cases : list SupportCase;
  vehicles : list Vehicle;
}.

Definition set_kvstore (kv : gmap (string * string * Z) KvValue) (db : Store) : Store :=
  {| admin_users := admin_users db;
     admin_roles := admin_roles db;
     admin_user_roles := admin_user_roles db;
     admin_permissions := admin_permissions db;
     admin_panel_permissions := admin_panel_permissions db;
     admin_kv_permissions := admin_kv_permissions db;
     kvstore := kv;
     support_cases := support_cases db;
     vehicles := vehicles db |}.

Definition set_support_cases (l : list SupportCase) (db : Store) : Store :=
  {| admin_users := admin_users db;
     admin_roles := admin_roles db;
     admin_user_roles := admin_user_roles db;
     admin_permissions := admin_permissions db;
     admin_panel_permissions := admin_panel_permissions db;
     admin_kv_permissions := admin_kv_permissions db;
     kvstore := kvstore db;
     support_cases := l;
     vehicles := vehicles db |}.

Definition set_vehicles (l : list Vehicle) (db : Store) : Store :=
  {| admin_users := admin_users db;
     admin_roles := admin_roles db;
     admin_user_roles := admin_user_roles db;
     admin_permissions := admin_permissions db;
     admin_panel_permissions := admin_panel_permissions db;
     admin_kv_permissions := admin_kv_permissions db;
     kvstore := kvstore db;
     support_cases := support_cases db;
     vehicles := l |}.

(** [FROM l JOIN r ON ... WHERE ...]: the pairs of rows that satisfy the
    join condition and the filter, in table order. *)
Definition join_where {A B : Type} (l : list A) (r : list B)
    (cond : A → B → bool) : list (A * B) :=
  a ← l; b ← r; if cond a b then [(a, b)] else [].

(** [FROM l WHERE ...] *)
Definition select_where {A : Type} (l : list A) (cond : A → bool) : list A :=
  List.filter cond l.

(** [.first()] *)
Definition first {A : Type} (rows : list A) : option A := head rows.


Definition set_admin_users (l : list AdminUser) (db : Store) : Store :=
  {| admin_users := l;
     admin_roles := admin_roles db;
     admin_user_roles := admin_user_roles db;
     admin_permissions := admin_permissions db;
     admin_panel_permissions := admin_panel_permissions db;
     admin_kv_permissions := admin_kv_permissions db;
     kvstore := kvstore db;
     support_cases := support_cases db;
     vehicles := vehicles db |}.

Definition set_admin_user_roles (l : list AdminUserRole) (db : Store) : Store :=
  {| admin_users := admin_users db;
     admin_roles := admin_roles db;
     admin_user_roles := l;
     admin_permissions := admin_permissions db;
     admin_panel_permissions := admin_panel_permissions db;
     admin_kv_permissions := admin_kv_permissions db;
     kvstore := kvstore db;
     support_cases := support_cases db;
     vehicles := vehicles db |}.

End Db.

(* ===================================================================== *)
(** ** app/permissions.py                                                 *)
(* ===================================================================== *)

Module Permissions.
Import Db.

Definition is_admin (db : Store) (user_id : Z) : bool :=
  let row := first (join_where (admin_user_roles db) (admin_roles db)
    (λ ur r, bool_decide (r_id r = ur_role_id ur)
             && bool_decide (ur_user_id ur = user_id)
             && bool_decide (r_name r = "admin"))) in
  Py.truthy row.

Definition ACTION_COL : gmap string string :=
  list_to_map [
    ("view", "can_view");
    ("create", "can_create");
    ("update", "can_update");
    ("delete", "can_delete")
  ].

(** The column of admin_permissions that the interpolated name [col]
    denotes. *)
Definition permission_col (col : string) (p : AdminPermission) : option Z :=
  if decide (col = "can_view") then Some (p_can_view p)
  else if decide (col = "can_create") then Some (p_can_create p)
  else if decide (col = "can_update") then Some (p_can_update p)
  else if decide (col = "can_delete") then Some (p_can_delete p)
  else None.

Definition can (db : Store) (user_id : Z) (table_name action : string) : bool :=
  match ACTION_COL !! action with
  | None => false
  | Some col =>
      let row := first (join_where (admin_user_roles db) (admin_permissions db)
        (λ ur p, bool_decide (p_role_id p = ur_role_id ur)
                 && bool_decide (ur_user_id ur = user_id)
                 && bool_decide (p_table_name p = table_name)
                 && bool_decide (permission_col col p = Some 1))) in
      Py.truthy row
  end.

Definition ADMIN_ACTION_COL : gmap string string :=
  list_to_map [
    ("admin_access", "can_admin_access");
    ("user_create", "can_user_create");
    ("user_toggle", "can_user_toggle");
    ("user_role_add", "can_user_role_add");
    ("user_role_remove", "can_user_role_remove");
    ("role_create", "can_role_create");
    ("permissions_edit", "can_permissions_edit")
  ].

Definition panel_col (col : string) (ap : AdminPanelPermission) : option Z :=
  if decide (col = "can_admin_access") then Some (ap_can_admin_access ap)
  else if decide (col = "can_user_create") then Some (ap_can_user_create ap)
  else if decide (col = "can_user_toggle") then Some (ap_can_user_toggle ap)
  else if decide (col = "can_user_role_add") then Some (ap_can_user_role_add ap)
  else if decide (col = "can_user_role_remove") then Some (ap_can_user_role_remove ap)
  else if decide (col = "can_role_create") then Some (ap_can_role_create ap)
  else if decide (col = "can_permissions_edit") then Some (ap_can_permissions_edit ap)
  else None.

Definition can_admin_panel (db : Store) (user_id : Z) (action : string) : bool :=
  match ADMIN_ACTION_COL !! action with
  | None => false
  | Some col =>
      let row := first (join_where (admin_user_roles db) (admin_panel_permissions db)
        (λ ur ap, bool_decide (ap_role_id ap = ur_role_id ur)
                  && bool_decide (ur_user_id ur = user_id)
                  && bool_decide (panel_col col ap = Some 1))) in
      Py.truthy row
  end.

Definition KV_FIELDS : gset string :=
  list_to_set [
    "name"; "level"; "pt"; "cash"; "bank";
    "address"; "town"; "birthday"; "birthlocation";
    "eyecolor"; "height"
  ].

Definition can_kv_field (db : Store) (user_id : Z) (side : Z) (field_name : string) : bool :=
  if negb (bool_decide (side ∈ [0; 1; 2])) then false
  else if negb (bool_decide (field_name ∈ KV_FIELDS)) then false
  else if is_admin db user_id then true
  else
    let row := first (join_where (admin_user_roles db) (admin_kv_permissions db)
      (λ ur kp, bool_decide (kp_role_id kp = ur_role_id ur)
                && bool_decide (ur_user_id ur = user_id)
                && bool_decide (kp_side kp = side)
                && bool_decide (kp_field_name kp = field_name)
                && bool_decide (kp_can_edit kp = 1))) in
    Py.truthy row.

End Permissions.

(* ===================================================================== *)
(** ** app/crud_dynamic.py                                                *)
(* ===================================================================== *)

Module CrudDynamic.

(** A reflected column: its name and whether it belongs to the primary
    key. *)
Record Column : Type := { c_name : string; c_primary_key : bool }.

(** A reflected table. *)
Record Table : Type := { t_name : string; t_columns : list Column }.

(** The statements the module builds.  A row, a payload and a key map are
    dicts from column name to value; values are kept in the text form in
    which the forms submit them.  A where clause is the conjunction
    of the equalities [column == value] that [and_] receives. *)
Inductive Stmt : Type :=
  | Insert (table : string) (values : gmap string string)
  | Update (table : string) (whereclause : list (string * string))
           (values : gmap string string)
  | Delete (table : string) (whereclause : list (string * string)).

(** The database session [db]: the rows of every table, and the statements
    executed so far. *)
Record DbSession : Type := {
  data : gmap string (list (gmap string string));
  executed : list Stmt;
}.

Definition matches (whereclause : list (string * string))
    (row : gmap string string) : bool :=
  forallb (λ cv, bool_decide (row !! cv.1 = Some cv.2)) whereclause.

Definition rows_of (d : gmap string (list (gmap string string)))
    (table : string) : list (gmap string string) :=
  default [] (d !! table).

(** Effect of one statement on the stored rows. *)
Definition run (stmt : Stmt) (d : gmap string (list (gmap string string)))
    : gmap string (list (gmap string string)) :=
  match stmt with
  | Insert table values =>
      <[table := rows_of d table ++ [values]]> d
  | Update table whereclause values =>
      <[table := (λ row, if matches whereclause row then values ∪ row else row)
                   <$> rows_of d table]> d
  | Delete table whereclause =>
      <[table := List.filter (λ row, negb (matches whereclause row))
                   (rows_of d table)]> d
  end.

(** [db.execute(stmt)].  An UPDATE whose SET part is empty is no statement
    of SQL ([UPDATE t SET WHERE ...]): the server refuses it whatever the
    schema and the rows are, and [db.execute] raises the driver's error
    (a subclass of sqlalchemy's DBAPIError) with nothing changed.  Every
    other statement takes effect and is entered in [executed]. *)
Definition execute (stmt : Stmt) : M DbSession unit :=
  match stmt with
  | Update table _ values =>
      if decide (values = ∅)
      then raise (DBAPIError ("UPDATE " +:+ table +:+ " SET WHERE"))
      else modify (λ s, {| data := run stmt (data s);
                           executed := executed s ++ [stmt] |})
  | _ => modify (λ s, {| data := run stmt (data s);
                         executed := executed s ++ [stmt] |})
  end.

(** [db.commit()]: statements take effect when executed; committing adds
    nothing in this model. *)
Definition commit : M DbSession unit := ret tt.

Definition primary_key_columns (t : Table) : list Column :=
  List.filter c_primary_key (t_columns t).

(** The loop of [row_identity_filter] over the primary-key columns. *)
Fixpoint identity_conds (pks : list Column) (pk_values : gmap string string)
    (conds : list (string * string)) : Result (list (string * string)) :=
  match pks with
  | [] => Ok conds
  | c :: pks' =>
      match pk_values !! c_name c with
      | None => Raise (ValueError ("PK-Spalte fehlt: " +:+ c_name c))
      | Some v => identity_conds pks' pk_values (conds ++ [(c_name c, v)])
      end
  end.

Definition row_identity_filter (t : Table) (pk_values : gmap string string)
    : Result (list (string * string)) :=
  let pks := primary_key_columns t in
  match pks with
  | [] => Raise (ValueError
      "Tabelle hat keinen PRIMARY KEY; Edit/Delete ist unsicher. Bitte PK anlegen.")
  | _ => identity_conds pks pk_values []
  end.

Definition lift {S A : Type} (r : Result A) : M S A := λ s, (r, s).

(** [k in t.c] *)
Definition in_columns (t : Table) (k : string) : Prop :=
  k ∈ (c_name <$> t_columns t).

#[global] Instance in_columns_dec t k : Decision (in_columns t k).
Proof. unfold in_columns. apply _. Defined.

Definition create_row (t : Table) (data : gmap string string) : M DbSession unit :=
  let payload := filter (λ kv, in_columns t kv.1) data in
  let stmt := Insert (t_name t) payload in
  execute stmt;;
  commit.

(** The where clause is built, and may raise, before the statement is
    executed; [execute] raises when the payload is empty. *)
Definition update_row (t : Table) (pk_values data : gmap string string)
    : M DbSession unit :=
  let payload :=
    filter (λ kv, in_columns t kv.1 ∧ pk_values !! kv.1 = None) data in
  whereclause ← lift (row_identity_filter t pk_values);
  let stmt := Update (t_name t) whereclause payload in
  execute stmt;;
  commit.

Definition delete_row (t : Table) (pk_values : gmap string string)
    : M DbSession unit :=
  whereclause ← lift (row_identity_filter t pk_values);
  let stmt := Delete (t_name t) whereclause in
  execute stmt;;
  commit.


(** [list_rows]: the SELECT reads and changes nothing; it is not entered in
    [executed], which keeps the statements that write.  Rows come in stored
    order. *)
Definition list_rows (t : Table) (limit offset : nat)
    : M DbSession (list (gmap string string)) :=
  gets (λ s, take limit (drop offset (rows_of (data s) (t_name t)))).

End CrudDynamic.

(* ===================================================================== *)
(** ** Requests: session, flash messages, responses                       *)
(* ===================================================================== *)

Module Web.
Import Db.

(** [request.session]: the signed-in user id and the flash queue of
    (message, category) entries. *)
Record Session : Type := {
  user_id : option Z;
  flash_store : list (string * string);
}.

(** What a handler can read and change: the database, the session of the
    request, and the clock behind CURRENT_TIMESTAMP. *)
Record World : Type := {
  db : Store;
  session : Session;
  now : Z;
}.

(** The responses the modelled handlers return.  The template context is
    reduced to its [error] entry. *)
Inductive Response : Type :=
  | TemplateResponse (name : string) (error : option string)
  | RedirectResponse (url : string) (status_code : Z).

Definition set_db (d : Store) (w : World) : World :=
  {| db := d; session := session w; now := now w |}.

Definition set_session (s : Session) (w : World) : World :=
  {| db := db w; session := s; now := now w |}.

(** app/auth.py *)
Definition get_user_id : M World (option Z) :=
  gets (λ w, user_id (session w)).

(** [not uid]: a missing id and the id 0 are both falsy. *)
Definition falsy_uid (uid : option Z) : bool :=
  match uid with
  | None => true
  | Some u => bool_decide (u = 0)
  end.

(** app/flash.py *)
Definition flash (message category : string) : M World unit :=
  modify (λ w, set_session
    {| user_id := user_id (session w);
       flash_store := flash_store (session w) ++ [(message, category)] |} w).

End Web.

(* ===================================================================== *)
(** ** app/routers/admin_players.py                                       *)
(* ===================================================================== *)

Module AdminPlayers.
Import Db Web Permissions.

Definition SIDE_LABEL : gmap Z string :=
  list_to_map [(0, "Ziv"); (1, "Cop"); (2, "UNCDA")].

(** [str(SIDE_LABEL.get(side))] as the f-strings print it. *)
Definition side_label (side : Z) : string :=
  default "None" (SIDE_LABEL !! side).

Definition require_admin : M World Z :=
  uid ← get_user_id;
  if falsy_uid uid then raise (HTTPException 401)
  else
    let uid := default 0 uid in
    d ← gets db;
    if is_admin d uid then mret uid
    else if negb (can_admin_panel d uid "admin_access")
    then raise (HTTPException 403)
    else mret uid.

Definition require_current_uid : M World Z :=
  uid ← get_user_id;
  if falsy_uid uid then raise (HTTPException 401)
  else mret (default 0 uid).

(** *** Info speichern (pro Side) *)

Definition fields : list string :=
  ["name"; "level"; "pt"; "cash"; "bank"; "address"; "town"; "birthday";
   "birthlocation"; "eyecolor"; "height"].

(** INSERT INTO kvstore ... ON DUPLICATE KEY UPDATE v, t *)
Definition kv_upsert (pid k : string) (side : Z) (v : string) (d : Store) : Store :=
  set_kvstore
    (<[(pid, k, side) := {| kv_v := v; kv_t := Some "STRING" |}]> (kvstore d)) d.

(** One turn of the loop over [fields]; the result is [wrote_any]. *)
Definition save_field (current_uid : Z) (uid : string) (side : Z)
    (form : gmap string string) (wrote_any : bool) (f : string) : M World bool :=
  d ← gets db;
  if negb (can_kv_field d current_uid side f) then mret wrote_any
  else
    let val := Py.strip (Py.or_else (form !! f) "") in
    if decide (val = "") then mret wrote_any
    else
      modify (λ w, set_db (kv_upsert uid f side val (db w)) w);;
      mret true.

Fixpoint for_fields (body : bool → string → M World bool) (wrote_any : bool)
    (fs : list string) : M World bool :=
  match fs with
  | [] => mret wrote_any
  | f :: fs' => wrote_any' ← body wrote_any f; for_fields body wrote_any' fs'
  end.

(** The handler.  The permission checks read through the session [db] and
    the upserts go through the connection [conn] of one transaction; both see
    the same database, and the upserts touch kvstore only. *)
Definition save_player_info_side (uid : string) (side : Z)
    (form : gmap string string) : M World Response :=
  require_admin;;
  if negb (bool_decide (side ∈ [0; 1; 2])) then raise (HTTPException 400)
  else
    current_uid ← require_current_uid;
    wrote_any ← for_fields (save_field current_uid uid side form) false fields;
    (if wrote_any : bool
     then flash ("Info gespeichert (" +:+ side_label side +:+ ").") "success"
     else flash ("Keine Änderungen gespeichert (" +:+ side_label side +:+ ").")
                "warning");;
    mret (RedirectResponse ("/admin/players/" +:+ uid +:+ "?tab=info") 303).

(** *** Support cases *)

Definition case_selected (case_id : Z) (uid : string) (c : SupportCase) : bool :=
  bool_decide (sc_id c = case_id) && bool_decide (sc_player_pid c = uid).

Definition support_update (uid : string) (case_id : Z)
    (case_type supporter_name area scn content status : string)
    : M World Response :=
  require_admin;;
  let status :=
    if negb (bool_decide (status ∈ ["open"; "closed"])) then "open" else status in
  modify (λ w, set_db (set_support_cases
    ((λ c, if case_selected case_id uid c
           then {| sc_id := sc_id c;
                   sc_player_pid := sc_player_pid c;
                   sc_player_name := sc_player_name c;
                   sc_case_type := Py.strip case_type;
                   sc_area := Py.strip (Py.or_else (Some area) "Support");
                   sc_supporter_name := Py.strip supporter_name;
                   sc_scn := Some (Py.strip (Py.or_else (Some scn) ""));
                   sc_content := Some (Py.or_else (Some content) "");
                   sc_status := status |}
           else c) <$> support_cases (db w)) (db w)) w);;
  flash "Supportfall gespeichert." "success";;
  mret (RedirectResponse ("/admin/players/" +:+ uid +:+ "?tab=support") 303).

(** CASE WHEN status='open' THEN 'closed' ELSE 'open' END *)
Definition toggled_status (status : string) : string :=
  if decide (status = "open") then "closed" else "open".

Definition set_status (status : string) (c : SupportCase) : SupportCase :=
  {| sc_id := sc_id c;
     sc_player_pid := sc_player_pid c;
     sc_player_name := sc_player_name c;
     sc_case_type := sc_case_type c;
     sc_area := sc_area c;
     sc_supporter_name := sc_supporter_name c;
     sc_scn := sc_scn c;
     sc_content := sc_content c;
     sc_status := status |}.

Definition support_toggle_status (uid : string) (case_id : Z) : M World Response :=
  require_admin;;
  modify (λ w, set_db (set_support_cases
    ((λ c, if case_selected case_id uid c
           then set_status (toggled_status (sc_status c)) c
           else c) <$> support_cases (db w)) (db w)) w);;
  flash "Status geändert." "info";;
  mret (RedirectResponse ("/admin/players/" +:+ uid +:+ "?tab=support") 303).

(** *** Vehicle quick actions *)

Definition allowed : gset string :=
  list_to_set ["restore"; "lock"; "unlock"; "sell"; "unsell"; "kill"; "revive"].

(** The SET fragment of every quick action, as its list of assignments. *)
Definition sets : gmap string (list (string * Z)) :=
  list_to_map [
    ("restore", [("active", 1); ("sold", 0); ("alive", 1)]);
    ("lock", [("locked", 1)]);
    ("unlock", [("locked", 0)]);
    ("sell", [("sold", 1)]);
    ("unsell", [("sold", 0)]);
    ("kill", [("alive", 0)]);
    ("revive", [("alive", 1)])
  ].

(** One assignment [col=val] of a SET fragment. *)
Definition assign (v : Vehicle) (cv : string * Z) : Vehicle :=
  let col := cv.1 in
  let val := cv.2 in
  {| v_id := v_id v;
     v_side := v_side v;
     v_classname := v_classname v;
     v_type := v_type v;
     v_pid := v_pid v;
     v_alive := if decide (col = "alive") then val else v_alive v;
     v_active := if decide (col = "active") then val else v_active v;
     v_sold := if decide (col = "sold") then val else v_sold v;
     v_locked := if decide (col = "locked") then val else v_locked v;
     v_color := v_color v;
     v_trunk := v_trunk v;
     v_chip := v_chip v;
     v_ts_bought := v_ts_bought v;
     v_ts_modified := v_ts_modified v |}.

Definition set_ts_modified (ts : Z) (v : Vehicle) : Vehicle :=
  {| v_id := v_id v;
     v_side := v_side v;
     v_classname := v_classname v;
     v_type := v_type v;
     v_pid := v_pid v;
     v_alive := v_alive v;
     v_active := v_active v;
     v_sold := v_sold v;
     v_locked := v_locked v;
     v_color := v_color v;
     v_trunk := v_trunk v;
     v_chip := v_chip v;
     v_ts_bought := v_ts_bought v;
     v_ts_modified := ts |}.

Definition vehicle_quick_action (vehicle_id : Z) (action : string)
    : M World Response :=
  require_admin;;
  if negb (bool_decide (action ∈ allowed)) then raise (HTTPException 400)
  else
    match sets !! action with
    | None => raise (KeyError action)
    | Some assignments =>
        modify (λ w, set_db (set_vehicles
          ((λ v, if bool_decide (v_id v = vehicle_id)
                 then set_ts_modified (now w) (foldl assign v assignments)
                 else v) <$> vehicles (db w)) (db w)) w);;
        pid ← gets (λ w, v_pid <$> first (select_where (vehicles (db w))
                           (λ v, bool_decide (v_id v = vehicle_id))));
        flash ("Quick-Action: " +:+ action) "info";;
        mret (RedirectResponse
                ("/admin/players/" +:+ default "None" pid +:+ "?tab=vehicles") 303)
    end.


(** *** The other support-case and vehicle handlers *)

(** The name query of [player_detail] and [support_create]: COALESCE, in the
    order of the sides 0, 1, 2, of the value stored under k='name' (the key
    (pid, k, side) is primary, so each MAX ranges over at most one row). *)
Definition name_query (uid : string) (d : Store) : option string :=
  let name_of (side : Z) := kv_v <$> kvstore d !! (uid, "name", side) in
  match name_of 0 with
  | Some n => Some n
  | None =>
      match name_of 1 with
      | Some n => Some n
      | None => name_of 2
      end
  end.

(** [case_id] stands for the AUTO_INCREMENT id the database gives the new
    row; rows are kept in insertion order. *)
Definition support_create (case_id : Z)
    (uid case_type supporter_name area scn content : string) : M World Response :=
  require_admin;;
  player_name ← gets (λ w, Py.or_else (name_query uid (db w)) uid);
  modify (λ w, set_db (set_support_cases
    (support_cases (db w) ++
      [ {| sc_id := case_id;
           sc_player_pid := uid;
           sc_player_name := Some player_name;
           sc_case_type := Py.strip case_type;
           sc_area := Py.strip (Py.or_else (Some area) "Support");
           sc_supporter_name := Py.strip supporter_name;
           sc_scn := Some (Py.strip (Py.or_else (Some scn) ""));
           sc_content := Some (Py.or_else (Some content) "");
           sc_status := "open" |} ]) (db w)) w);;
  flash "Supportfall erstellt." "success";;
  mret (RedirectResponse ("/admin/players/" +:+ uid +:+ "?tab=support") 303).

(** The handler answers with the template and the case it renders. *)
Definition support_edit (uid : string) (case_id : Z)
    : M World (string * SupportCase) :=
  require_admin;;
  row ← gets (λ w, first (select_where (support_cases (db w))
                            (case_selected case_id uid)));
  match row with
  | None => raise (HTTPException 404)
  | Some c => mret ("support_edit.html", c)
  end.

Definition support_delete (uid : string) (case_id : Z) : M World Response :=
  require_admin;;
  modify (λ w, set_db (set_support_cases
    (List.filter (λ c, negb (case_selected case_id uid c))
       (support_cases (db w))) (db w)) w);;
  flash "Supportfall gelöscht." "warning";;
  mret (RedirectResponse ("/admin/players/" +:+ uid +:+ "?tab=support") 303).

Definition vehicle_edit (vehicle_id : Z) : M World (string * Vehicle) :=
  require_admin;;
  v ← gets (λ w, first (select_where (vehicles (db w))
                          (λ v, bool_decide (v_id v = vehicle_id))));
  match v with
  | None => raise (HTTPException 404)
  | Some v => mret ("vehicle_edit.html", v)
  end.

(** The checkbox reader [cb] of [vehicle_update]. *)
Definition cb (v : string) : Z :=
  if bool_decide (Py.lower v ∈ ["1"; "true"; "on"; "yes"]) then 1 else 0.

Definition vehicle_update (vehicle_id : Z) (alive active sold locked : string)
    (color : Z) (trunk : string) : M World Response :=
  require_admin;;
  modify (λ w, set_db (set_vehicles
    ((λ v, if bool_decide (v_id v = vehicle_id)
           then {| v_id := v_id v;
                   v_side := v_side v;
                   v_classname := v_classname v;
                   v_type := v_type v;
                   v_pid := v_pid v;
                   v_alive := cb alive;
                   v_active := cb active;
                   v_sold := cb sold;
                   v_locked := cb locked;
                   v_color := color;
                   v_trunk := Py.or_else (Some trunk) "";
                   v_chip := v_chip v;
                   v_ts_bought := v_ts_bought v;
                   v_ts_modified := now w |}
           else v) <$> vehicles (db w)) (db w)) w);;
  pid ← gets (λ w, v_pid <$> first (select_where (vehicles (db w))
                     (λ v, bool_decide (v_id v = vehicle_id))));
  flash "Fahrzeug gespeichert." "success";;
  mret (RedirectResponse
          ("/admin/players/" +:+ default "None" pid +:+ "?tab=vehicles") 303).

End AdminPlayers.

(* ===================================================================== *)
(** ** app/routers/auth_routes.py                                         *)
(* ===================================================================== *)

Module AuthRoutes.
Import Db Web.

Section Login.
(** [verify_password] of app/auth.py hands the check to passlib's bcrypt
    context; the embedding takes it as a parameter. *)
Variable verify_password : string → string → bool.

Definition login (username password : string) : M World Response :=
  row ← gets (λ w, first (select_where (admin_users (db w))
                 (λ u, bool_decide (au_username u = username))));
  match row with
  | None => mret (TemplateResponse "login.html" (Some "Login fehlgeschlagen."))
  | Some u =>
      if bool_decide (au_is_active u = 0)
         || negb (verify_password password (au_password_hash u))
      then mret (TemplateResponse "login.html" (Some "Login fehlgeschlagen."))
      else
        modify (λ w, set_session
          {| user_id := Some (au_id u);
             flash_store := flash_store (session w) |} w);;
        mret (RedirectResponse "/tables" 303)
  end.
End Login.


Definition root : M World Response :=
  uid ← get_user_id;
  mret (RedirectResponse (if falsy_uid uid then "/login" else "/tables") 303).

Definition login_page : M World Response :=
  mret (TemplateResponse "login.html" None).

(** [request.session.clear()] empties the whole session, flash queue
    included. *)
Definition logout : M World Response :=
  modify (set_session {| user_id := None; flash_store := [] |});;
  mret (RedirectResponse "/login" 303).

End AuthRoutes.

(* ===================================================================== *)
(** ** app/config.py and app/routers/table_routes.py                      *)
(* ===================================================================== *)

Module TableRoutes.
Import Db Web Permissions CrudDynamic.

Definition TABLE_UI_RULES : gmap string (gmap string bool) :=
  list_to_map [
    ("plog", list_to_map [("disable_create", true); ("disable_update", true);
                          ("disable_delete", true); ("disable_edit_ui", false)]);
    ("player_alias", list_to_map [("disable_create", true);
                                  ("disable_update", true);
                                  ("disable_delete", true)])
  ].

(** [TABLE_UI_RULES.get(table_name, {})] *)
Definition rules_of (table_name : string) : gmap string bool :=
  default ∅ (TABLE_UI_RULES !! table_name).

(** [rules.get(key, False)] *)
Definition rule (rules : gmap string bool) (key : string) : bool :=
  default false (rules !! key).

(** *** The one database, read in two ways

    The handlers of this module reach the database twice: [can] sends SQL
    text and reads typed rows of the admin tables, the dynamic CRUD reflects
    any table by name and reads and writes rows as dicts.  Both work on the
    same rows.  The state holds them once, in the form of the dynamic CRUD
    (column name to text), and [store_of] reads the typed tables off them,
    integers in decimal notation.  A row takes part in the typed queries when
    it holds the columns those queries select by; an integer column the row
    lacks reads as 0 and a text column it lacks as the empty string (defaults
    the server fills in and auto-increment ids are not modelled). *)

Definition int_of (s : string) : option Z :=
  Z.of_int <$> NilZero.int_of_string s.

Definition key_int (row : gmap string string) (col : string) : option Z :=
  row !! col ≫= int_of.

Definition int_or_0 (row : gmap string string) (col : string) : Z :=
  default 0 (key_int row col).

Definition text_or_empty (row : gmap string string) (col : string) : string :=
  default "" (row !! col).

Definition admin_user_of (row : gmap string string) : option AdminUser :=
  id ← key_int row "id";
  username ← row !! "username";
  Some {| au_id := id; au_username := username;
          au_password_hash := text_or_empty row "password_hash";
          au_is_active := int_or_0 row "is_active" |}.

Definition admin_role_of (row : gmap string string) : option AdminRole :=
  id ← key_int row "id";
  name ← row !! "name";
  Some {| r_id := id; r_name := name |}.

Definition admin_user_role_of (row : gmap string string) : option AdminUserRole :=
  user_id ← key_int row "user_id";
  role_id ← key_int row "role_id";
  Some {| ur_user_id := user_id; ur_role_id := role_id |}.

Definition admin_permission_of (row : gmap string string) : option AdminPermission :=
  role_id ← key_int row "role_id";
  table_name ← row !! "table_name";
  Some {| p_role_id := role_id; p_table_name := table_name;
          p_can_view := int_or_0 row "can_view";
          p_can_create := int_or_0 row "can_create";
          p_can_update := int_or_0 row "can_update";
          p_can_delete := int_or_0 row "can_delete" |}.

Definition admin_panel_permission_of (row : gmap string string)
    : option AdminPanelPermission :=
  role_id ← key_int row "role_id";
  Some {| ap_role_id := role_id;
          ap_can_admin_access := int_or_0 row "can_admin_access";
          ap_can_user_create := int_or_0 row "can_user_create";
          ap_can_user_toggle := int_or_0 row "can_user_toggle";
          ap_can_user_role_add := int_or_0 row "can_user_role_add";
          ap_can_user_role_remove := int_or_0 row "can_user_role_remove";
          ap_can_role_create := int_or_0 row "can_role_create";
          ap_can_permissions_edit := int_or_0 row "can_permissions_edit" |}.

Definition admin_kv_permission_of (row : gmap string string)
    : option AdminKvPermission :=
  role_id ← key_int row "role_id";
  side ← key_int row "side";
  field_name ← row !! "field_name";
  Some {| kp_role_id := role_id; kp_side := side; kp_field_name := field_name;
          kp_can_edit := int_or_0 row "can_edit" |}.

Definition kv_of (row : gmap string string)
    : option ((string * string * Z) * KvValue) :=
  pid ← row !! "pid";
  k ← row !! "k";
  side ← key_int row "side";
  Some ((pid, k, side), {| kv_v := text_or_empty row "v"; kv_t := row !! "t" |}).

Definition support_case_of (row : gmap string string) : option SupportCase :=
  id ← key_int row "id";
  player_pid ← row !! "player_pid";
  Some {| sc_id := id; sc_player_pid := player_pid;
          sc_player_name := row !! "player_name";
          sc_case_type := text_or_empty row "case_type";
          sc_area := text_or_empty row "area";
          sc_supporter_name := text_or_empty row "supporter_name";
          sc_scn := row !! "scn";
          sc_content := row !! "content";
          sc_status := text_or_empty row "status" |}.

Definition vehicle_of (row : gmap string string) : option Vehicle :=
  id ← key_int row "id";
  Some {| v_id := id;
          v_side := text_or_empty row "side";
          v_classname := text_or_empty row "classname";
          v_type := text_or_empty row "type";
          v_pid := text_or_empty row "pid";
          v_alive := int_or_0 row "alive";
          v_active := int_or_0 row "active";
          v_sold := int_or_0 row "sold";
          v_locked := int_or_0 row "locked";
          v_color := int_or_0 row "color";
          v_trunk := text_or_empty row "trunk";
          v_chip := int_or_0 row "chip";
          v_ts_bought := int_or_0 row "ts_bought";
          v_ts_modified := int_or_0 row "ts_modified" |}.

Definition store_of (d : gmap string (list (gmap string string))) : Store :=
  {| admin_users := omap admin_user_of (rows_of d "admin_users");
     admin_roles := omap admin_role_of (rows_of d "admin_roles");
     admin_user_roles := omap admin_user_role_of (rows_of d "admin_user_roles");
     admin_permissions := omap admin_permission_of (rows_of d "admin_permissions");
     admin_panel_permissions :=
       omap admin_panel_permission_of (rows_of d "admin_panel_permissions");
     admin_kv_permissions :=
       omap admin_kv_permission_of (rows_of d "admin_kv_permissions");
     kvstore := list_to_map (omap kv_of (rows_of d "kvstore"));
     support_cases := omap support_case_of (rows_of d "support_cases");
     vehicles := omap vehicle_of (rows_of d "vehicles") |}.

(** What the table handlers work on: the session of the request, the schema
    the engine reflects (the columns of every table that exists), and the
    database session, which holds the rows of every table, the admin tables
    among them. *)
Record TableWorld : Type := {
  tw_session : Session;
  tw_schema : gmap string (list Column);
  tw_db : DbSession;
}.

(** The typed tables as [can] and the other SQL text queries find them. *)
Definition tw_store (w : TableWorld) : Store := store_of (data (tw_db w)).

Definition set_tw_db (s : DbSession) (w : TableWorld) : TableWorld :=
  {| tw_session := tw_session w; tw_schema := tw_schema w; tw_db := s |}.

(** How a table handler ends: with its value, with one of the exceptions of
    the handlers, or with the NoSuchTableError of the reflection. *)
Inductive Outcome (A : Type) : Type :=
  | Returned (a : A)
  | Raised (e : Exn)
  | NoSuchTableError (table_name : string).
Arguments Returned {A} a.
Arguments Raised {A} e.
Arguments NoSuchTableError {A} table_name.

Definition require_login (w : TableWorld) : Result Z :=
  let uid := user_id (tw_session w) in
  if falsy_uid uid then Raise (HTTPException 401) else Ok (default 0 uid).

(** [get_table(engine, table_name)]: [None] stands for NoSuchTableError. *)
Definition get_table (w : TableWorld) (table_name : string) : option Table :=
  (λ cols, {| t_name := table_name; t_columns := cols |}) <$> tw_schema w !! table_name.

(** What [table_view] hands to the template. *)
Record TablePage : Type := {
  page_table : string;
  page_cols : list string;
  page_rows : list (gmap string string);
  page_pks : list string;
  page_perms : gmap string bool;
}.

Definition table_view (table_name : string) (w : TableWorld)
    : Outcome TablePage * TableWorld :=
  match require_login w with
  | Raise e => (Raised e, w)
  | Ok uid =>
      if negb (can (tw_store w) uid table_name "view")
      then (Raised (HTTPException 403), w)
      else
        match get_table w table_name with
        | None => (NoSuchTableError table_name, w)
        | Some t =>
            match list_rows t 200 0 (tw_db w) with
            | (Raise e, s') => (Raised e, set_tw_db s' w)
            | (Ok rows, s') =>
                let w := set_tw_db s' w in
                let cols := c_name <$> t_columns t in
                let pks := c_name <$> primary_key_columns t in
                let rules := rules_of table_name in
                let can_view := can (tw_store w) uid table_name "view" in
                let can_create := can (tw_store w) uid table_name "create" in
                let can_update := can (tw_store w) uid table_name "update" in
                let can_delete := can (tw_store w) uid table_name "delete" in
                let edit_ui_disabled := rule rules "disable_edit_ui" in
                let has_pks := negb (bool_decide (pks = [])) in
                let perms : gmap string bool :=
                  list_to_map [
                    ("view", can_view);
                    ("create", can_create && negb (rule rules "disable_create"));
                    ("update", can_update && has_pks
                               && negb (rule rules "disable_update")
                               && negb edit_ui_disabled);
                    ("delete", can_delete && has_pks
                               && negb (rule rules "disable_delete"))
                  ] in
                (Returned {| page_table := table_name; page_cols := cols;
                             page_rows := rows; page_pks := pks;
                             page_perms := perms |}, w)
            end
        end
  end.

Definition table_create (table_name : string) (form : gmap string string)
    (w : TableWorld) : Outcome Response * TableWorld :=
  match require_login w with
  | Raise e => (Raised e, w)
  | Ok uid =>
      let rules := rules_of table_name in
      if negb (can (tw_store w) uid table_name "create")
         || rule rules "disable_create"
      then (Raised (HTTPException 403), w)
      else
        match get_table w table_name with
        | None => (NoSuchTableError table_name, w)
        | Some t =>
            match create_row t form (tw_db w) with
            | (Raise e, s') => (Raised e, set_tw_db s' w)
            | (Ok _, s') =>
                (Returned (RedirectResponse ("/table/" +:+ table_name) 303),
                 set_tw_db s' w)
            end
        end
  end.

(** [{pk: form[f"pk_{pk}"] for pk in pks}]: the first key the form lacks
    raises KeyError. *)
Fixpoint pk_values_of (pks : list string) (form : gmap string string)
    : Result (gmap string string) :=
  match pks with
  | [] => Ok ∅
  | pk :: pks' =>
      match form !! ("pk_" +:+ pk) with
      | None => Raise (KeyError ("pk_" +:+ pk))
      | Some v =>
          match pk_values_of pks' form with
          | Ok m => Ok (<[pk := v]> m)
          | Raise e => Raise e
          end
      end
  end.

Definition table_update (table_name : string) (form : gmap string string)
    (w : TableWorld) : Outcome Response * TableWorld :=
  match require_login w with
  | Raise e => (Raised e, w)
  | Ok uid =>
      let rules := rules_of table_name in
      if negb (can (tw_store w) uid table_name "update")
         || rule rules "disable_update"
      then (Raised (HTTPException 403), w)
      else
        match get_table w table_name with
        | None => (NoSuchTableError table_name, w)
        | Some t =>
            let pks := c_name <$> primary_key_columns t in
            match pk_values_of pks form with
            | Raise e => (Raised e, w)
            | Ok pk_values =>
                let form_data :=
                  filter (λ kv : string * string,
                            Py.startswith kv.1 "pk_" = false) form in
                match update_row t pk_values form_data (tw_db w) with
                | (Raise e, s') => (Raised e, set_tw_db s' w)
                | (Ok _, s') =>
                    (Returned (RedirectResponse ("/table/" +:+ table_name) 303),
                     set_tw_db s' w)
                end
            end
        end
  end.

Definition table_delete (table_name : string) (form : gmap string string)
    (w : TableWorld) : Outcome Response * TableWorld :=
  match require_login w with
  | Raise e => (Raised e, w)
  | Ok uid =>
      let rules := rules_of table_name in
      if negb (can (tw_store w) uid table_name "delete")
         || rule rules "disable_delete"
      then (Raised (HTTPException 403), w)
      else
        match get_table w table_name with
        | None => (NoSuchTableError table_name, w)
        | Some t =>
            let pks := c_name <$> primary_key_columns t in
            match pk_values_of pks form with
            | Raise e => (Raised e, w)
            | Ok pk_values =>
                match delete_row t pk_values (tw_db w) with
                | (Raise e, s') => (Raised e, set_tw_db s' w)
                | (Ok _, s') =>
                    (Returned (RedirectResponse ("/table/" +:+ table_name) 303),
                     set_tw_db s' w)
                end
            end
        end
  end.

End TableRoutes.


(* ===================================================================== *)
(** ** app/routers/admin_routes.py                                        *)
(* ===================================================================== *)

Module AdminRoutes.
Import Db Web Permissions.

Definition require_admin : M World Z :=
  uid ← get_user_id;
  if falsy_uid uid then raise (HTTPException 401)
  else
    let uid := default 0 uid in
    d ← gets db;
    if is_admin d uid then mret uid
    else if negb (can_admin_panel d uid "admin_access")
    then raise (HTTPException 403)
    else mret uid.

Section CreateUser.
(** [hash_password] of app/auth.py hands the hashing to passlib's bcrypt
    context; the embedding takes it as a parameter. *)
Variable hash_password : string → string.

(** [user_id] stands for the AUTO_INCREMENT id the database gives the new
    row; rows are kept in insertion order. *)
Definition create_user (user_id : Z) (username password : string)
    : M World Response :=
  uid ← require_admin;
  d ← gets db;
  if negb (is_admin d uid || can_admin_panel d uid "user_create")
  then flash "Keine Berechtigung: User anlegen." "danger";;
       mret (RedirectResponse "/admin/users" 303)
  else
    let username := Py.strip username in
    if bool_decide (Py.len username < 3)
    then flash "Username zu kurz (min. 3)." "danger";;
         mret (RedirectResponse "/admin/users" 303)
    else if bool_decide (Py.len password < 8)
    then flash "Passwort zu kurz (min. 8)." "danger";;
         mret (RedirectResponse "/admin/users" 303)
    else
      let exists_ := first (select_where (admin_users d)
                              (λ u, bool_decide (au_username u = username))) in
      if Py.truthy exists_
      then flash "Username existiert bereits." "danger";;
           mret (RedirectResponse "/admin/users" 303)
      else
        modify (λ w, set_db (set_admin_users
          (admin_users (db w) ++
            [ {| au_id := user_id; au_username := username;
                 au_password_hash := hash_password password;
                 au_is_active := 1 |} ]) (db w)) w);;
        flash "User erfolgreich angelegt." "success";;
        mret (RedirectResponse "/admin/users" 303).
End CreateUser.

Definition toggle_user (user_id : Z) : M World Response :=
  uid ← require_admin;
  d ← gets db;
  if negb (is_admin d uid || can_admin_panel d uid "user_toggle")
  then flash "Keine Berechtigung: Aktiv/Inaktiv." "danger";;
       mret (RedirectResponse "/admin/users" 303)
  else
    modify (λ w, set_db (set_admin_users
      ((λ u, if bool_decide (au_id u = user_id)
             then {| au_id := au_id u; au_username := au_username u;
                     au_password_hash := au_password_hash u;
                     au_is_active := if bool_decide (au_is_active u = 1)
                                     then 0 else 1 |}
             else u) <$> admin_users (db w)) (db w)) w);;
    flash "User-Status geändert." "info";;
    mret (RedirectResponse "/admin/users" 303).

Definition remove_role (user_id role_id : Z) : M World Response :=
  uid ← require_admin;
  d ← gets db;
  if negb (is_admin d uid || can_admin_panel d uid "user_role_remove")
  then flash "Keine Berechtigung: Rolle entfernen." "danger";;
       mret (RedirectResponse "/admin/users" 303)
  else
    modify (λ w, set_db (set_admin_user_roles
      (List.filter (λ ur, negb (bool_decide (ur_user_id ur = user_id)
                                && bool_decide (ur_role_id ur = role_id)))
         (admin_user_roles (db w))) (db w)) w);;
    flash "Rolle entfernt." "warning";;
    mret (RedirectResponse "/admin/users" 303).

End AdminRoutes.

(* ===================================================================== *)
(** ** app/main.py                                                        *)
(* ===================================================================== *)

Module Main.
Import Db Web.

Section ExceptionHandler.

(** [app.default_exception_handler]: what the application does with an HTTP
    exception the handler below passes on. *)
Variable default_exception_handler : Exn → M World Response.

(** The handler registered for HTTP exceptions: a 403 becomes a flash
    message and a redirect to the referring page (or to the root when the
    request names none); every other HTTP exception is handed to
    [default_exception_handler].  The handler is registered for HTTP
    exceptions only, any other exception is not its business. *)
Definition custom_http_exception_handler (referer : option string) (exc : Exn)
    : M World Response :=
  match exc with
  | HTTPException status_code =>
      if bool_decide (status_code = 403)
      then flash "⛔ Keine Berechtigung für diese Aktion." "danger";;
           mret (RedirectResponse (default "/" referer) 303)
      else default_exception_handler exc
  | _ => raise exc
  end.

(** A route handler run under the application: what it raises passes
    through the exception handler. *)
Definition app (referer : option string) (handler : M World Response)
    : M World Response :=
  λ w, match handler w with
       | (Ok r, w') => (Ok r, w')
       | (Raise e, w') => custom_http_exception_handler referer e w'
       end.

End ExceptionHandler.

End Main.


(* ===================================================================== *)
(** * Vocabulary of the specification                                     *)
(* ===================================================================== *)

Import Db Permissions.

(** ** Roles and permission rows, in the words of the specification *)

(** The user holds the role called [name]. *)
Definition holds_role (db : Store) (user_id : Z) (name : string) : Prop :=
  ∃ ur r, ur ∈ admin_user_roles db ∧ r ∈ admin_roles db
          ∧ ur_user_id ur = user_id ∧ r_id r = ur_role_id ur ∧ r_name r = name.

(** The four table actions and the flag of a permission row each one
    stands for. *)
Definition table_actions : list string := ["view"; "create"; "update"; "delete"].

Definition action_flag (action : string) (p : AdminPermission) : option Z :=
  if decide (action = "view") then Some (p_can_view p)
  else if decide (action = "create") then Some (p_can_create p)
  else if decide (action = "update") then Some (p_can_update p)
  else if decide (action = "delete") then Some (p_can_delete p)
  else None.

(** Some role of the user has a permission row for the table with the flag
    of the action set. *)
Definition table_permission_row (db : Store) (user_id : Z)
    (table_name action : string) : Prop :=
  ∃ ur p, ur ∈ admin_user_roles db ∧ p ∈ admin_permissions db
          ∧ ur_user_id ur = user_id ∧ p_role_id p = ur_role_id ur
          ∧ p_table_name p = table_name ∧ action_flag action p = Some 1.

(** The seven admin-panel actions and their flags. *)
Definition panel_actions : list string :=
  ["admin_access"; "user_create"; "user_toggle"; "user_role_add";
   "user_role_remove"; "role_create"; "permissions_edit"].

Definition panel_flag (action : string) (ap : AdminPanelPermission) : option Z :=
  if decide (action = "admin_access") then Some (ap_can_admin_access ap)
  else if decide (action = "user_create") then Some (ap_can_user_create ap)
  else if decide (action = "user_toggle") then Some (ap_can_user_toggle ap)
  else if decide (action = "user_role_add") then Some (ap_can_user_role_add ap)
  else if decide (action = "user_role_remove") then Some (ap_can_user_role_remove ap)
  else if decide (action = "role_create") then Some (ap_can_role_create ap)
  else if decide (action = "permissions_edit") then Some (ap_can_permissions_edit ap)
  else None.

Definition panel_permission_row (db : Store) (user_id : Z) (action : string) : Prop :=
  ∃ ur ap, ur ∈ admin_user_roles db ∧ ap ∈ admin_panel_permissions db
           ∧ ur_user_id ur = user_id ∧ ap_role_id ap = ur_role_id ur
           ∧ panel_flag action ap = Some 1.

(** ** Sample databases *)

Module Samples.

Definition empty_store : Store :=
  {| admin_users := []; admin_roles := []; admin_user_roles := [];
     admin_permissions := []; admin_panel_permissions := [];
     admin_kv_permissions := []; kvstore := ∅;
     support_cases := []; vehicles := [] |}.

(** User 1 holds the role admin; no permission row of any kind exists. *)
Definition admin_store : Store :=
  {| admin_users :=
       [ {| au_id := 1; au_username := "root"; au_password_hash := "h1";
            au_is_active := 1 |} ];
     admin_roles := [ {| r_id := 1; r_name := "admin" |} ];
     admin_user_roles := [ {| ur_user_id := 1; ur_role_id := 1 |} ];
     admin_permissions := [];
     admin_panel_permissions := [];
     admin_kv_permissions := [];
     kvstore := ∅;
     support_cases := [];
     vehicles := [] |}.

(** User 2 holds the role editor, which may view table plog and edit the
    field name of side 0, and has no admin-panel row. *)
Definition editor_store : Store :=
  {| admin_users :=
       [ {| au_id := 2; au_username := "ed"; au_password_hash := "h2";
            au_is_active := 1 |} ];
     admin_roles := [ {| r_id := 5; r_name := "editor" |} ];
     admin_user_roles := [ {| ur_user_id := 2; ur_role_id := 5 |} ];
     admin_permissions :=
       [ {| p_role_id := 5; p_table_name := "plog"; p_can_view := 1;
            p_can_create := 0; p_can_update := 0; p_can_delete := 0 |} ];
     admin_panel_permissions := [];
     admin_kv_permissions :=
       [ {| kp_role_id := 5; kp_side := 0; kp_field_name := "name";
            kp_can_edit := 1 |} ];
     kvstore := ∅;
     support_cases := [];
     vehicles := [] |}.

End Samples.

(** ** The admin-panel gate, in the words of the specification *)

(** The request is signed in as [uid]. *)
Definition signed_in (w : Web.World) (uid : Z) : Prop :=
  Web.user_id (Web.session w) = Some uid ∧ uid ≠ 0.

(** The request passes the gate in front of every admin-panel handler: it
    is signed in, and the user holds the admin role or a role with the
    admin_access flag. *)
Definition passes_gate (w : Web.World) : Prop :=
  ∃ uid, signed_in w uid
         ∧ (holds_role (Web.db w) uid "admin"
            ∨ panel_permission_row (Web.db w) uid "admin_access").


(** ** Identity of a row, in the words of the specification *)

(** The table has no primary-key column, or one of its primary-key columns
    has no entry in the supplied key map. *)
Definition key_incomplete (t : CrudDynamic.Table)
    (pk_values : gmap string string) : Prop :=
  (∀ c, c ∈ CrudDynamic.t_columns t → CrudDynamic.c_primary_key c = false)
  ∨ (∃ c, c ∈ CrudDynamic.t_columns t ∧ CrudDynamic.c_primary_key c = true
          ∧ pk_values !! CrudDynamic.c_name c = None).


Module CrudSamples.
Import CrudDynamic.

(** kvstore as the reflector sees it: three key columns and two others. *)
Definition kvstore_table : Table :=
  {| t_name := "kvstore";
     t_columns :=
       [ {| c_name := "pid"; c_primary_key := true |};
         {| c_name := "k"; c_primary_key := true |};
         {| c_name := "side"; c_primary_key := true |};
         {| c_name := "v"; c_primary_key := false |};
         {| c_name := "t"; c_primary_key := false |} ] |}.

(** A log table without primary key. *)
Definition plog_table : Table :=
  {| t_name := "plog";
     t_columns :=
       [ {| c_name := "ts"; c_primary_key := false |};
         {| c_name := "msg"; c_primary_key := false |} ] |}.

Definition one_row_session : DbSession :=
  {| data := {[ "kvstore" :=
                  [ list_to_map [("pid", "76561"); ("k", "cash"); ("side", "0");
                                 ("v", "100"); ("t", "STRING")] ] ]};
     executed := [] |}.

End CrudSamples.


(** ** Login, in the words of the specification *)

(** The account a username denotes: the first row of admin_users that
    carries it (usernames are unique, so there is at most one). *)
Definition account (w : Web.World) (username : string) (u : AdminUser) : Prop :=
  ∃ before after,
    admin_users (Web.db w) = before ++ u :: after
    ∧ au_username u = username
    ∧ ∀ u', u' ∈ before → au_username u' ≠ username.

Section LoginVocabulary.
Variable verify_password : string → string → bool.

(** The three ways a login attempt fails. *)
Definition unknown_username (w : Web.World) (username : string) : Prop :=
  ∀ u, u ∈ admin_users (Web.db w) → au_username u ≠ username.

Definition deactivated (w : Web.World) (username : string) : Prop :=
  ∃ u, account w username u ∧ au_is_active u = 0.

Definition wrong_password (w : Web.World) (username password : string) : Prop :=
  ∃ u, account w username u
       ∧ verify_password password (au_password_hash u) = false.

(** All three checks pass for the account [u]. *)
Definition checks_pass (w : Web.World) (username password : string)
    (u : AdminUser) : Prop :=
  account w username u ∧ au_is_active u ≠ 0
  ∧ verify_password password (au_password_hash u) = true.

End LoginVocabulary.

(** The page every failed login is answered with. *)
Definition login_failed : Web.Response :=
  Web.TemplateResponse "login.html" (Some "Login fehlgeschlagen.").


(** ** Sample requests *)

Module WebSamples.
Import Web.

(** A support case of player 76561 whose stored status is neither open nor
    closed (the column is a free string, and the generic table editor can
    write any value into it). *)
Definition pending_case : SupportCase :=
  {| sc_id := 7; sc_player_pid := "76561"; sc_player_name := Some "Bob";
     sc_case_type := "Refund"; sc_area := "Support"; sc_supporter_name := "Eve";
     sc_scn := Some ""; sc_content := Some ""; sc_status := "pending" |}.

Definition open_case : SupportCase :=
  {| sc_id := 8; sc_player_pid := "76561"; sc_player_name := Some "Bob";
     sc_case_type := "Ban"; sc_area := "Support"; sc_supporter_name := "Eve";
     sc_scn := Some ""; sc_content := Some ""; sc_status := "open" |}.

Definition car : Vehicle :=
  {| v_id := 3; v_side := "civ"; v_classname := "C_SUV_01_F"; v_type := "Car";
     v_pid := "76561"; v_alive := 1; v_active := 0; v_sold := 0; v_locked := 0;
     v_color := 2; v_trunk := "[]"; v_chip := 0;
     v_ts_bought := 100; v_ts_modified := 100 |}.

(** The admin of [Samples.admin_store] signed in, two support cases and
    one vehicle on record. *)
Definition admin_world : World :=
  {| db := set_vehicles [car]
             (set_support_cases [pending_case; open_case] Samples.admin_store);
     session := {| user_id := Some 1; flash_store := [] |};
     now := 500 |}.

(** The same database, requested without a session. *)
Definition anonymous_world : World :=
  {| db := db admin_world;
     session := {| user_id := None; flash_store := [] |};
     now := 500 |}.

(** The editor of [Samples.editor_store] signed in: allowed to edit the
    field name of side 0, but without access to the admin panel. *)
Definition editor_world : World :=
  {| db := Samples.editor_store;
     session := {| user_id := Some 2; flash_store := [] |};
     now := 500 |}.

End WebSamples.


(** ** Enumerated inputs, in the words of the specification *)

(** The status that is persisted for a submitted one: itself when it is open
    or closed, and the default open otherwise. *)
Definition coerced_status (status : string) : string :=
  if decide (status ∈ ["open"; "closed"]) then status else "open".

(** The quick actions a vehicle knows. *)
Definition quick_actions : list string :=
  ["restore"; "lock"; "unlock"; "sell"; "unsell"; "kill"; "revive"].


(** ** Saving the info form, in the words of the specification *)

(** The value submitted for a field, trimmed; a missing entry counts as
    empty. *)
Definition submitted (form : gmap string string) (f : string) : string :=
  Py.strip (Py.or_else (form !! f) "").

(** The acting user passes the per-field permission check. *)
Definition field_permitted (w : Web.World) (side : Z) (f : string) : Prop :=
  ∃ u, signed_in w u ∧ can_kv_field (Web.db w) u side f = true.


(** ** The loop of the info form in closed form *)

(** What the loop over the fields leaves in the key/value store. *)
Definition saved_kv (d : Store) (current_uid : Z) (uid : string) (side : Z)
    (form : gmap string string) (fs : list string)
    (kv : gmap (string * string * Z) KvValue) : gmap (string * string * Z) KvValue :=
  foldl (λ kv f,
           if can_kv_field d current_uid side f
              && negb (bool_decide (submitted form f = ""))
           then <[(uid, f, side) := {| kv_v := submitted form f;
                                       kv_t := Some "STRING" |}]> kv
           else kv) kv fs.

Definition wrote (d : Store) (current_uid : Z) (side : Z)
    (form : gmap string string) (fs : list string) : bool :=
  existsb (λ f, can_kv_field d current_uid side f
                && negb (bool_decide (submitted form f = ""))) fs.

(** ** Keys of the dynamic CRUD, in plain words *)

(** The row carries, in every primary-key column of the table, the value the
    key map gives for that column. *)
Definition matches_key (t : CrudDynamic.Table) (pk_values : gmap string string)
    (row : gmap string string) : Prop :=
  ∀ c, c ∈ CrudDynamic.primary_key_columns t →
       row !! CrudDynamic.c_name c = pk_values !! CrudDynamic.c_name c.

(** The submitted data set no column: no submitted key is a column of the
    table that the key map does not name. *)
Definition sets_nothing (t : CrudDynamic.Table)
    (pk_values form_data : gmap string string) : Prop :=
  ∀ k, k ∈ (CrudDynamic.c_name <$> CrudDynamic.t_columns t) →
       pk_values !! k = None → form_data !! k = None.

(** The where clause has one equality per primary-key column, in column
    order, with the value of the key map. *)
Definition identifies (t : CrudDynamic.Table) (pk_values : gmap string string)
    (conds : list (string * string)) : Prop :=
  Forall2 (λ c cv, cv.1 = CrudDynamic.c_name c
                   ∧ pk_values !! CrudDynamic.c_name c = Some cv.2)
          (CrudDynamic.primary_key_columns t) conds.


(** ** Further vocabulary for the permission checks *)

(** Some role of the user has a key/value permission row for the side and
    the field with the edit flag set. *)
Definition kv_permission_row (db : Store) (user_id side : Z)
    (field_name : string) : Prop :=
  ∃ ur kp, ur ∈ admin_user_roles db ∧ kp ∈ admin_kv_permissions db
           ∧ ur_user_id ur = user_id ∧ kp_role_id kp = ur_role_id ur
           ∧ kp_side kp = side ∧ kp_field_name kp = field_name
           ∧ kp_can_edit kp = 1.

(** Every row of the five authorization tables of [db] is also in [db']. *)
Definition grants_more (db db' : Store) : Prop :=
  admin_user_roles db ⊆ admin_user_roles db'
  ∧ admin_roles db ⊆ admin_roles db'
  ∧ admin_permissions db ⊆ admin_permissions db'
  ∧ admin_panel_permissions db ⊆ admin_panel_permissions db'
  ∧ admin_kv_permissions db ⊆ admin_kv_permissions db'.


(** ** Vocabulary for the vehicle handlers *)

(** A checkbox value that counts as ticked: 1, true, on or yes, in any
    letter case. *)
Definition ticked (v : string) : Prop :=
  Py.lower v ∈ ["1"; "true"; "on"; "yes"].

(** The columns a vehicle keeps under every handler: what it is and whose. *)
Definition same_vehicle (v v' : Vehicle) : Prop :=
  v_id v' = v_id v ∧ v_side v' = v_side v ∧ v_classname v' = v_classname v
  ∧ v_type v' = v_type v ∧ v_pid v' = v_pid v ∧ v_chip v' = v_chip v
  ∧ v_ts_bought v' = v_ts_bought v.


(** ** Vocabulary for the admin panel *)

(** The request may perform the panel action: it passes the gate, and its
    user holds the admin role or a role with the flag of the action. *)
Definition panel_allowed (w : Web.World) (action : string) : Prop :=
  passes_gate w
  ∧ ∃ uid, signed_in w uid
           ∧ (holds_role (Web.db w) uid "admin"
              ∨ panel_permission_row (Web.db w) uid action).

(** A new account is acceptable: the trimmed username has at least three
    characters, the password at least eight, and no account carries the
    trimmed username. *)
Definition acceptable_account (d : Store) (username password : string) : Prop :=
  (3 ≤ Py.len (Py.strip username))%Z ∧ (8 ≤ Py.len password)%Z
  ∧ ∀ a, a ∈ admin_users d → au_username a ≠ Py.strip username.


(** ** Vocabulary for the table endpoints *)

(** The request may perform the action on the table: it is signed in, the
    user has the table permission, and the configuration does not disable
    the action for the table. *)
Definition table_allowed (w : TableRoutes.TableWorld)
    (table_name action : string) : Prop :=
  ∃ uid, Web.user_id (TableRoutes.tw_session w) = Some uid ∧ uid ≠ 0
         ∧ can (TableRoutes.tw_store w) uid table_name action = true
         ∧ TableRoutes.rule (TableRoutes.rules_of table_name)
             ("disable_" +:+ action) = false.

(** A sample world of the table endpoints: user 2 signed in, with a role
    that has every table permission on kvstore, plog and admin_permissions;
    the schema knows these tables, and kvstore holds one row. *)
Definition table_world : TableRoutes.TableWorld :=
  {| TableRoutes.tw_session := {| Web.user_id := Some 2; Web.flash_store := [] |};
     TableRoutes.tw_schema :=
       list_to_map [
         ("kvstore", CrudDynamic.t_columns CrudSamples.kvstore_table);
         ("plog", CrudDynamic.t_columns CrudSamples.plog_table);
         ("admin_permissions",
          [ {| CrudDynamic.c_name := "role_id"; CrudDynamic.c_primary_key := true |};
            {| CrudDynamic.c_name := "table_name"; CrudDynamic.c_primary_key := true |};
            {| CrudDynamic.c_name := "can_view"; CrudDynamic.c_primary_key := false |};
            {| CrudDynamic.c_name := "can_create"; CrudDynamic.c_primary_key := false |};
            {| CrudDynamic.c_name := "can_update"; CrudDynamic.c_primary_key := false |};
            {| CrudDynamic.c_name := "can_delete"; CrudDynamic.c_primary_key := false |} ])
       ];
     TableRoutes.tw_db :=
       {| CrudDynamic.data :=
            list_to_map [
              ("kvstore", CrudDynamic.rows_of
                            (CrudDynamic.data CrudSamples.one_row_session) "kvstore");
              ("admin_user_roles",
               [ list_to_map [("user_id", "2"); ("role_id", "5")] ]);
              ("admin_permissions",
               [ list_to_map [("role_id", "5"); ("table_name", "kvstore");
                              ("can_view", "1"); ("can_create", "1");
                              ("can_update", "1"); ("can_delete", "1")];
                 list_to_map [("role_id", "5"); ("table_name", "plog");
                              ("can_view", "1"); ("can_create", "1");
                              ("can_update", "1"); ("can_delete", "1")];
                 list_to_map [("role_id", "5"); ("table_name", "admin_permissions");
                              ("can_view", "1"); ("can_create", "1");
                              ("can_update", "1"); ("can_delete", "1")] ])
            ];
          CrudDynamic.executed := [] |} |}.


(** What the three writing table endpoints have in common: session and
    schema stay, and of the database only the rows of the named table can
    change; so the table permissions of every user stay as they are unless
    the named table is one of the two that [can] reads.  A request that is
    not allowed changes nothing and gets 401 without a session user and 403
    with one, whether or not the table exists; an allowed request for a
    table that does not exist ends in NoSuchTableError. *)
Definition guarded (action : string)
    (endpoint : string → gmap string string → TableRoutes.TableWorld
                → TableRoutes.Outcome Web.Response * TableRoutes.TableWorld)
    : Prop :=
  ∀ table_name form w,
    let r := endpoint table_name form w in
    TableRoutes.tw_session r.2 = TableRoutes.tw_session w
    ∧ TableRoutes.tw_schema r.2 = TableRoutes.tw_schema w
    ∧ (∀ n, n ≠ table_name →
         CrudDynamic.data (TableRoutes.tw_db r.2) !! n
         = CrudDynamic.data (TableRoutes.tw_db w) !! n)
    ∧ (table_name ∉ ["admin_user_roles"; "admin_permissions"] →
         ∀ uid t a, can (TableRoutes.tw_store r.2) uid t a
                    = can (TableRoutes.tw_store w) uid t a)
    ∧ (¬ table_allowed w table_name action →
         r.2 = w
         ∧ ((∀ uid, ¬ (Web.user_id (TableRoutes.tw_session w) = Some uid ∧ uid ≠ 0)) →
              r.1 = TableRoutes.Raised (HTTPException 401))
         ∧ (∀ uid, Web.user_id (TableRoutes.tw_session w) = Some uid → uid ≠ 0 →
              r.1 = TableRoutes.Raised (HTTPException 403)))
    ∧ (table_allowed w table_name action →
         TableRoutes.tw_schema w !! table_name = None →
         r = (TableRoutes.NoSuchTableError table_name, w)).


(* ===================================================================== *)
(** * Properties                                                          *)
(* ===================================================================== *)

(** ** Query helpers *)

Lemma truthy_first_iff {A : Type} (rows : list A) :
  Py.truthy (first rows) = true ↔ ∃ x, x ∈ rows.
Proof.
  destruct rows as [|x rows]; simpl; split.
  - discriminate.
  - intros [x Hx]. by apply elem_of_nil in Hx.
  - intros _. exists x. apply elem_of_cons. by left.
  - done.
Qed.

Lemma elem_of_join_where {A B : Type} (l : list A) (r : list B) cond a b :
  (a, b) ∈ join_where l r cond ↔ a ∈ l ∧ b ∈ r ∧ cond a b = true.
Proof.
  unfold join_where. rewrite list_elem_of_bind. split.
  - intros (a' & Hin & Ha'). apply list_elem_of_bind in Hin as (b' & Hin & Hb').
    destruct (cond a' b') eqn:Hc.
    + apply list_elem_of_singleton in Hin. by simplify_eq.
    + by apply elem_of_nil in Hin.
  - intros (Ha & Hb & Hc). exists a. split; [|done].
    apply list_elem_of_bind. exists b. split; [|done].
    rewrite Hc. by apply list_elem_of_singleton.
Qed.

Lemma truthy_join_iff {A B : Type} (l : list A) (r : list B) cond :
  Py.truthy (first (join_where l r cond)) = true
  ↔ ∃ a b, a ∈ l ∧ b ∈ r ∧ cond a b = true.
Proof.
  rewrite truthy_first_iff. split.
  - intros [[a b] H]. apply elem_of_join_where in H. eauto.
  - intros (a & b & H). exists (a, b). by apply elem_of_join_where.
Qed.

Lemma truthy_join_false {A B : Type} (l : list A) (r : list B) cond :
  (∀ a b, a ∈ l → b ∈ r → cond a b = false) →
  Py.truthy (first (join_where l r cond)) = false.
Proof.
  intros H. apply not_true_is_false. rewrite truthy_join_iff.
  intros (a & b & Ha & Hb & Hc). rewrite (H a b Ha Hb) in Hc. discriminate.
Qed.

(** ** Permission checks *)

Lemma is_admin_iff db user_id :
  is_admin db user_id = true ↔ holds_role db user_id "admin".
Proof.
  unfold is_admin, holds_role. rewrite truthy_join_iff. split.
  - intros (ur & r & Hur & Hr & Hc).
    rewrite !andb_true_iff, !bool_decide_eq_true in Hc.
    destruct Hc as [[? ?] ?]. exists ur, r. done.
  - intros (ur & r & Hur & Hr & ? & ? & ?). exists ur, r.
    rewrite !andb_true_iff, !bool_decide_eq_true. done.
Qed.

Lemma ACTION_COL_lookup action :
  ACTION_COL !! action =
    if decide (action = "view") then Some "can_view"
    else if decide (action = "create") then Some "can_create"
    else if decide (action = "update") then Some "can_update"
    else if decide (action = "delete") then Some "can_delete"
    else None.
Proof.
  unfold ACTION_COL. simpl.
  repeat (rewrite lookup_insert; case_decide; [subst; reflexivity|]).
  rewrite lookup_empty.
  repeat (case_decide; [congruence|]). done.
Qed.

Lemma ADMIN_ACTION_COL_lookup action :
  ADMIN_ACTION_COL !! action =
    if decide (action = "admin_access") then Some "can_admin_access"
    else if decide (action = "user_create") then Some "can_user_create"
    else if decide (action = "user_toggle") then Some "can_user_toggle"
    else if decide (action = "user_role_add") then Some "can_user_role_add"
    else if decide (action = "user_role_remove") then Some "can_user_role_remove"
    else if decide (action = "role_create") then Some "can_role_create"
    else if decide (action = "permissions_edit") then Some "can_permissions_edit"
    else None.
Proof.
  unfold ADMIN_ACTION_COL. simpl.
  repeat (rewrite lookup_insert; case_decide; [subst; reflexivity|]).
  rewrite lookup_empty.
  repeat (case_decide; [congruence|]). done.
Qed.

Lemma elem_of_table_actions action :
  action ∈ table_actions ↔
  action = "view" ∨ action = "create" ∨ action = "update" ∨ action = "delete".
Proof.
  unfold table_actions. rewrite !elem_of_cons, elem_of_nil. tauto.
Qed.

Lemma elem_of_panel_actions action :
  action ∈ panel_actions ↔
  action = "admin_access" ∨ action = "user_create" ∨ action = "user_toggle"
  ∨ action = "user_role_add" ∨ action = "user_role_remove"
  ∨ action = "role_create" ∨ action = "permissions_edit".
Proof.
  unfold panel_actions. rewrite !elem_of_cons, elem_of_nil. tauto.
Qed.

(** The row test of [can] at a known action is the flag test of the
    specification. *)
Lemma can_row_iff db user_id table_name action col :
  action ∈ table_actions → ACTION_COL !! action = Some col →
  (∃ ur p, ur ∈ admin_user_roles db ∧ p ∈ admin_permissions db ∧
     bool_decide (p_role_id p = ur_role_id ur)
     && bool_decide (ur_user_id ur = user_id)
     && bool_decide (p_table_name p = table_name)
     && bool_decide (permission_col col p = Some 1) = true)
  ↔ table_permission_row db user_id table_name action.
Proof.
  intros Ha Hcol. unfold table_permission_row.
  assert (∀ p, permission_col col p = Some 1 ↔ action_flag action p = Some 1) as Hflag.
  { intros p. rewrite ACTION_COL_lookup in Hcol.
    apply elem_of_table_actions in Ha.
    destruct Ha as [-> | [-> | [-> | ->]]]; simpl in Hcol; simplify_eq;
      unfold permission_col, action_flag; simpl; done. }
  split.
  - intros (ur & p & Hur & Hp & Hc).
    rewrite !andb_true_iff, !bool_decide_eq_true in Hc.
    destruct Hc as [[[? ?] ?] ?]. exists ur, p. rewrite <- Hflag. done.
  - intros (ur & p & Hur & Hp & ? & ? & ? & ?). exists ur, p.
    rewrite !andb_true_iff, !bool_decide_eq_true, Hflag. done.
Qed.

Lemma can_true_iff db user_id table_name action :
  can db user_id table_name action = true
  ↔ action ∈ table_actions ∧ table_permission_row db user_id table_name action.
Proof.
  unfold can. destruct (ACTION_COL !! action) as [col|] eqn:Hcol.
  - assert (action ∈ table_actions) as Ha.
    { rewrite ACTION_COL_lookup in Hcol. apply elem_of_table_actions.
      repeat (case_decide; [tauto|]). discriminate. }
    rewrite truthy_join_iff, (can_row_iff _ _ _ action col Ha Hcol). tauto.
  - split; [discriminate|]. intros [Ha _].
    rewrite ACTION_COL_lookup in Hcol. apply elem_of_table_actions in Ha.
    destruct Ha as [-> | [-> | [-> | ->]]]; discriminate.
Qed.

Lemma panel_row_iff db user_id action col :
  action ∈ panel_actions → ADMIN_ACTION_COL !! action = Some col →
  (∃ ur ap, ur ∈ admin_user_roles db ∧ ap ∈ admin_panel_permissions db ∧
     bool_decide (ap_role_id ap = ur_role_id ur)
     && bool_decide (ur_user_id ur = user_id)
     && bool_decide (panel_col col ap = Some 1) = true)
  ↔ panel_permission_row db user_id action.
Proof.
  intros Ha Hcol. unfold panel_permission_row.
  assert (∀ ap, panel_col col ap = Some 1 ↔ panel_flag action ap = Some 1) as Hflag.
  { intros ap. rewrite ADMIN_ACTION_COL_lookup in Hcol.
    apply elem_of_panel_actions in Ha.
    destruct Ha as [-> | [-> | [-> | [-> | [-> | [-> | ->]]]]]]; simpl in Hcol; simplify_eq;
      unfold panel_col, panel_flag; simpl; done. }
  split.
  - intros (ur & ap & Hur & Hap & Hc).
    rewrite !andb_true_iff, !bool_decide_eq_true in Hc.
    destruct Hc as [[? ?] ?]. exists ur, ap. rewrite <- Hflag. done.
  - intros (ur & ap & Hur & Hap & ? & ? & ?). exists ur, ap.
    rewrite !andb_true_iff, !bool_decide_eq_true, Hflag. done.
Qed.

Lemma can_admin_panel_true_iff db user_id action :
  can_admin_panel db user_id action = true
  ↔ action ∈ panel_actions ∧ panel_permission_row db user_id action.
Proof.
  unfold can_admin_panel. destruct (ADMIN_ACTION_COL !! action) as [col|] eqn:Hcol.
  - assert (action ∈ panel_actions) as Ha.
    { rewrite ADMIN_ACTION_COL_lookup in Hcol. apply elem_of_panel_actions.
      repeat (case_decide; [tauto|]). discriminate. }
    rewrite truthy_join_iff, (panel_row_iff _ _ action col Ha Hcol). tauto.
  - split; [discriminate|]. intros [Ha _].
    rewrite ADMIN_ACTION_COL_lookup in Hcol. apply elem_of_panel_actions in Ha.
    destruct Ha as [-> | [-> | [-> | [-> | [-> | [-> | ->]]]]]]; discriminate.
Qed.

(** C2: [can] returns true exactly when the action is one of view, create,
    update, delete and some role of the user has a permission row for the
    table with the flag of that action set; an unknown action, or the absence
    of such a row, gives [false].  [can] is a total function into [bool], so
    no input makes it fail. *)
Theorem can_iff_known_action_and_row (db : Store) (user_id : Z)
    (table_name action : string) :
  (can db user_id table_name action = true
     ↔ action ∈ table_actions ∧ table_permission_row db user_id table_name action)
  ∧ (action ∉ table_actions → can db user_id table_name action = false)
  ∧ (¬ table_permission_row db user_id table_name action →
       can db user_id table_name action = false).
Proof.
  pose proof (can_true_iff db user_id table_name action) as H.
  split; [exact H|].
  split; intros Hn; apply not_true_is_false; rewrite H; tauto.
Qed.

Lemma elem_of_KV_FIELDS field_name :
  field_name ∈ KV_FIELDS ↔
  field_name ∈ ["name"; "level"; "pt"; "cash"; "bank"; "address"; "town";
                "birthday"; "birthlocation"; "eyecolor"; "height"].
Proof. unfold KV_FIELDS. apply elem_of_list_to_set. Qed.

(** C4: for a user holding the admin role, every side in {0,1,2} and every
    field of the fixed field set, [can_kv_field] is true, whatever the store
    (and so whatever admin_kv_permissions) contains. *)
Theorem can_kv_field_admin (db : Store) (user_id side : Z) (field_name : string) :
  holds_role db user_id "admin" →
  side ∈ [0; 1; 2] →
  field_name ∈ KV_FIELDS →
  can_kv_field db user_id side field_name = true.
Proof.
  intros Hadmin Hside Hfield. unfold can_kv_field.
  rewrite (bool_decide_eq_true_2 _ Hside), (bool_decide_eq_true_2 _ Hfield).
  simpl. apply is_admin_iff in Hadmin. by rewrite Hadmin.
Qed.

Lemma can_kv_field_admin_witness :
  can_kv_field Samples.admin_store 1 2 "cash" = true.
Proof.
  apply can_kv_field_admin.
  - exists {| ur_user_id := 1; ur_role_id := 1 |}, {| r_id := 1; r_name := "admin" |}.
    simpl. rewrite !list_elem_of_singleton. done.
  - rewrite !elem_of_cons. tauto.
  - apply elem_of_KV_FIELDS. rewrite !elem_of_cons. tauto.
Defined.

(** C10: for every user, the admin included, [can_kv_field] is false as soon
    as the side is outside {0,1,2} or the field is outside the eleven-field
    whitelist: both tests come before the admin short-circuit. *)
Theorem can_kv_field_invalid (db : Store) (user_id side : Z) (field_name : string) :
  side ∉ [0; 1; 2]
  ∨ field_name ∉ ["name"; "level"; "pt"; "cash"; "bank"; "address"; "town";
                  "birthday"; "birthlocation"; "eyecolor"; "height"] →
  can_kv_field db user_id side field_name = false.
Proof.
  intros [Hside | Hfield]; unfold can_kv_field.
  - by rewrite (bool_decide_eq_false_2 _ Hside).
  - rewrite <- elem_of_KV_FIELDS in Hfield.
    rewrite (bool_decide_eq_false_2 _ Hfield). simpl. by case_bool_decide.
Qed.

Lemma can_kv_field_invalid_witness :
  is_admin Samples.admin_store 1 = true
  ∧ can_kv_field Samples.admin_store 1 3 "name" = false
  ∧ can_kv_field Samples.admin_store 1 0 "password_hash" = false.
Proof.
  split; [reflexivity|]. split; apply can_kv_field_invalid.
  - left. rewrite !elem_of_cons, elem_of_nil. intros H.
    repeat destruct H as [H|H]; try discriminate H; exact H.
  - right. rewrite !elem_of_cons, elem_of_nil. intros H.
    repeat destruct H as [H|H]; try discriminate H; exact H.
Defined.

(** ** The admin-panel gate *)

Import Web AdminPlayers.

Ltac run_m :=
  unfold get_user_id, flash, CrudDynamic.execute, CrudDynamic.commit in *;
  unfold mbind, M_bind, bind, mret, M_ret, ret, raise, gets, modify,
         CrudDynamic.lift in *;
  cbn beta iota in *.

Lemma require_admin_run (w : World) :
  require_admin w =
    match user_id (session w) with
    | None => (Raise (HTTPException 401), w)
    | Some u =>
        if decide (u = 0) then (Raise (HTTPException 401), w)
        else if is_admin (db w) u || can_admin_panel (db w) u "admin_access"
        then (Ok u, w)
        else (Raise (HTTPException 403), w)
    end.
Proof.
  unfold require_admin, falsy_uid. run_m.
  destruct (user_id (session w)) as [u|]; simpl; [|done].
  case_bool_decide; case_decide; try done. simpl.
  destruct (is_admin (db w) u); simpl; [done|].
  by destruct (can_admin_panel (db w) u "admin_access").
Qed.

Lemma require_current_uid_run (w : World) :
  require_current_uid w =
    match user_id (session w) with
    | None => (Raise (HTTPException 401), w)
    | Some u =>
        if decide (u = 0) then (Raise (HTTPException 401), w) else (Ok u, w)
    end.
Proof.
  unfold require_current_uid, falsy_uid. run_m.
  destruct (user_id (session w)) as [u|]; simpl; [|done].
  by case_bool_decide; case_decide.
Qed.

Lemma require_admin_passes (w : World) :
  passes_gate w ↔ ∃ uid, require_admin w = (Ok uid, w).
Proof.
  rewrite require_admin_run. unfold passes_gate, signed_in. split.
  - intros (uid & [Hs Hne] & Hrole). exists uid. rewrite Hs.
    rewrite decide_False by done.
    assert (is_admin (db w) uid || can_admin_panel (db w) uid "admin_access" = true)
      as ->; [|done].
    apply orb_true_iff. destruct Hrole as [H|H].
    + left. by apply is_admin_iff.
    + right. apply can_admin_panel_true_iff. split; [|done].
      apply elem_of_panel_actions. tauto.
  - intros [uid H]. destruct (user_id (session w)) as [u|]; [|discriminate].
    case_decide; [discriminate|].
    destruct (is_admin (db w) u || can_admin_panel (db w) u "admin_access") eqn:Hb;
      [|discriminate].
    exists u. split; [done|]. apply orb_true_iff in Hb as [Hb|Hb].
    + left. by apply is_admin_iff.
    + right. by apply can_admin_panel_true_iff in Hb as [_ ?].
Qed.

Lemma require_admin_outcome (w : World) :
  (passes_gate w ∧ ∃ uid, signed_in w uid ∧ require_admin w = (Ok uid, w))
  ∨ (¬ passes_gate w ∧ require_admin w = (Raise (HTTPException 401), w))
  ∨ (¬ passes_gate w ∧ require_admin w = (Raise (HTTPException 403), w)).
Proof.
  pose proof (require_admin_passes w) as Hp.
  rewrite require_admin_run in *.
  destruct (user_id (session w)) as [u|] eqn:Hu.
  - case_decide.
    + right; left. split; [|done]. rewrite Hp. by intros [? ?].
    + destruct (is_admin (db w) u || can_admin_panel (db w) u "admin_access").
      * left. split; [apply Hp; eauto|]. exists u. unfold signed_in. done.
      * right; right. split; [|done]. rewrite Hp. by intros [? ?].
  - right; left. split; [|done]. rewrite Hp. by intros [? ?].
Qed.

(** C3, as the code has it: holding the admin role opens the admin-panel
    gate [require_admin] and satisfies the guard [is_admin or
    can_admin_panel] of the panel handlers for every action, whatever the
    permission rows; the checks [can] and [can_admin_panel] themselves know no
    admin bypass and are true exactly when a role of the user has a row with
    the flag of the action set. *)
Theorem admin_role_gate_and_checks (w : World) (uid : Z) :
  holds_role (db w) uid "admin" →
  (signed_in w uid → require_admin w = (Ok uid, w))
  ∧ (∀ action, is_admin (db w) uid || can_admin_panel (db w) uid action = true)
  ∧ (∀ table_name action,
       can (db w) uid table_name action = true
       ↔ action ∈ table_actions ∧ table_permission_row (db w) uid table_name action)
  ∧ (∀ action,
       can_admin_panel (db w) uid action = true
       ↔ action ∈ panel_actions ∧ panel_permission_row (db w) uid action).
Proof.
  intros Hadmin. apply is_admin_iff in Hadmin.
  split; [|split; [|split]].
  - intros [Hs Hne]. rewrite require_admin_run, Hs, decide_False by done.
    by rewrite Hadmin.
  - intros action. by rewrite Hadmin.
  - intros table_name action. apply can_true_iff.
  - intros action. apply can_admin_panel_true_iff.
Qed.

Lemma admin_role_gate_and_checks_witness :
  require_admin
    {| db := Samples.admin_store;
       session := {| user_id := Some 1; flash_store := [] |};
       now := 0 |}
  = (Ok 1,
     {| db := Samples.admin_store;
        session := {| user_id := Some 1; flash_store := [] |};
        now := 0 |}).
Proof.
  refine (proj1 (admin_role_gate_and_checks _ 1 _) _).
  - exists {| ur_user_id := 1; ur_role_id := 1 |}, {| r_id := 1; r_name := "admin" |}.
    simpl. rewrite !list_elem_of_singleton. done.
  - split; [reflexivity | discriminate].
Defined.

(** C3, as stated, fails: user 1 of [Samples.admin_store] holds the admin
    role, and both [can] and [can_admin_panel] deny a known action because no
    permission row exists. *)
Lemma admin_role_without_rows_denied :
  holds_role Samples.admin_store 1 "admin"
  ∧ "view" ∈ table_actions
  ∧ can Samples.admin_store 1 "plog" "view" = false
  ∧ "user_create" ∈ panel_actions
  ∧ can_admin_panel Samples.admin_store 1 "user_create" = false.
Proof.
  split; [|split; [|split; [|split]]].
  - exists {| ur_user_id := 1; ur_role_id := 1 |}, {| r_id := 1; r_name := "admin" |}.
    simpl. rewrite !list_elem_of_singleton. done.
  - apply elem_of_table_actions. tauto.
  - reflexivity.
  - apply elem_of_panel_actions. tauto.
  - reflexivity.
Qed.

(** ** Dynamic CRUD *)

Section CrudDynamicFacts.
Import CrudDynamic.

Lemma elem_of_primary_key_columns (t : Table) (c : Column) :
  c ∈ primary_key_columns t ↔ c ∈ t_columns t ∧ c_primary_key c = true.
Proof.
  unfold primary_key_columns. rewrite !list_elem_of_In, filter_In. tauto.
Qed.

Lemma identity_conds_missing (pks : list Column) (pk_values : gmap string string) :
  (∃ c, c ∈ pks ∧ pk_values !! c_name c = None) →
  ∀ conds, ∃ msg, identity_conds pks pk_values conds = Raise (ValueError msg).
Proof.
  induction pks as [|c0 pks IH]; intros (c & Hin & Hmiss) conds.
  - by apply elem_of_nil in Hin.
  - simpl. destruct (pk_values !! c_name c0) as [v|] eqn:Hv; [|eauto].
    apply elem_of_cons in Hin as [-> | Hin]; [congruence|].
    apply IH. eauto.
Qed.

Lemma row_identity_filter_raises (t : Table) (pk_values : gmap string string) :
  key_incomplete t pk_values →
  ∃ msg, row_identity_filter t pk_values = Raise (ValueError msg).
Proof.
  intros Hkey. unfold row_identity_filter.
  destruct (primary_key_columns t) as [|c0 pks] eqn:Hpks; [eauto|].
  destruct Hkey as [Hnone | (c & Hc & Hpk & Hmiss)].
  - assert (c0 ∈ primary_key_columns t) as Hin by (rewrite Hpks; left).
    apply elem_of_primary_key_columns in Hin as [Hin Hpk].
    rewrite (Hnone _ Hin) in Hpk. discriminate.
  - apply identity_conds_missing. exists c. split; [|done].
    rewrite <- Hpks. by apply elem_of_primary_key_columns.
Qed.

(** C1: when the table has no primary-key column, or a primary-key column
    is missing from the key map, [update_row] and [delete_row] raise a
    ValueError and hand back the session as it was: no statement has been
    executed and the rows of every table are untouched. *)
Theorem update_delete_incomplete_key (t : Table)
    (pk_values form_data : gmap string string) (s : DbSession) :
  key_incomplete t pk_values →
  ∃ msg,
    update_row t pk_values form_data s = (Raise (ValueError msg), s)
    ∧ delete_row t pk_values s = (Raise (ValueError msg), s).
Proof.
  intros Hkey. destruct (row_identity_filter_raises t pk_values Hkey) as [msg Hmsg].
  exists msg. unfold update_row, delete_row. run_m. by rewrite Hmsg.
Qed.

Lemma update_delete_incomplete_key_witness :
  (∃ msg,
     update_row CrudSamples.plog_table ∅ {[ "msg" := "x" ]}
       CrudSamples.one_row_session
       = (Raise (ValueError msg), CrudSamples.one_row_session)
     ∧ delete_row CrudSamples.plog_table ∅ CrudSamples.one_row_session
       = (Raise (ValueError msg), CrudSamples.one_row_session))
  ∧ (∃ msg,
     update_row CrudSamples.kvstore_table
       (list_to_map [("pid", "76561"); ("k", "cash")]) {[ "v" := "0" ]}
       CrudSamples.one_row_session
       = (Raise (ValueError msg), CrudSamples.one_row_session)
     ∧ delete_row CrudSamples.kvstore_table
       (list_to_map [("pid", "76561"); ("k", "cash")])
       CrudSamples.one_row_session
       = (Raise (ValueError msg), CrudSamples.one_row_session)).
Proof.
  split; apply update_delete_incomplete_key.
  - left. intros c Hc. simpl in Hc. rewrite !elem_of_cons, elem_of_nil in Hc.
    destruct Hc as [-> | [-> | []]]; reflexivity.
  - right. exists {| c_name := "side"; c_primary_key := true |}.
    split; [|split; reflexivity].
    simpl. rewrite !elem_of_cons. tauto.
Defined.

Lemma payload_lookup (t : Table) (form_data : gmap string string) (k : string) :
  filter (λ kv : string * string, in_columns t kv.1) form_data !! k
  = if decide (in_columns t k) then form_data !! k else None.
Proof.
  case_decide as Hk.
  - apply option_eq. intros v. rewrite map_lookup_filter_Some. simpl. tauto.
  - apply map_lookup_filter_None. right. intros v _. exact Hk.
Qed.

(** C7: [create_row] always succeeds in the model and executes one INSERT
    whose row holds exactly the submitted entries whose keys are columns of
    the table; the other submitted keys are dropped. *)
Theorem create_row_keeps_known_columns (t : Table)
    (form_data : gmap string string) (s : DbSession) :
  ∃ payload,
    create_row t form_data s
      = (Ok tt,
         {| data := <[t_name t := rows_of (data s) (t_name t) ++ [payload]]> (data s);
            executed := executed s ++ [Insert (t_name t) payload] |})
    ∧ (∀ k, payload !! k
            = if decide (k ∈ (c_name <$> t_columns t)) then form_data !! k else None).
Proof.
  exists (filter (λ kv : string * string, in_columns t kv.1) form_data).
  split; [reflexivity|]. intros k. apply payload_lookup.
Qed.

End CrudDynamicFacts.

(** ** Login *)

Lemma first_select_where_None {A : Type} (l : list A) (cond : A → bool) :
  first (select_where l cond) = None ↔ ∀ y, y ∈ l → cond y = false.
Proof.
  unfold first, select_where. induction l as [|x l IH]; simpl.
  - split; [|done]. intros _ y Hy. by apply elem_of_nil in Hy.
  - destruct (cond x) eqn:Hx; simpl.
    + split; [discriminate|]. intros H.
      rewrite (H x) in Hx by (by left). discriminate.
    + rewrite IH. split.
      * intros H y Hy. apply elem_of_cons in Hy as [-> | Hy]; auto.
      * intros H y Hy. apply H. by right.
Qed.

Lemma first_select_where_Some {A : Type} (l : list A) (cond : A → bool) (x : A) :
  first (select_where l cond) = Some x
  ↔ ∃ l1 l2, l = l1 ++ x :: l2 ∧ cond x = true ∧ ∀ y, y ∈ l1 → cond y = false.
Proof.
  unfold first, select_where. revert x. induction l as [|a l IH]; intros x; simpl.
  - split; [discriminate|]. intros (l1 & l2 & H & _). by destruct l1.
  - destruct (cond a) eqn:Ha; simpl.
    + split.
      * intros [= <-]. exists [], l. split; [done|]. split; [done|].
        intros y Hy. by apply elem_of_nil in Hy.
      * intros (l1 & l2 & Hl & Hx & Hl1). destruct l1 as [|b l1]; simpl in Hl.
        -- by simplify_eq.
        -- simplify_eq. rewrite (Hl1 b) in Ha by (by left). discriminate.
    + rewrite IH. split.
      * intros (l1 & l2 & -> & Hx & Hl1). exists (a :: l1), l2.
        split; [done|]. split; [done|].
        intros y Hy. apply elem_of_cons in Hy as [-> | Hy]; auto.
      * intros (l1 & l2 & Hl & Hx & Hl1). destruct l1 as [|b l1]; simpl in Hl.
        -- simplify_eq. congruence.
        -- simplify_eq. exists l1, l2. split; [done|]. split; [done|].
           intros y Hy. apply Hl1. by right.
Qed.

Section LoginFacts.
Import AuthRoutes.
Variable verify_password : string → string → bool.

Lemma login_row_account (w : World) (username : string) (u : AdminUser) :
  first (select_where (admin_users (db w))
           (λ u, bool_decide (au_username u = username))) = Some u
  ↔ account w username u.
Proof.
  rewrite first_select_where_Some. unfold account. split.
  - intros (l1 & l2 & Hl & Hu & Hl1). exists l1, l2.
    apply bool_decide_eq_true in Hu. split; [done|]. split; [done|].
    intros u' Hu'. specialize (Hl1 u' Hu'). by apply bool_decide_eq_false in Hl1.
  - intros (l1 & l2 & Hl & Hu & Hl1). exists l1, l2.
    split; [done|]. split; [by apply bool_decide_eq_true|].
    intros u' Hu'. apply bool_decide_eq_false. auto.
Qed.

Lemma login_row_unknown (w : World) (username : string) :
  first (select_where (admin_users (db w))
           (λ u, bool_decide (au_username u = username))) = None
  ↔ unknown_username w username.
Proof.
  rewrite first_select_where_None. unfold unknown_username.
  split; intros H u Hu; specialize (H u Hu).
  - by apply bool_decide_eq_false in H.
  - by apply bool_decide_eq_false.
Qed.

Lemma login_run (username password : string) (w : World) :
  login verify_password username password w =
    match first (select_where (admin_users (db w))
                   (λ u, bool_decide (au_username u = username))) with
    | None => (Ok login_failed, w)
    | Some u =>
        if bool_decide (au_is_active u = 0)
           || negb (verify_password password (au_password_hash u))
        then (Ok login_failed, w)
        else (Ok (RedirectResponse "/tables" 303),
              set_session {| user_id := Some (au_id u);
                             flash_store := flash_store (session w) |} w)
    end.
Proof.
  unfold login. run_m.
  destruct (first _) as [u|]; [|done].
  by destruct (bool_decide _ || negb _).
Qed.

(** C8: an unknown username, a deactivated account and a wrong password are
    all answered with the same response, the login page with the one error
    message, and leave the session as it was, so the response of a failed
    attempt does not tell the causes apart; every attempt either has one of
    the three causes or passes all three checks, and only then is the session
    user id set (to the id of the account). *)
Theorem login_failure_is_generic :
  (∀ w username password,
     unknown_username w username ∨ deactivated w username
     ∨ wrong_password verify_password w username password →
     login verify_password username password w = (Ok login_failed, w))
  ∧ (∀ w1 username1 password1 w2 username2 password2,
       unknown_username w1 username1 ∨ deactivated w1 username1
       ∨ wrong_password verify_password w1 username1 password1 →
       unknown_username w2 username2 ∨ deactivated w2 username2
       ∨ wrong_password verify_password w2 username2 password2 →
       (login verify_password username1 password1 w1).1
       = (login verify_password username2 password2 w2).1)
  ∧ (∀ w username password u,
       checks_pass verify_password w username password u →
       login verify_password username password w
       = (Ok (RedirectResponse "/tables" 303),
          set_session {| user_id := Some (au_id u);
                         flash_store := flash_store (session w) |} w))
  ∧ (∀ w username password,
       (unknown_username w username ∨ deactivated w username
        ∨ wrong_password verify_password w username password)
       ∨ ∃ u, checks_pass verify_password w username password u).
Proof.
  assert (∀ w username password,
     unknown_username w username ∨ deactivated w username
     ∨ wrong_password verify_password w username password →
     login verify_password username password w = (Ok login_failed, w)) as Hfail.
  { intros w username password H. rewrite login_run.
    destruct H as [H | [(u & Hu & Hact) | (u & Hu & Hpw)]].
    - apply login_row_unknown in H. by rewrite H.
    - apply login_row_account in Hu. rewrite Hu.
      by rewrite (bool_decide_eq_true_2 _ Hact).
    - apply login_row_account in Hu. rewrite Hu, Hpw. simpl.
      by rewrite orb_true_r. }
  split; [exact Hfail|]. split; [|split].
  - intros w1 username1 password1 w2 username2 password2 H1 H2.
    rewrite (Hfail w1), (Hfail w2) by done. reflexivity.
  - intros w username password u (Hu & Hact & Hpw). rewrite login_run.
    apply login_row_account in Hu. rewrite Hu, Hpw.
    by rewrite (bool_decide_eq_false_2 _ Hact).
  - intros w username password.
    destruct (first (select_where (admin_users (db w))
                (λ u, bool_decide (au_username u = username)))) as [u|] eqn:Hrow.
    + apply login_row_account in Hrow.
      destruct (decide (au_is_active u = 0)) as [Hact|Hact].
      { left; right; left. by exists u. }
      destruct (verify_password password (au_password_hash u)) eqn:Hpw.
      * right. by exists u.
      * left; right; right. by exists u.
    + left; left. by apply login_row_unknown.
Qed.

End LoginFacts.

(** ** Handlers behind the gate *)

Lemma require_admin_state (w : World) :
  require_admin w = ((require_admin w).1, w).
Proof.
  rewrite require_admin_run. destruct (user_id (session w)) as [u|]; [|done].
  case_decide; [done|]. by destruct (is_admin _ _ || can_admin_panel _ _ _).
Qed.

Lemma gate_bind {A : Type} (k : M World A) (w : World) :
  (require_admin;; k) w =
    match (require_admin w).1 with
    | Ok _ => k w
    | Raise e => (Raise e, w)
    end.
Proof.
  run_m. rewrite (require_admin_state w). simpl.
  by destruct (require_admin w).1.
Qed.

(** The gate looks at the session user and at three admin tables only. *)
Lemma gate_stable (w w' : World) :
  user_id (session w') = user_id (session w) →
  admin_user_roles (db w') = admin_user_roles (db w) →
  admin_roles (db w') = admin_roles (db w) →
  admin_panel_permissions (db w') = admin_panel_permissions (db w) →
  (require_admin w').1 = (require_admin w).1.
Proof.
  intros Hu Hur Hr Hap. rewrite !require_admin_run, Hu.
  unfold is_admin, can_admin_panel. rewrite Hur, Hr, Hap.
  destruct (user_id (session w)) as [u|]; [|done].
  case_decide; [done|].
  by destruct (Py.truthy _ || _).
Qed.

Lemma gate_outcome (w : World) :
  (passes_gate w ∧ ∃ uid, (require_admin w).1 = Ok uid)
  ∨ (¬ passes_gate w ∧ (require_admin w).1 = Raise (HTTPException 401))
  ∨ (¬ passes_gate w ∧ (require_admin w).1 = Raise (HTTPException 403)).
Proof.
  destruct (require_admin_outcome w) as [[Hp (u & _ & ->)] | [[Hp ->] | [Hp ->]]];
    eauto.
Qed.

(** ** Support cases *)

Lemma toggled_status_cases (status : string) :
  (status = "open" ∧ toggled_status status = "closed")
  ∨ (status ≠ "open" ∧ toggled_status status = "open").
Proof. unfold toggled_status. case_decide; tauto. Qed.

Lemma toggled_status_twice (status : string) :
  toggled_status (toggled_status status) = status ↔ status ∈ ["open"; "closed"].
Proof.
  rewrite !elem_of_cons, elem_of_nil. unfold toggled_status.
  destruct (decide (status = "open")) as [-> | Hn]; simpl.
  - tauto.
  - split; [intros <-; tauto|]. intros [? | [? | []]]; congruence.
Qed.

Lemma set_status_id (c : SupportCase) : set_status (sc_status c) c = c.
Proof. by destruct c. Qed.

Lemma set_status_set_status (s s' : string) (c : SupportCase) :
  set_status s (set_status s' c) = set_status s c.
Proof. done. Qed.

Lemma case_selected_set_status case_id uid s c :
  case_selected case_id uid (set_status s c) = case_selected case_id uid c.
Proof. done. Qed.

Lemma support_toggle_status_run (uid : string) (case_id : Z) (w : World) :
  support_toggle_status uid case_id w =
    match (require_admin w).1 with
    | Raise e => (Raise e, w)
    | Ok _ =>
        (Ok (RedirectResponse ("/admin/players/" +:+ uid +:+ "?tab=support") 303),
         {| db := set_support_cases
                    ((λ c, if case_selected case_id uid c
                           then set_status (toggled_status (sc_status c)) c
                           else c) <$> support_cases (db w)) (db w);
            session := {| user_id := user_id (session w);
                          flash_store := flash_store (session w)
                                         ++ [("Status geändert.", "info")] |};
            now := now w |})
    end.
Proof.
  unfold support_toggle_status. rewrite gate_bind.
  by destruct (require_admin w).1.
Qed.

(** C6, as the code has it: for a request that passes the gate, the toggle
    turns the status of the case it addresses (same id, same player) from
    open into closed and from every other stored value into open, and keeps
    the other columns of the case; every other case stays as it is.  So two
    toggles bring a case stored as open or as closed back to the row it was,
    while a case stored with any other status is open after the first toggle
    and closed after the second, and never returns to its stored status. *)
Theorem toggle_status_twice (uid : string) (case_id : Z) (w : World)
    (i : nat) (c : SupportCase) :
  passes_gate w →
  support_cases (db w) !! i = Some c →
  sc_id c = case_id → sc_player_pid c = uid →
  let w1 := (support_toggle_status uid case_id w).2 in
  let w2 := (support_toggle_status uid case_id w1).2 in
  ∃ c1 c2,
    support_cases (db w1) !! i = Some c1
    ∧ support_cases (db w2) !! i = Some c2
    ∧ c1 = set_status (toggled_status (sc_status c)) c
    ∧ c2 = set_status (toggled_status (sc_status c1)) c
    ∧ (sc_status c = "open" → sc_status c1 = "closed" ∧ c2 = c)
    ∧ (sc_status c = "closed" → sc_status c1 = "open" ∧ c2 = c)
    ∧ (sc_status c ∉ ["open"; "closed"] →
         sc_status c1 = "open" ∧ sc_status c2 = "closed" ∧ c2 ≠ c)
    ∧ (∀ j c', support_cases (db w) !! j = Some c' →
         ¬ (sc_id c' = case_id ∧ sc_player_pid c' = uid) →
         support_cases (db w1) !! j = Some c'
         ∧ support_cases (db w2) !! j = Some c').
Proof.
  intros Hp Hc Hid Hpid w1 w2.
  destruct (gate_outcome w) as [[_ [u Hgate]] | [[Hn _] | [Hn _]]]; [|done..].
  assert (case_selected case_id uid c = true) as Hsel.
  { unfold case_selected. by rewrite !bool_decide_eq_true_2. }
  assert (∀ c', ¬ (sc_id c' = case_id ∧ sc_player_pid c' = uid) →
                case_selected case_id uid c' = false) as Hother.
  { intros c' Hno. unfold case_selected.
    destruct (decide (sc_id c' = case_id)) as [H1 | H1];
      destruct (decide (sc_player_pid c' = uid)) as [H2 | H2].
    - by destruct Hno.
    - by rewrite (bool_decide_eq_false_2 _ H2), andb_false_r.
    - by rewrite (bool_decide_eq_false_2 _ H1).
    - by rewrite (bool_decide_eq_false_2 _ H1). }
  subst w1 w2. rewrite !support_toggle_status_run. rewrite Hgate. cbn beta iota.
  rewrite (gate_stable w) by reflexivity. rewrite Hgate.
  cbn [snd db support_cases set_support_cases].
  rewrite !list_lookup_fmap, Hc. cbn [fmap option_fmap option_map].
  rewrite Hsel, case_selected_set_status, Hsel.
  eexists _, _. split; [reflexivity|]. split; [reflexivity|].
  split; [reflexivity|]. split; [reflexivity|].
  cbn [sc_status set_status]. split_and!.
  - intros Ho. destruct c; cbn in Ho |- *. by subst.
  - intros Hcl. destruct c; cbn in Hcl |- *. by subst.
  - intros Hst.
    destruct (toggled_status_cases (sc_status c)) as [[Ho _] | [Hno Ht]].
    + exfalso. apply Hst. rewrite Ho. by left.
    + rewrite Ht. split; [reflexivity|]. split; [reflexivity|].
      intros Heq. apply Hst. rewrite <- Heq. cbn [sc_status set_status].
      right. by left.
  - intros j c' Hj Hno. rewrite !list_lookup_fmap, Hj.
    cbn [fmap option_fmap option_map]. by rewrite !(Hother c' Hno).
Qed.

Lemma toggle_status_twice_witness :
  ∃ c1 c2,
    support_cases (db (support_toggle_status "76561" 8 WebSamples.admin_world).2) !! 1%nat
      = Some c1
    ∧ support_cases
        (db (support_toggle_status "76561" 8
               (support_toggle_status "76561" 8 WebSamples.admin_world).2).2) !! 1%nat
      = Some c2
    ∧ sc_status c1 = "closed" ∧ c2 = WebSamples.open_case.
Proof.
  destruct (toggle_status_twice "76561" 8 WebSamples.admin_world 1 WebSamples.open_case)
    as (c1 & c2 & H1 & H2 & _ & _ & Hopen & _).
  - apply require_admin_passes. exists 1. reflexivity.
  - reflexivity.
  - reflexivity.
  - reflexivity.
  - exists c1, c2. split; [exact H1|]. split; [exact H2|]. apply Hopen. reflexivity.
Defined.

(** C6, as stated, fails: case 7 of [WebSamples.admin_world] is stored with
    status pending; the admin toggles it twice and it ends up closed. *)
Lemma toggle_twice_from_pending :
  let w := WebSamples.admin_world in
  let w1 := (support_toggle_status "76561" 7 w).2 in
  let w2 := (support_toggle_status "76561" 7 w1).2 in
  sc_status <$> support_cases (db w) !! 0%nat = Some "pending"
  ∧ sc_status <$> support_cases (db w1) !! 0%nat = Some "open"
  ∧ sc_status <$> support_cases (db w2) !! 0%nat = Some "closed"
  ∧ sc_status <$> support_cases (db w2) !! 0%nat
    ≠ sc_status <$> support_cases (db w) !! 0%nat.
Proof.
  cbv zeta. rewrite !support_toggle_status_run.
  assert ((require_admin WebSamples.admin_world).1 = Ok 1) as Hgate by reflexivity.
  rewrite Hgate. cbn beta iota.
  rewrite (gate_stable WebSamples.admin_world) by reflexivity. rewrite Hgate.
  repeat split; try reflexivity. discriminate.
Qed.

Lemma support_update_run (uid : string) (case_id : Z)
    (case_type supporter_name area scn content status : string) (w : World) :
  support_update uid case_id case_type supporter_name area scn content status w =
    match (require_admin w).1 with
    | Raise e => (Raise e, w)
    | Ok _ =>
        (Ok (RedirectResponse ("/admin/players/" +:+ uid +:+ "?tab=support") 303),
         {| db := set_support_cases
                    ((λ c, if case_selected case_id uid c
                           then {| sc_id := sc_id c;
                                   sc_player_pid := sc_player_pid c;
                                   sc_player_name := sc_player_name c;
                                   sc_case_type := Py.strip case_type;
                                   sc_area := Py.strip (Py.or_else (Some area) "Support");
                                   sc_supporter_name := Py.strip supporter_name;
                                   sc_scn := Some (Py.strip (Py.or_else (Some scn) ""));
                                   sc_content := Some (Py.or_else (Some content) "");
                                   sc_status := coerced_status status |}
                           else c) <$> support_cases (db w)) (db w);
            session := {| user_id := user_id (session w);
                          flash_store := flash_store (session w)
                                         ++ [("Supportfall gespeichert.", "success")] |};
            now := now w |})
    end.
Proof.
  unfold support_update. rewrite gate_bind.
  destruct (require_admin w).1; [|done].
  unfold coerced_status. run_m. unfold set_db, set_session.
  destruct (decide (status ∈ ["open"; "closed"])) as [Hs | Hs].
  - rewrite (bool_decide_eq_true_2 _ Hs). reflexivity.
  - rewrite (bool_decide_eq_false_2 _ Hs). reflexivity.
Qed.

(** ** Vehicle quick actions *)

Lemma elem_of_allowed (action : string) :
  action ∈ allowed ↔ action ∈ quick_actions.
Proof. unfold allowed. apply elem_of_list_to_set. Qed.

Lemma vehicle_quick_action_invalid (vehicle_id : Z) (action : string) (w : World) :
  action ∉ quick_actions →
  vehicle_quick_action vehicle_id action w =
    match (require_admin w).1 with
    | Raise e => (Raise e, w)
    | Ok _ => (Raise (HTTPException 400), w)
    end.
Proof.
  intros Ha. rewrite <- elem_of_allowed in Ha.
  unfold vehicle_quick_action. rewrite gate_bind.
  by rewrite (bool_decide_eq_false_2 _ Ha).
Qed.

(** C9, as the code has it.  A support-case update changes a stored case
    only when the request passes the admin gate and selects it, and the
    status it then stores is the submitted one when that is open or closed and
    open otherwise.  A vehicle quick action whose name is outside the fixed
    set raises the HTTP exception 400 when the request passes the admin gate
    and the gate's own 401 or 403 when it does not; in each case the whole
    world, and so every vehicle row, stays as it was.  Under the application
    the 400 and the 401 reach the default exception handler with the world
    untouched (what that handler answers is not stated here), and the 403
    becomes a redirect that leaves the database alone. *)
Theorem invalid_enumerated_inputs
    (default_exception_handler : Exn → M World Response)
    (referer : option string) (w : World) :
  (∀ uid case_id case_type supporter_name area scn content status i c,
     support_cases (db w) !! i = Some c →
     ∃ c',
       support_cases
         (db (support_update uid case_id case_type supporter_name area scn
                content status w).2) !! i = Some c'
       ∧ (c' ≠ c → sc_status c' = coerced_status status)
       ∧ (passes_gate w → case_selected case_id uid c = true →
            sc_status c' = coerced_status status)
       ∧ (status ∉ ["open"; "closed"] → coerced_status status = "open"))
  ∧ (∀ vehicle_id action,
       action ∉ quick_actions →
       (passes_gate w →
          vehicle_quick_action vehicle_id action w = (Raise (HTTPException 400), w))
       ∧ (¬ passes_gate w →
            vehicle_quick_action vehicle_id action w = (Raise (HTTPException 401), w)
            ∨ vehicle_quick_action vehicle_id action w
              = (Raise (HTTPException 403), w)))
  ∧ (∀ vehicle_id action,
       action ∉ quick_actions →
       let served :=
         Main.app default_exception_handler referer
           (vehicle_quick_action vehicle_id action) w in
       (passes_gate w → served = default_exception_handler (HTTPException 400) w)
       ∧ (¬ passes_gate w →
            served = default_exception_handler (HTTPException 401) w
            ∨ (served.1 = Ok (RedirectResponse (default "/" referer) 303)
               ∧ db served.2 = db w))).
Proof.
  split; [|split].
  - intros uid case_id case_type supporter_name area scn content status i c Hc.
    rewrite support_update_run.
    assert (status ∉ ["open"; "closed"] → coerced_status status = "open") as Hco.
    { intros Hs. unfold coerced_status. by rewrite decide_False. }
    destruct (gate_outcome w) as [[Hp [u ->]] | [[Hp ->] | [Hp ->]]]; simpl.
    + rewrite list_lookup_fmap, Hc. simpl.
      destruct (case_selected case_id uid c) eqn:Hsel.
      * eexists. split; [reflexivity|]. simpl. done.
      * exists c. split; [reflexivity|]. done.
    + exists c. done.
    + exists c. done.
  - intros vehicle_id action Ha.
    rewrite (vehicle_quick_action_invalid _ _ _ Ha).
    destruct (gate_outcome w) as [[Hp [u ->]] | [[Hp ->] | [Hp ->]]]; simpl;
      split; intros ?; try done; eauto.
  - intros vehicle_id action Ha served. subst served. unfold Main.app.
    rewrite (vehicle_quick_action_invalid _ _ _ Ha).
    destruct (gate_outcome w) as [[Hp [u ->]] | [[Hp ->] | [Hp ->]]];
      cbn beta iota; unfold Main.custom_http_exception_handler.
    + rewrite bool_decide_eq_false_2 by done. split; [done|]. by intros Hn.
    + rewrite bool_decide_eq_false_2 by done. split; [done|]. intros _. by left.
    + rewrite bool_decide_eq_true_2 by done. split; [done|]. intros _. right.
      split; reflexivity.
Qed.

(** C9, as stated, fails: a quick action with an unknown name, requested
    without a session, is answered with 401 and not with 400. *)
Lemma quick_action_without_session :
  ("explode" ∉ quick_actions)
  ∧ vehicle_quick_action 3 "explode" WebSamples.anonymous_world
    = (Raise (HTTPException 401), WebSamples.anonymous_world)
  ∧ (vehicle_quick_action 3 "explode" WebSamples.anonymous_world).1
    ≠ Raise (HTTPException 400).
Proof.
  split; [|split].
  - unfold quick_actions. rewrite !elem_of_cons, elem_of_nil. intros H.
    repeat destruct H as [H|H]; try discriminate H; exact H.
  - reflexivity.
  - discriminate.
Qed.

(** ** Saving the per-side info form *)

Lemma can_kv_field_set_kvstore kv d u side f :
  can_kv_field (set_kvstore kv d) u side f = can_kv_field d u side f.
Proof. reflexivity. Qed.

Lemma set_kvstore_set_kvstore kv kv' d :
  set_kvstore kv (set_kvstore kv' d) = set_kvstore kv d.
Proof. reflexivity. Qed.

Lemma save_field_run (current_uid : Z) (uid : string) (side : Z)
    (form : gmap string string) (wrote_any : bool) (f : string) (w : World) :
  save_field current_uid uid side form wrote_any f w =
    if can_kv_field (db w) current_uid side f
       && negb (bool_decide (submitted form f = ""))
    then (Ok true, set_db (kv_upsert uid f side (submitted form f) (db w)) w)
    else (Ok wrote_any, w).
Proof.
  unfold save_field, submitted. run_m.
  destruct (can_kv_field (db w) current_uid side f); cbn [negb andb]; [|done].
  destruct (decide (Py.strip (Py.or_else (form !! f) "") = "")) as [Hval | Hval].
  - by rewrite (bool_decide_eq_true_2 _ Hval).
  - by rewrite (bool_decide_eq_false_2 _ Hval).
Qed.

Lemma for_fields_run (current_uid : Z) (uid : string) (side : Z)
    (form : gmap string string) (fs : list string) (wrote_any : bool)
    (d : Store) (kv : gmap (string * string * Z) KvValue) (s : Session) (t : Z) :
  for_fields (save_field current_uid uid side form) wrote_any fs
    {| db := set_kvstore kv d; session := s; now := t |}
  = (Ok (wrote_any || wrote d current_uid side form fs),
     {| db := set_kvstore (saved_kv d current_uid uid side form fs kv) d;
        session := s; now := t |}).
Proof.
  revert wrote_any kv. induction fs as [|f fs IH]; intros wrote_any kv.
  - simpl. run_m. by rewrite orb_false_r.
  - cbn [for_fields]. unfold mbind, M_bind, bind. rewrite save_field_run.
    cbn [db session now]. rewrite can_kv_field_set_kvstore.
    unfold wrote, saved_kv. cbn [existsb foldl].
    destruct (can_kv_field d current_uid side f
              && negb (bool_decide (submitted form f = ""))).
    + unfold set_db, kv_upsert. cbn [db session now kvstore set_kvstore].
      rewrite set_kvstore_set_kvstore.
      rewrite (IH true). by rewrite orb_true_r.
    + cbn [orb]. apply IH.
Qed.

Lemma saved_kv_cons d current_uid uid side form f fs kv :
  saved_kv d current_uid uid side form (f :: fs) kv
  = saved_kv d current_uid uid side form fs
      (if can_kv_field d current_uid side f
          && negb (bool_decide (submitted form f = ""))
       then <[(uid, f, side) := {| kv_v := submitted form f;
                                   kv_t := Some "STRING" |}]> kv
       else kv).
Proof. reflexivity. Qed.

Lemma saved_kv_lookup_other d current_uid uid side form fs kv p k s :
  ¬ (p = uid ∧ s = side ∧ k ∈ fs ∧ can_kv_field d current_uid side k = true
     ∧ submitted form k ≠ "") →
  saved_kv d current_uid uid side form fs kv !! (p, k, s) = kv !! (p, k, s).
Proof.
  revert kv. induction fs as [|f fs IH]; intros kv Hn; [done|].
  rewrite saved_kv_cons, IH.
  - destruct (can_kv_field d current_uid side f) eqn:Hcan; cbn [andb]; [|done].
    case_bool_decide as Hval; cbn [negb]; [done|].
    apply lookup_insert_ne. intros [= <- <- <-]. apply Hn.
    repeat split; try done. by left.
  - intros (? & ? & Hin & ? & ?). apply Hn. repeat split; try done. by right.
Qed.

Lemma saved_kv_lookup_written d current_uid uid side form fs kv k :
  k ∈ fs → can_kv_field d current_uid side k = true → submitted form k ≠ "" →
  saved_kv d current_uid uid side form fs kv !! (uid, k, side)
  = Some {| kv_v := submitted form k; kv_t := Some "STRING" |}.
Proof.
  revert kv. induction fs as [|f fs IH]; intros kv Hin Hcan Hval.
  - by apply elem_of_nil in Hin.
  - rewrite saved_kv_cons.
    destruct (decide (k ∈ fs)) as [Hfs | Hfs]; [by apply IH|].
    apply elem_of_cons in Hin as [-> | Hin]; [|done].
    rewrite saved_kv_lookup_other by tauto.
    rewrite Hcan, (bool_decide_eq_false_2 _ Hval). cbn [negb andb].
    apply lookup_insert_eq.
Qed.

Lemma world_eta (w : World) :
  w = {| db := set_kvstore (kvstore (db w)) (db w);
         session := session w; now := now w |}.
Proof. destruct w as [[] ? ?]. reflexivity. Qed.

Lemma gate_current_uid (w : World) (u : Z) :
  (require_admin w).1 = Ok u →
  signed_in w u ∧ require_current_uid w = (Ok u, w).
Proof.
  rewrite require_admin_run, require_current_uid_run. unfold signed_in.
  destruct (user_id (session w)) as [u'|]; [|discriminate].
  case_decide; [discriminate|].
  destruct (is_admin _ _ || can_admin_panel _ _ _); [|discriminate].
  simpl. by intros [= ->].
Qed.

Lemma save_player_info_side_rejected uid side form (w : World) e :
  (require_admin w).1 = Raise e →
  save_player_info_side uid side form w = (Raise e, w).
Proof.
  intros Hgate. unfold save_player_info_side. by rewrite gate_bind, Hgate.
Qed.

Lemma save_player_info_side_db uid side form (w : World) u :
  side ∈ [0; 1; 2] →
  (require_admin w).1 = Ok u →
  (save_player_info_side uid side form w).1
    = Ok (RedirectResponse ("/admin/players/" +:+ uid +:+ "?tab=info") 303)
  ∧ db (save_player_info_side uid side form w).2
    = set_kvstore (saved_kv (db w) u uid side form fields (kvstore (db w))) (db w).
Proof.
  intros Hside Hgate. unfold save_player_info_side.
  rewrite gate_bind, Hgate, (bool_decide_eq_true_2 _ Hside). cbn [negb].
  destruct (gate_current_uid w u Hgate) as [_ Hcur].
  pose proof (for_fields_run u uid side form fields false (db w)
                (kvstore (db w)) (session w) (now w)) as Hloop.
  rewrite <- world_eta in Hloop. cbn [orb] in Hloop.
  unfold mbind, M_bind, bind. rewrite Hcur, Hloop.
  by destruct (wrote (db w) u side form fields).
Qed.

Lemma field_permitted_iff (w : World) (u side : Z) (f : string) :
  signed_in w u →
  field_permitted w side f ↔ can_kv_field (db w) u side f = true.
Proof.
  intros [Hu Hne]. unfold field_permitted, signed_in. split.
  - intros (u' & [Hu' _] & Hcan). congruence.
  - intros Hcan. exists u. done.
Qed.

(** C5, as the code has it: for a side in {0,1,2} and a field of the fixed
    list, saving the info form changes the value stored under (player id,
    field, side) only when the request passes the admin gate, the acting user
    passes the per-field check and the trimmed submitted value is non-empty; a
    field that fails the check or is submitted empty keeps its stored value;
    when the request passes the gate, every permitted non-empty field is
    stored under (player id, field, side) with the trimmed value and the type
    tag STRING, whether or not the key existed; a request that does not pass
    the gate changes nothing at all. *)
Theorem save_info_guarded (uid : string) (side : Z) (form : gmap string string)
    (w : World) (f : string) :
  side ∈ [0; 1; 2] →
  f ∈ fields →
  let w' := (save_player_info_side uid side form w).2 in
  let key := (uid, f, side) in
  (kvstore (db w') !! key ≠ kvstore (db w) !! key →
     passes_gate w ∧ field_permitted w side f ∧ submitted form f ≠ "")
  ∧ (¬ field_permitted w side f ∨ submitted form f = "" →
       kvstore (db w') !! key = kvstore (db w) !! key)
  ∧ (passes_gate w → field_permitted w side f → submitted form f ≠ "" →
       kvstore (db w') !! key
       = Some {| kv_v := submitted form f; kv_t := Some "STRING" |})
  ∧ (¬ passes_gate w → w' = w).
Proof.
  intros Hside Hf w' key. subst key.
  destruct (gate_outcome w) as [[Hp [u Hgate]] | Hrej].
  - destruct (gate_current_uid w u Hgate) as [Hsigned _].
    destruct (save_player_info_side_db uid side form w u Hside Hgate) as [_ Hdb].
    fold w' in Hdb. rewrite Hdb. cbn [kvstore set_kvstore].
    rewrite (field_permitted_iff w u side f Hsigned).
    destruct (can_kv_field (db w) u side f) eqn:Hcan.
    + destruct (decide (submitted form f = "")) as [Hval | Hval].
      * assert (saved_kv (db w) u uid side form fields (kvstore (db w))
                  !! (uid, f, side)
                = kvstore (db w) !! (uid, f, side)) as ->.
        { apply saved_kv_lookup_other. tauto. }
        split; [done|]. split; [done|]. split; [done|]. done.
      * rewrite (saved_kv_lookup_written _ _ _ _ _ _ _ _ Hf Hcan Hval).
        split; [done|]. split; [|split; [done|done]].
        intros [Hn | Hn]; [by destruct Hn | done].
    + assert (saved_kv (db w) u uid side form fields (kvstore (db w))
                !! (uid, f, side)
              = kvstore (db w) !! (uid, f, side)) as ->.
      { apply saved_kv_lookup_other. intros (_ & _ & _ & Hc & _).
        rewrite Hcan in Hc. discriminate. }
      split; [done|]. split; [done|]. split; [|done]. intros _ Hc. discriminate.
  - assert (¬ passes_gate w ∧ w' = w) as [Hp ->].
    { subst w'. destruct Hrej as [[Hp Hgate] | [Hp Hgate]];
        by rewrite (save_player_info_side_rejected _ _ _ _ _ Hgate). }
    split; [done|]. split; [done|]. split; [|done]. intros Hp'. done.
Qed.

Lemma save_info_guarded_witness :
  let w := WebSamples.admin_world in
  let form : gmap string string := {[ "cash" := " 250 " ]} in
  let w' := (save_player_info_side "76561" 0 form w).2 in
  let key := ("76561", "cash", 0) in
  (kvstore (db w') !! key ≠ kvstore (db w) !! key →
     passes_gate w ∧ field_permitted w 0 "cash" ∧ submitted form "cash" ≠ "")
  ∧ (¬ field_permitted w 0 "cash" ∨ submitted form "cash" = "" →
       kvstore (db w') !! key = kvstore (db w) !! key)
  ∧ (passes_gate w → field_permitted w 0 "cash" → submitted form "cash" ≠ "" →
       kvstore (db w') !! key
       = Some {| kv_v := submitted form "cash"; kv_t := Some "STRING" |})
  ∧ (¬ passes_gate w → w' = w).
Proof.
  apply (save_info_guarded "76561" 0 {[ "cash" := " 250 " ]}
           WebSamples.admin_world "cash").
  - rewrite !elem_of_cons. tauto.
  - unfold fields. rewrite !elem_of_cons. tauto.
Defined.

(** C5, as stated, fails: the editor of [WebSamples.editor_world] passes the
    per-field check for the field name of side 0 and submits a non-empty
    name, but has no access to the admin panel; the request is answered with
    403 and the field is not written. *)
Lemma save_info_without_panel_access :
  let w := WebSamples.editor_world in
  let form : gmap string string := {[ "name" := "Bob" ]} in
  field_permitted w 0 "name"
  ∧ submitted form "name" = "Bob"
  ∧ save_player_info_side "76561" 0 form w = (Raise (HTTPException 403), w)
  ∧ kvstore (db (save_player_info_side "76561" 0 form w).2) !! ("76561", "name", 0)
    = None.
Proof.
  cbv zeta.
  assert (save_player_info_side "76561" 0 {[ "name" := "Bob" ]}
            WebSamples.editor_world
          = (Raise (HTTPException 403), WebSamples.editor_world)) as Hrun.
  { apply save_player_info_side_rejected. reflexivity. }
  split; [|split; [|split]].
  - exists 2. split; [split; [reflexivity | discriminate] | reflexivity].
  - unfold submitted. rewrite lookup_singleton_eq. reflexivity.
  - exact Hrun.
  - rewrite Hrun. reflexivity.
Qed.

(** The save touches nothing but the key/value entries of this player and
    side under the names of the field list. *)
Lemma save_info_frame (uid : string) (side : Z) (form : gmap string string)
    (w : World) (p k : string) (s : Z) :
  ¬ (p = uid ∧ s = side ∧ k ∈ fields) →
  let w' := (save_player_info_side uid side form w).2 in
  kvstore (db w') !! (p, k, s) = kvstore (db w) !! (p, k, s)
  ∧ support_cases (db w') = support_cases (db w)
  ∧ vehicles (db w') = vehicles (db w)
  ∧ admin_kv_permissions (db w') = admin_kv_permissions (db w).
Proof.
  intros Hkey w'. subst w'.
  destruct (gate_outcome w) as [[Hp [u Hgate]] | [[Hp Hgate] | [Hp Hgate]]].
  - unfold save_player_info_side. rewrite gate_bind, Hgate.
    destruct (decide (side ∈ [0; 1; 2])) as [Hside | Hside].
    + destruct (save_player_info_side_db uid side form w u Hside Hgate) as [_ Hdb].
      unfold save_player_info_side in Hdb. rewrite gate_bind, Hgate in Hdb.
      rewrite Hdb. cbn [kvstore set_kvstore support_cases vehicles
                        admin_kv_permissions].
      split; [|done]. apply saved_kv_lookup_other. tauto.
    + by rewrite (bool_decide_eq_false_2 _ Hside).
  - by rewrite (save_player_info_side_rejected _ _ _ _ _ Hgate).
  - by rewrite (save_player_info_side_rejected _ _ _ _ _ Hgate).
Qed.

(** ** The model at work on the sample data *)

Example save_info_admin :
  let w' := (save_player_info_side "76561" 0
               (list_to_map [("cash", " 250 "); ("name", "   "); ("gear", "x")])
               WebSamples.admin_world) in
  w'.1 = Ok (RedirectResponse "/admin/players/76561?tab=info" 303)
  ∧ kvstore (db w'.2) !! ("76561", "cash", 0)
    = Some {| kv_v := "250"; kv_t := Some "STRING" |}
  ∧ kvstore (db w'.2) !! ("76561", "name", 0) = None
  ∧ kvstore (db w'.2) !! ("76561", "gear", 0) = None
  ∧ flash_store (session w'.2) = [("Info gespeichert (Ziv).", "success")].
Proof. vm_compute. repeat split. Qed.

Example quick_action_lock :
  let w' := vehicle_quick_action 3 "lock" WebSamples.admin_world in
  w'.1 = Ok (RedirectResponse "/admin/players/76561?tab=vehicles" 303)
  ∧ (v_locked <$> vehicles (db w'.2)) = [1]
  ∧ (v_ts_modified <$> vehicles (db w'.2)) = [500].
Proof. vm_compute. repeat split. Qed.

Example support_update_coerces :
  let w' := support_update "76561" 8 " Ban " "Eve" "" "" "text" "archived"
              WebSamples.admin_world in
  (sc_status <$> support_cases (db w'.2)) = ["pending"; "open"]
  ∧ (sc_case_type <$> support_cases (db w'.2)) = ["Refund"; "Ban"]
  ∧ (sc_area <$> support_cases (db w'.2)) = ["Support"; "Support"].
Proof. vm_compute. repeat split. Qed.

Example create_row_drops_unknown :
  let s' := (CrudDynamic.create_row CrudSamples.kvstore_table
               (list_to_map [("pid", "1"); ("k", "bank"); ("side", "1");
                             ("v", "9"); ("is_admin", "1")])
               CrudSamples.one_row_session).2 in
  CrudDynamic.executed s'
  = [CrudDynamic.Insert "kvstore"
       (list_to_map [("pid", "1"); ("k", "bank"); ("side", "1"); ("v", "9")])]
  ∧ length (CrudDynamic.rows_of (CrudDynamic.data s') "kvstore") = 2%nat.
Proof. vm_compute. repeat split. Qed.

Example update_row_full_key :
  let s' := (CrudDynamic.update_row CrudSamples.kvstore_table
               (list_to_map [("pid", "76561"); ("k", "cash"); ("side", "0")])
               (list_to_map [("v", "5"); ("pid", "hacked"); ("bogus", "1")])
               CrudSamples.one_row_session) in
  s'.1 = Ok tt
  ∧ CrudDynamic.rows_of (CrudDynamic.data s'.2) "kvstore"
    = [ list_to_map [("pid", "76561"); ("k", "cash"); ("side", "0");
                     ("v", "5"); ("t", "STRING")] ].
Proof. vm_compute. repeat split. Qed.

Example login_sample :
  let verify := λ p h : string, bool_decide (h = "hash:" +:+ p) in
  let w := {| db := {| admin_users :=
                         [ {| au_id := 4; au_username := "ann";
                              au_password_hash := "hash:pw"; au_is_active := 1 |};
                           {| au_id := 5; au_username := "joe";
                              au_password_hash := "hash:pw"; au_is_active := 0 |} ];
                       admin_roles := []; admin_user_roles := [];
                       admin_permissions := []; admin_panel_permissions := [];
                       admin_kv_permissions := []; kvstore := ∅;
                       support_cases := []; vehicles := [] |};
              session := {| user_id := None; flash_store := [] |};
              now := 0 |} in
  AuthRoutes.login verify "ann" "pw" w
  = (Ok (RedirectResponse "/tables" 303),
     set_session {| user_id := Some 4; flash_store := [] |} w)
  ∧ AuthRoutes.login verify "ann" "nope" w = (Ok login_failed, w)
  ∧ AuthRoutes.login verify "joe" "pw" w = (Ok login_failed, w)
  ∧ AuthRoutes.login verify "zed" "pw" w = (Ok login_failed, w).
Proof. vm_compute. repeat split. Qed.

(* ===================================================================== *)
(** * Further properties of the code                                      *)
(* ===================================================================== *)

(** ** Dynamic CRUD: the successful paths *)

Section CrudDynamicMore.
Import CrudDynamic.

Lemma identity_conds_Ok (pks : list Column) (pk_values : gmap string string)
    (acc conds : list (string * string)) :
  identity_conds pks pk_values acc = Ok conds
  ↔ ∃ new, conds = acc ++ new
           ∧ Forall2 (λ c cv, cv.1 = c_name c ∧ pk_values !! c_name c = Some cv.2)
                     pks new.
Proof.
  revert acc. induction pks as [|c pks IH]; intros acc; simpl.
  - split.
    + intros [= <-]. exists []. split; [by rewrite app_nil_r | constructor].
    + intros (new & -> & Hf). inversion Hf. by rewrite app_nil_r.
  - destruct (pk_values !! c_name c) as [v|] eqn:Hv.
    + rewrite IH. split.
      * intros (new & -> & Hf). exists ((c_name c, v) :: new).
        split; [by rewrite <- app_assoc|]. by constructor.
      * intros (new & -> & Hf). inversion Hf as [|? [k v'] ? new' [Hk Hv'] Hf']; subst.
        simpl in *. exists new'. split; [|done].
        rewrite <- app_assoc. simpl. congruence.
    + split; [discriminate|]. intros (new & _ & Hf).
      inversion Hf as [|? ? ? ? [_ Hv'] _]; subst. congruence.
Qed.

Lemma row_identity_filter_Ok (t : Table) (pk_values : gmap string string)
    (conds : list (string * string)) :
  row_identity_filter t pk_values = Ok conds
  ↔ primary_key_columns t ≠ [] ∧ identifies t pk_values conds.
Proof.
  unfold row_identity_filter, identifies.
  destruct (primary_key_columns t) as [|c pks] eqn:Hpks.
  - split; [discriminate|]. by intros [? _].
  - rewrite identity_conds_Ok. simpl. split.
    + intros (new & -> & Hf). done.
    + intros [_ Hf]. eauto.
Qed.

Lemma key_complete_identifies (t : Table) (pk_values : gmap string string) :
  ¬ key_incomplete t pk_values →
  ∃ conds, row_identity_filter t pk_values = Ok conds.
Proof.
  intros Hkey.
  destruct (row_identity_filter t pk_values) as [conds|e] eqn:Hrif; [eauto|].
  exfalso. apply Hkey. unfold key_incomplete.
  unfold row_identity_filter in Hrif.
  destruct (primary_key_columns t) as [|c0 pks0] eqn:Hpks.
  - left. intros c Hc. destruct (c_primary_key c) eqn:Hpk; [|done].
    assert (c ∈ primary_key_columns t) as Hin
      by (by apply elem_of_primary_key_columns).
    rewrite Hpks in Hin. by apply elem_of_nil in Hin.
  - right. rewrite <- Hpks in Hrif.
    assert (∀ pks acc e, identity_conds pks pk_values acc = Raise e →
              ∃ c, c ∈ pks ∧ pk_values !! c_name c = None) as Hmiss.
    { clear. induction pks as [|c pks IH]; intros acc e; simpl; [discriminate|].
      destruct (pk_values !! c_name c) eqn:Hv.
      - intros H. destruct (IH _ _ H) as (c' & ? & ?). exists c'. split; [by right|done].
      - intros _. exists c. split; [by left|done]. }
    destruct (Hmiss _ _ _ Hrif) as (c & Hc & Hnone).
    apply elem_of_primary_key_columns in Hc as [Hc Hpk]. eauto.
Qed.

Lemma matches_identifies (t : Table) (pk_values : gmap string string)
    (conds : list (string * string)) (row : gmap string string) :
  identifies t pk_values conds →
  matches conds row = true ↔ matches_key t pk_values row.
Proof.
  unfold identifies, matches, matches_key.
  generalize (primary_key_columns t). intros pks Hf.
  induction Hf as [|c [k v] pks conds [Hk Hv] Hf IH]; simpl in *.
  - split; [|done]. intros _ c Hc. by apply elem_of_nil in Hc.
  - subst k. rewrite andb_true_iff, bool_decide_eq_true, IH. split.
    + intros [Hrow Hrest] c' Hc'. apply elem_of_cons in Hc' as [-> | Hc'].
      * congruence.
      * by apply Hrest.
    + intros H. split.
      * rewrite <- Hv. apply H. by left.
      * intros c' Hc'. apply H. by right.
Qed.


(** X1: [row_identity_filter] succeeds exactly on a complete key, and its where
    clause then has one equality per primary-key column, in column order, so
    that a row satisfies it exactly when it carries the key. *)
Theorem row_identity_filter_complete (t : Table) (pk_values : gmap string string) :
  ((∃ conds, row_identity_filter t pk_values = Ok conds)
     ↔ ¬ key_incomplete t pk_values)
  ∧ (∀ conds, row_identity_filter t pk_values = Ok conds →
       identifies t pk_values conds
       ∧ length conds = length (primary_key_columns t)
       ∧ ∀ row, matches conds row = true ↔ matches_key t pk_values row).
Proof.
  split.
  - split; [|apply key_complete_identifies].
    intros [conds Hok] Hkey.
    destruct (row_identity_filter_raises t pk_values Hkey) as [msg Hmsg]. congruence.
  - intros conds Hok. apply row_identity_filter_Ok in Hok as [_ Hid].
    split; [done|]. split.
    + symmetry. by eapply Forall2_length.
    + intros row. by apply matches_identifies.
Qed.

Lemma update_payload_lookup (t : Table) (pk_values form_data : gmap string string)
    (k : string) :
  filter (λ kv : string * string, in_columns t kv.1 ∧ pk_values !! kv.1 = None)
    form_data !! k
  = if decide (k ∈ (c_name <$> t_columns t) ∧ pk_values !! k = None)
    then form_data !! k else None.
Proof.
  case_decide as Hk.
  - apply option_eq. intros v. rewrite map_lookup_filter_Some. simpl.
    unfold in_columns. tauto.
  - apply map_lookup_filter_None. right. intros v _. exact Hk.
Qed.

Lemma payload_empty_iff (t : Table) (pk_values form_data : gmap string string) :
  filter (λ kv : string * string, in_columns t kv.1 ∧ pk_values !! kv.1 = None)
    form_data = ∅
  ↔ sets_nothing t pk_values form_data.
Proof.
  unfold sets_nothing. split.
  - intros He k Hk Hpk.
    assert (filter (λ kv : string * string,
                      in_columns t kv.1 ∧ pk_values !! kv.1 = None)
                   form_data !! k = None) as Hl by (by rewrite He).
    rewrite update_payload_lookup, decide_True in Hl by done. exact Hl.
  - intros Hn. apply map_eq. intros k. rewrite update_payload_lookup, lookup_empty.
    case_decide as Hk; [|done]. destruct Hk as [Hk Hpk]. by apply Hn.
Qed.

Lemma update_row_run (t : Table) (pk_values form_data : gmap string string)
    (s : DbSession) (conds : list (string * string)) :
  row_identity_filter t pk_values = Ok conds →
  ¬ sets_nothing t pk_values form_data →
  update_row t pk_values form_data s
  = (Ok tt,
     {| data := run (Update (t_name t) conds
                       (filter (λ kv : string * string,
                                  in_columns t kv.1 ∧ pk_values !! kv.1 = None)
                               form_data)) (data s);
        executed := executed s ++
          [Update (t_name t) conds
             (filter (λ kv : string * string,
                        in_columns t kv.1 ∧ pk_values !! kv.1 = None)
                     form_data)] |}).
Proof.
  intros Hok Hset. rewrite <- payload_empty_iff in Hset.
  unfold update_row. run_m. rewrite Hok. by rewrite decide_False.
Qed.

Lemma update_row_sets_nothing (t : Table) (pk_values form_data : gmap string string)
    (s : DbSession) (conds : list (string * string)) :
  row_identity_filter t pk_values = Ok conds →
  sets_nothing t pk_values form_data →
  update_row t pk_values form_data s
  = (Raise (DBAPIError ("UPDATE " +:+ t_name t +:+ " SET WHERE")), s).
Proof.
  intros Hok Hset. rewrite <- payload_empty_iff in Hset.
  unfold update_row. run_m. rewrite Hok. by rewrite decide_True.
Qed.

Lemma sets_nothing_dec (t : Table) (pk_values form_data : gmap string string) :
  sets_nothing t pk_values form_data ∨ ¬ sets_nothing t pk_values form_data.
Proof.
  rewrite <- payload_empty_iff.
  destruct (decide (filter (λ kv : string * string,
                              in_columns t kv.1 ∧ pk_values !! kv.1 = None)
                           form_data = ∅)); tauto.
Qed.

Lemma delete_row_run (t : Table) (pk_values : gmap string string)
    (s : DbSession) (conds : list (string * string)) :
  row_identity_filter t pk_values = Ok conds →
  delete_row t pk_values s
  = (Ok tt,
     {| data := run (Delete (t_name t) conds) (data s);
        executed := executed s ++ [Delete (t_name t) conds] |}).
Proof. intros Hok. unfold delete_row. run_m. by rewrite Hok. Qed.

Lemma rows_of_insert_eq (d : gmap string (list (gmap string string)))
    (n : string) (rows : list (gmap string string)) :
  rows_of (<[n := rows]> d) n = rows.
Proof. unfold rows_of. by rewrite lookup_insert_eq. Qed.

(** X2: [update_row] with a complete key.  When the submitted data name at
    least one column of the table outside the key map, one UPDATE is
    executed; when they name none, the statement has nothing to set,
    [db.execute] raises and nothing is changed.  In both cases a row that
    does not carry the key stays as it is; a row that carries it takes the
    submitted values of the columns of the table that the key map does not
    name, and nothing else; no row changes a column the key map names, so the
    primary key of a row is never rewritten; other tables are untouched. *)
Theorem update_row_effect (t : Table) (pk_values form_data : gmap string string)
    (s : DbSession) :
  ¬ key_incomplete t pk_values →
  let s' := (update_row t pk_values form_data s).2 in
  (sets_nothing t pk_values form_data →
     ∃ statement,
       update_row t pk_values form_data s = (Raise (DBAPIError statement), s))
  ∧ (¬ sets_nothing t pk_values form_data →
       (update_row t pk_values form_data s).1 = Ok tt
       ∧ ∃ conds payload,
           executed s' = executed s ++ [Update (t_name t) conds payload]
           ∧ identifies t pk_values conds ∧ payload ≠ ∅)
  ∧ (∀ i row, rows_of (data s) (t_name t) !! i = Some row →
       ∃ row', rows_of (data s') (t_name t) !! i = Some row'
         ∧ (∀ k, is_Some (pk_values !! k) → row' !! k = row !! k)
         ∧ (¬ matches_key t pk_values row → row' = row)
         ∧ (matches_key t pk_values row →
              ∀ k, row' !! k
                   = if decide (k ∈ (c_name <$> t_columns t) ∧ pk_values !! k = None
                                ∧ is_Some (form_data !! k))
                     then form_data !! k else row !! k))
  ∧ length (rows_of (data s') (t_name t)) = length (rows_of (data s) (t_name t))
  ∧ (∀ n, n ≠ t_name t → data s' !! n = data s !! n).
Proof.
  intros Hkey s'. destruct (key_complete_identifies t pk_values Hkey) as [conds Hok].
  subst s'. destruct (sets_nothing_dec t pk_values form_data) as [Hset | Hset].
  - rewrite (update_row_sets_nothing _ _ _ _ _ Hok Hset). cbn [fst snd].
    split; [eauto|]. split; [done|]. split; [|done].
    intros i row Hrow. exists row. split; [done|]. split; [done|]. split; [done|].
    intros _ k. case_decide as Hk; [|done]. destruct Hk as (Hc & Hpk & [v Hv]).
    rewrite (Hset k Hc Hpk) in Hv. discriminate.
  - rewrite (update_row_run _ _ _ _ _ Hok Hset). cbn [fst snd data executed run].
    pose proof Hok as Hid. apply row_identity_filter_Ok in Hid as [_ Hid].
    split; [done|]. split.
    { intros _. split; [done|]. eexists _, _. split; [reflexivity|].
      split; [done|]. by rewrite payload_empty_iff. }
    split; [|split].
    + intros i row Hrow. rewrite rows_of_insert_eq, list_lookup_fmap, Hrow. simpl.
      eexists. split; [reflexivity|].
      destruct (matches conds row) eqn:Hm.
      * apply (matches_identifies _ _ _ _ Hid) in Hm. split; [|split].
        -- intros k [v Hv]. apply lookup_union_r.
           rewrite update_payload_lookup. case_decide as Hk; [|done].
           destruct Hk as [_ Hk]. congruence.
        -- intros Hn. by destruct Hn.
        -- intros _ k. rewrite lookup_union, update_payload_lookup.
           destruct (decide (k ∈ (c_name <$> t_columns t) ∧ pk_values !! k = None))
             as [Hk | Hk].
           ++ destruct (form_data !! k) as [v|] eqn:Hv.
              ** rewrite decide_True by (destruct Hk; eauto). by destruct (row !! k).
              ** rewrite decide_False by (intros (_ & _ & [? ?]); done).
                 by destruct (row !! k).
           ++ rewrite decide_False by tauto. by destruct (row !! k).
      * split; [done|]. split; [done|]. intros Hmk.
        apply (matches_identifies _ _ _ _ Hid) in Hmk. congruence.
    + by rewrite rows_of_insert_eq, length_fmap.
    + intros n Hn. by rewrite lookup_insert_ne.
Qed.


Lemma filter_sublist {A : Type} (f : A → bool) (l : list A) :
  List.filter f l `sublist_of` l.
Proof.
  induction l as [|x l IH]; simpl; [constructor|].
  destruct (f x); by constructor.
Qed.

Lemma filter_all {A : Type} (f : A → bool) (l : list A) :
  (∀ x, x ∈ l → f x = true) → List.filter f l = l.
Proof.
  induction l as [|x l IH]; intros H; simpl; [done|].
  rewrite (H x) by (by left). f_equal. apply IH. intros y Hy. apply H. by right.
Qed.

(** X3: with a complete key, [delete_row] executes one DELETE that removes
    exactly the rows carrying the key: the rows that remain are the other
    rows of the table, in their order, and other tables are untouched. *)
Theorem delete_row_effect (t : Table) (pk_values : gmap string string)
    (s : DbSession) :
  ¬ key_incomplete t pk_values →
  let s' := (delete_row t pk_values s).2 in
  (delete_row t pk_values s).1 = Ok tt
  ∧ (∃ conds, executed s' = executed s ++ [Delete (t_name t) conds]
              ∧ identifies t pk_values conds)
  ∧ (∀ row, row ∈ rows_of (data s') (t_name t)
            ↔ row ∈ rows_of (data s) (t_name t) ∧ ¬ matches_key t pk_values row)
  ∧ rows_of (data s') (t_name t) `sublist_of` rows_of (data s) (t_name t)
  ∧ (∀ n, n ≠ t_name t → data s' !! n = data s !! n).
Proof.
  intros Hkey s'. destruct (key_complete_identifies t pk_values Hkey) as [conds Hok].
  subst s'. rewrite (delete_row_run _ _ _ _ Hok). cbn [fst snd data executed run].
  pose proof Hok as Hid. apply row_identity_filter_Ok in Hid as [_ Hid].
  rewrite rows_of_insert_eq.
  split; [done|]. split; [eauto|]. split; [|split].
  - intros row. rewrite list_elem_of_In, filter_In, <- list_elem_of_In.
    rewrite negb_true_iff, <- (matches_identifies _ _ _ row Hid).
    destruct (matches conds row); split; intros [? ?]; split; congruence || done.
  - apply filter_sublist.
  - intros n Hn. by rewrite lookup_insert_ne.
Qed.

Lemma identifies_named (t : Table) (pk_values : gmap string string)
    (conds : list (string * string)) :
  identifies t pk_values conds →
  ∀ cv, cv ∈ conds → is_Some (pk_values !! cv.1).
Proof.
  unfold identifies. generalize (primary_key_columns t). intros pks Hf.
  induction Hf as [|c cv' pks conds [Hk Hv] Hf IH]; intros cv Hcv.
  - by apply elem_of_nil in Hcv.
  - apply elem_of_cons in Hcv as [-> | Hcv]; [|by apply IH].
    rewrite Hk. eauto.
Qed.

Lemma matches_ext (conds : list (string * string)) (row row' : gmap string string) :
  (∀ cv, cv ∈ conds → row' !! cv.1 = row !! cv.1) →
  matches conds row' = matches conds row.
Proof.
  unfold matches. induction conds as [|cv conds IH]; intros H; simpl; [done|].
  rewrite (H cv) by (by left). f_equal. apply IH. intros cv' Hcv'. apply H. by right.
Qed.

(** X4: [update_row] is idempotent on the stored rows: repeating the same call
    leaves the database as the first call left it (whether the call succeeds
    or raises). *)
Theorem update_row_idempotent (t : Table) (pk_values form_data : gmap string string)
    (s : DbSession) :
  let s1 := (update_row t pk_values form_data s).2 in
  data (update_row t pk_values form_data s1).2 = data s1.
Proof.
  intros s1. subst s1.
  destruct (row_identity_filter t pk_values) as [conds|e] eqn:Hok.
  - destruct (sets_nothing_dec t pk_values form_data) as [Hset | Hset];
      [by rewrite !(update_row_sets_nothing _ _ _ _ _ Hok Hset)|].
    rewrite !(update_row_run _ _ _ _ _ Hok Hset). cbn [snd data run].
    set (payload := filter (λ kv : string * string,
                              in_columns t kv.1 ∧ pk_values !! kv.1 = None)
                           form_data).
    rewrite rows_of_insert_eq, insert_insert_eq. f_equal.
    rewrite <- list_fmap_compose. apply list_fmap_ext. intros i row _. simpl.
    apply row_identity_filter_Ok in Hok as [_ Hid].
    destruct (matches conds row) eqn:Hm; [|by rewrite Hm].
    assert (matches conds (payload ∪ row) = true) as ->.
    { rewrite <- Hm. apply matches_ext. intros cv Hcv.
      apply lookup_union_r. subst payload. rewrite update_payload_lookup.
      case_decide as Hk; [|done].
      destruct (identifies_named _ _ _ Hid cv Hcv) as [v Hv].
      destruct Hk as [_ Hk]. congruence. }
    by rewrite (assoc_L (∪)), (idemp_L (∪)).
  - unfold update_row. run_m. rewrite Hok. simpl. by rewrite ?Hok.
Qed.

(** X5: insert and delete round trip: when the submitted data carry the key
    in every primary-key column and no stored row carries that key yet,
    [create_row] followed by [delete_row] on that key gives back the rows the
    table had, and touches no other table. *)
Theorem create_then_delete_row (t : Table) (pk_values form_data : gmap string string)
    (s : DbSession) :
  ¬ key_incomplete t pk_values →
  (∀ c, c ∈ primary_key_columns t → form_data !! c_name c = pk_values !! c_name c) →
  (∀ row, row ∈ rows_of (data s) (t_name t) → ¬ matches_key t pk_values row) →
  let s1 := (create_row t form_data s).2 in
  let s2 := (delete_row t pk_values s1).2 in
  rows_of (data s1) (t_name t) ≠ rows_of (data s) (t_name t)
  ∧ rows_of (data s2) (t_name t) = rows_of (data s) (t_name t)
  ∧ (∀ n, n ≠ t_name t → data s2 !! n = data s !! n).
Proof.
  intros Hkey Hform Hfresh s1 s2.
  destruct (key_complete_identifies t pk_values Hkey) as [conds Hok].
  subst s2 s1. rewrite (delete_row_run _ _ _ _ Hok).
  unfold create_row. run_m. cbn [snd data run].
  apply row_identity_filter_Ok in Hok as [_ Hid].
  rewrite !rows_of_insert_eq. split; [|split].
  - intros H. apply (f_equal length) in H. rewrite length_app in H. simpl in H. lia.
  - rewrite List.filter_app. simpl.
    set (payload := filter (λ kv : string * string, in_columns t kv.1) form_data).
    assert (matches conds payload = true) as ->.
    { apply (matches_identifies _ _ _ _ Hid). intros c Hc.
      subst payload. rewrite payload_lookup, decide_True; [by apply Hform|].
      unfold in_columns. apply list_elem_of_fmap. exists c. split; [done|].
      by apply elem_of_primary_key_columns in Hc as [? _]. }
    simpl. rewrite app_nil_r. apply filter_all. intros row Hrow.
    apply negb_true_iff. apply not_true_is_false.
    rewrite (matches_identifies _ _ _ _ Hid). by apply Hfresh.
  - intros n Hn. by rewrite !lookup_insert_ne.
Qed.


Lemma key_complete_of_Ok (t : Table) (pk_values : gmap string string)
    (conds : list (string * string)) :
  row_identity_filter t pk_values = Ok conds → ¬ key_incomplete t pk_values.
Proof.
  intros Hok Hkey.
  destruct (row_identity_filter_raises t pk_values Hkey) as [msg Hmsg]. congruence.
Defined.

Lemma not_matches_key_of (t : Table) (pk_values : gmap string string)
    (conds : list (string * string)) (row : gmap string string) :
  row_identity_filter t pk_values = Ok conds →
  matches conds row = false → ¬ matches_key t pk_values row.
Proof.
  intros Hok Hm Hk. apply row_identity_filter_Ok in Hok as [_ Hid].
  apply (matches_identifies _ _ _ _ Hid) in Hk. congruence.
Defined.

Lemma update_row_effect_witness :
  (update_row CrudSamples.kvstore_table
     (list_to_map [("pid", "76561"); ("k", "cash"); ("side", "0")])
     (list_to_map [("v", "5"); ("pid", "other")])
     CrudSamples.one_row_session).1 = Ok tt.
Proof.
  refine (proj1 (proj1 (proj2 (update_row_effect _ _ _ _ _)) _)).
  - eapply key_complete_of_Ok. vm_compute. reflexivity.
  - intros Hset. specialize (Hset "v"). cbn in Hset.
    rewrite !elem_of_cons in Hset. discriminate Hset; [tauto | reflexivity].
Defined.

Lemma delete_row_effect_witness :
  (delete_row CrudSamples.kvstore_table
     (list_to_map [("pid", "76561"); ("k", "cash"); ("side", "0")])
     CrudSamples.one_row_session).1 = Ok tt.
Proof.
  refine (proj1 (delete_row_effect _ _ _ _)).
  eapply key_complete_of_Ok. vm_compute. reflexivity.
Defined.

Lemma create_then_delete_row_witness :
  let key : gmap string string :=
    list_to_map [("pid", "1"); ("k", "bank"); ("side", "1")] in
  let form : gmap string string :=
    list_to_map [("pid", "1"); ("k", "bank"); ("side", "1"); ("v", "9")] in
  let s1 := (create_row CrudSamples.kvstore_table form CrudSamples.one_row_session).2 in
  let s2 := (delete_row CrudSamples.kvstore_table key s1).2 in
  rows_of (data s2) "kvstore" = rows_of (data CrudSamples.one_row_session) "kvstore".
Proof.
  refine (proj1 (proj2 (create_then_delete_row CrudSamples.kvstore_table
    (list_to_map [("pid", "1"); ("k", "bank"); ("side", "1")])
    (list_to_map [("pid", "1"); ("k", "bank"); ("side", "1"); ("v", "9")])
    CrudSamples.one_row_session _ _ _))).
  - eapply key_complete_of_Ok. vm_compute. reflexivity.
  - intros c Hc. apply elem_of_primary_key_columns in Hc as [Hc Hpk].
    simpl in Hc. rewrite !elem_of_cons, elem_of_nil in Hc.
    destruct Hc as [-> | [-> | [-> | [-> | [-> | []]]]]];
      try discriminate Hpk; vm_compute; reflexivity.
  - intros row Hrow. simpl in Hrow. vm_compute in Hrow.
    apply list_elem_of_singleton in Hrow. subst row.
    eapply not_matches_key_of; vm_compute; reflexivity.
Defined.

End CrudDynamicMore.
(** ** Permission checks, continued *)

(** X6: [can_admin_panel] is true exactly when the action is one of the seven
    panel actions and some role of the user has an admin-panel row with the
    flag of that action set; any other action string is denied. *)
Theorem can_admin_panel_iff (db : Store) (user_id : Z) (action : string) :
  (can_admin_panel db user_id action = true
     ↔ action ∈ panel_actions ∧ panel_permission_row db user_id action)
  ∧ (action ∉ panel_actions → can_admin_panel db user_id action = false).
Proof.
  pose proof (can_admin_panel_true_iff db user_id action) as H.
  split; [exact H|]. intros Hn. apply not_true_is_false. rewrite H. tauto.
Qed.

Lemma can_kv_field_true_iff (db : Store) (user_id side : Z) (field_name : string) :
  can_kv_field db user_id side field_name = true
  ↔ side ∈ [0; 1; 2] ∧ field_name ∈ KV_FIELDS
    ∧ (holds_role db user_id "admin" ∨ kv_permission_row db user_id side field_name).
Proof.
  unfold can_kv_field.
  destruct (decide (side ∈ [0; 1; 2])) as [Hs | Hs].
  2:{ rewrite (bool_decide_eq_false_2 _ Hs). simpl. split; [discriminate | tauto]. }
  rewrite (bool_decide_eq_true_2 _ Hs). simpl.
  destruct (decide (field_name ∈ KV_FIELDS)) as [Hf | Hf].
  2:{ rewrite (bool_decide_eq_false_2 _ Hf). simpl. split; [discriminate | tauto]. }
  rewrite (bool_decide_eq_true_2 _ Hf). simpl.
  rewrite <- is_admin_iff.
  destruct (is_admin db user_id); [tauto|].
  rewrite truthy_join_iff. unfold kv_permission_row. split.
  - intros (ur & kp & Hur & Hkp & Hc).
    rewrite !andb_true_iff, !bool_decide_eq_true in Hc.
    destruct Hc as [[[[? ?] ?] ?] ?]. split; [done|]. split; [done|].
    right. exists ur, kp. done.
  - intros (_ & _ & [? | (ur & kp & ? & ? & ? & ? & ? & ? & ?)]); [done|].
    exists ur, kp. rewrite !andb_true_iff, !bool_decide_eq_true. done.
Qed.

(** X7: [can_kv_field] is true exactly when the side is 0, 1 or 2, the field
    is one of the eleven key/value fields, and the user holds the admin role
    or has, through one of its roles, a key/value permission row for that
    side and field with the edit flag set. *)
Theorem can_kv_field_iff (db : Store) (user_id side : Z) (field_name : string) :
  can_kv_field db user_id side field_name = true
  ↔ side ∈ [0; 1; 2]
    ∧ field_name ∈ ["name"; "level"; "pt"; "cash"; "bank"; "address"; "town";
                    "birthday"; "birthlocation"; "eyecolor"; "height"]
    ∧ (holds_role db user_id "admin" ∨ kv_permission_row db user_id side field_name).
Proof. rewrite can_kv_field_true_iff, elem_of_KV_FIELDS. tauto. Qed.

Lemma grants_more_checks (db db' : Store) (user_id : Z) :
  grants_more db db' →
  (is_admin db user_id = true → is_admin db' user_id = true)
  ∧ (∀ table_name action,
       can db user_id table_name action = true →
       can db' user_id table_name action = true)
  ∧ (∀ action,
       can_admin_panel db user_id action = true →
       can_admin_panel db' user_id action = true)
  ∧ (∀ side field_name,
       can_kv_field db user_id side field_name = true →
       can_kv_field db' user_id side field_name = true).
Proof.
  intros (Hur & Hr & Hp & Hap & Hkp).
  assert (∀ name, holds_role db user_id name → holds_role db' user_id name) as Hrole.
  { intros name (ur & r & ? & ? & ?). exists ur, r. split; [by apply Hur|].
    split; [by apply Hr|]. done. }
  split; [|split; [|split]].
  - rewrite !is_admin_iff. apply Hrole.
  - intros table_name action. rewrite !can_true_iff.
    intros [Ha (ur & p & ? & ? & ?)]. split; [done|]. exists ur, p.
    split; [by apply Hur|]. split; [by apply Hp|]. done.
  - intros action. rewrite !can_admin_panel_true_iff.
    intros [Ha (ur & ap & ? & ? & ?)]. split; [done|]. exists ur, ap.
    split; [by apply Hur|]. split; [by apply Hap|]. done.
  - intros side field_name. rewrite !can_kv_field_true_iff.
    intros (? & ? & [Hadm | (ur & kp & ? & ? & ?)]); split; try done; split; try done.
    + left. by apply Hrole.
    + right. exists ur, kp. split; [by apply Hur|]. split; [by apply Hkp|]. done.
Qed.

(** X8: the permission tables only ever grant: when every row of the
    authorization tables of one database is also in another, every check that
    passes on the first passes on the second.  No row, whatever its flags,
    takes a permission away. *)
Theorem permission_rows_additive (db db' : Store) (user_id : Z) :
  grants_more db db' →
  (is_admin db user_id = true → is_admin db' user_id = true)
  ∧ (∀ table_name action,
       can db user_id table_name action = true →
       can db' user_id table_name action = true)
  ∧ (∀ action,
       can_admin_panel db user_id action = true →
       can_admin_panel db' user_id action = true)
  ∧ (∀ side field_name,
       can_kv_field db user_id side field_name = true →
       can_kv_field db' user_id side field_name = true).
Proof. apply grants_more_checks. Qed.

Lemma permission_rows_additive_witness :
  can_kv_field
    {| admin_users := []; admin_roles := admin_roles Samples.editor_store;
       admin_user_roles := {| ur_user_id := 9; ur_role_id := 5 |}
                           :: admin_user_roles Samples.editor_store;
       admin_permissions := admin_permissions Samples.editor_store;
       admin_panel_permissions := [];
       admin_kv_permissions := admin_kv_permissions Samples.editor_store;
       kvstore := ∅; support_cases := []; vehicles := [] |}
    2 0 "name" = true.
Proof.
  refine (proj2 (proj2 (proj2
    (permission_rows_additive Samples.editor_store _ 2 _))) 0 "name" _).
  - repeat split; simpl; try done. intros x Hx. by right.
  - reflexivity.
Defined.

(** X9: the gate in front of the admin panel (the same function in
    admin_players.py and admin_routes.py) never changes anything and has three
    outcomes: a request without session user, or with the user id 0, gets
    401; a signed-in user who holds the admin role or a role with the
    admin_access flag gets its user id back; any other signed-in user gets
    403. *)
Theorem require_admin_gate (w : World) :
  AdminRoutes.require_admin w = require_admin w
  ∧ ((∀ uid, ¬ signed_in w uid) →
       require_admin w = (Raise (HTTPException 401), w))
  ∧ (∀ uid, signed_in w uid →
       (holds_role (db w) uid "admin"
        ∨ panel_permission_row (db w) uid "admin_access" →
          require_admin w = (Ok uid, w))
       ∧ (¬ holds_role (db w) uid "admin"
          ∧ ¬ panel_permission_row (db w) uid "admin_access" →
          require_admin w = (Raise (HTTPException 403), w))).
Proof.
  split; [reflexivity|]. rewrite require_admin_run. unfold signed_in. split.
  - intros Hno. destruct (user_id (session w)) as [u|]; [|done].
    case_decide; [done|]. exfalso. by apply (Hno u).
  - intros uid [Hu Hne]. rewrite Hu, decide_False by done.
    rewrite <- is_admin_iff.
    assert (can_admin_panel (db w) uid "admin_access" = true
            ↔ panel_permission_row (db w) uid "admin_access") as Hap.
    { rewrite can_admin_panel_true_iff, elem_of_panel_actions. tauto. }
    rewrite <- Hap. split.
    + intros H. by apply orb_true_iff in H as ->.
    + intros [H1 H2]. apply not_true_is_false in H1, H2. by rewrite H1, H2.
Qed.
(** ** Support cases, continued *)

Lemma case_selected_iff (case_id : Z) (uid : string) (c : SupportCase) :
  case_selected case_id uid c = true ↔ sc_id c = case_id ∧ sc_player_pid c = uid.
Proof.
  unfold case_selected. by rewrite andb_true_iff, !bool_decide_eq_true.
Qed.

Lemma gate_rejects (w : World) :
  ¬ passes_gate w → ∃ e, (require_admin w).1 = Raise e.
Proof.
  intros Hn. destruct (gate_outcome w) as [[Hp _] | [[_ ->] | [_ ->]]]; [done|eauto..].
Qed.

Lemma gate_accepts (w : World) :
  passes_gate w → ∃ uid, (require_admin w).1 = Ok uid.
Proof.
  intros Hp. destruct (gate_outcome w) as [[_ ?] | [[Hn _] | [Hn _]]]; done.
Qed.

Lemma passes_gate_stable (w w' : World) :
  user_id (session w') = user_id (session w) →
  admin_user_roles (db w') = admin_user_roles (db w) →
  admin_roles (db w') = admin_roles (db w) →
  admin_panel_permissions (db w') = admin_panel_permissions (db w) →
  passes_gate w → passes_gate w'.
Proof.
  intros Hu Hur Hr Hap Hp. apply gate_accepts in Hp as [uid Hp].
  apply require_admin_passes. exists uid.
  rewrite (require_admin_state w'), (gate_stable w w' Hu Hur Hr Hap), Hp. done.
Qed.

Lemma support_create_run (case_id : Z)
    (uid case_type supporter_name area scn content : string) (w : World) :
  support_create case_id uid case_type supporter_name area scn content w =
    match (require_admin w).1 with
    | Raise e => (Raise e, w)
    | Ok _ =>
        (Ok (RedirectResponse ("/admin/players/" +:+ uid +:+ "?tab=support") 303),
         {| db := set_support_cases
                    (support_cases (db w) ++
                      [ {| sc_id := case_id;
                           sc_player_pid := uid;
                           sc_player_name := Some (Py.or_else (name_query uid (db w)) uid);
                           sc_case_type := Py.strip case_type;
                           sc_area := Py.strip (Py.or_else (Some area) "Support");
                           sc_supporter_name := Py.strip supporter_name;
                           sc_scn := Some (Py.strip (Py.or_else (Some scn) ""));
                           sc_content := Some (Py.or_else (Some content) "");
                           sc_status := "open" |} ]) (db w);
            session := {| user_id := user_id (session w);
                          flash_store := flash_store (session w)
                                         ++ [("Supportfall erstellt.", "success")] |};
            now := now w |})
    end.
Proof.
  unfold support_create. rewrite gate_bind. by destruct (require_admin w).1.
Qed.

Lemma support_delete_run (uid : string) (case_id : Z) (w : World) :
  support_delete uid case_id w =
    match (require_admin w).1 with
    | Raise e => (Raise e, w)
    | Ok _ =>
        (Ok (RedirectResponse ("/admin/players/" +:+ uid +:+ "?tab=support") 303),
         {| db := set_support_cases
                    (List.filter (λ c, negb (case_selected case_id uid c))
                       (support_cases (db w))) (db w);
            session := {| user_id := user_id (session w);
                          flash_store := flash_store (session w)
                                         ++ [("Supportfall gelöscht.", "warning")] |};
            now := now w |})
    end.
Proof.
  unfold support_delete. rewrite gate_bind. by destruct (require_admin w).1.
Qed.

(** X10: [support_create] behind the gate appends exactly one case and leaves
    the stored cases, the key/value store and the vehicles as they were.  The
    new case belongs to the player, is open, and carries as name snapshot the
    first name stored for the player in the order of the sides 0, 1, 2; the
    player id stands in when no name is stored or when that first name is
    empty (a later side is then not consulted).  A request that does not pass
    the gate changes nothing. *)
Theorem support_create_effect (case_id : Z)
    (uid case_type supporter_name area scn content : string) (w : World) :
  let w' := (support_create case_id uid case_type supporter_name area scn content w).2 in
  let name_at (side : Z) := kv_v <$> kvstore (db w) !! (uid, "name", side) in
  (¬ passes_gate w → w' = w)
  ∧ (passes_gate w →
       ∃ c n,
         support_cases (db w') = support_cases (db w) ++ [c]
         ∧ kvstore (db w') = kvstore (db w) ∧ vehicles (db w') = vehicles (db w)
         ∧ sc_id c = case_id ∧ sc_player_pid c = uid ∧ sc_status c = "open"
         ∧ (area = "" → sc_area c = "Support")
         ∧ sc_player_name c = Some n
         ∧ (name_at 0 = None → name_at 1 = None → name_at 2 = None → n = uid)
         ∧ (∀ v, name_at 0 = Some v → n = if decide (v = "") then uid else v)
         ∧ (∀ v, name_at 0 = None → name_at 1 = Some v →
              n = if decide (v = "") then uid else v)
         ∧ (∀ v, name_at 0 = None → name_at 1 = None → name_at 2 = Some v →
              n = if decide (v = "") then uid else v)).
Proof.
  intros w' name_at. subst w'. rewrite support_create_run. split.
  - intros Hn. apply gate_rejects in Hn as [e ->]. done.
  - intros Hp. apply gate_accepts in Hp as [u ->]. cbn [snd db].
    eexists. exists (Py.or_else (name_query uid (db w)) uid).
    split; [reflexivity|]. cbn [sc_id sc_player_pid sc_status sc_area sc_player_name].
    repeat (split; [done|]).
    split; [by intros ->|]. split; [done|].
    unfold name_query. fold (name_at 0) (name_at 1) (name_at 2).
    split; [|split; [|split]].
    + by intros -> -> ->.
    + by intros v ->.
    + by intros v -> ->.
    + by intros v -> -> ->.
Qed.

(** X11: [support_delete] behind the gate removes exactly the cases that have
    the given id and belong to the given player: a case with the same id of
    another player stays, the remaining cases keep their order, and the
    key/value store and the vehicles are untouched.  A request that does not
    pass the gate changes nothing. *)
Theorem support_delete_effect (uid : string) (case_id : Z) (w : World) :
  let w' := (support_delete uid case_id w).2 in
  (¬ passes_gate w → w' = w)
  ∧ (passes_gate w →
       (∀ c, c ∈ support_cases (db w')
             ↔ c ∈ support_cases (db w)
               ∧ ¬ (sc_id c = case_id ∧ sc_player_pid c = uid))
       ∧ support_cases (db w') `sublist_of` support_cases (db w)
       ∧ kvstore (db w') = kvstore (db w) ∧ vehicles (db w') = vehicles (db w)).
Proof.
  intros w'. subst w'. rewrite support_delete_run. split.
  - intros Hn. apply gate_rejects in Hn as [e ->]. done.
  - intros Hp. apply gate_accepts in Hp as [u ->]. cbn [snd db support_cases set_support_cases].
    split; [|split; [apply filter_sublist | done]].
    intros c. rewrite list_elem_of_In, filter_In, <- list_elem_of_In.
    rewrite negb_true_iff, <- case_selected_iff.
    destruct (case_selected case_id uid c); split; intros [? ?]; split; congruence || done.
Qed.

(** X12: create and delete round trip: when no stored case of the player has
    the id the database assigns, [support_create] followed by
    [support_delete] of that id gives back the stored cases as they were. *)
Theorem support_create_then_delete (case_id : Z)
    (uid case_type supporter_name area scn content : string) (w : World) :
  passes_gate w →
  (∀ c, c ∈ support_cases (db w) → ¬ (sc_id c = case_id ∧ sc_player_pid c = uid)) →
  let w1 := (support_create case_id uid case_type supporter_name area scn content w).2 in
  let w2 := (support_delete uid case_id w1).2 in
  support_cases (db w1) ≠ support_cases (db w)
  ∧ support_cases (db w2) = support_cases (db w).
Proof.
  intros Hp Hfresh w1 w2.
  assert (passes_gate w1) as Hp1.
  { subst w1. rewrite support_create_run.
    pose proof Hp as Hp'. apply gate_accepts in Hp' as [u ->].
    by eapply passes_gate_stable. }
  subst w2. rewrite support_delete_run.
  apply gate_accepts in Hp1 as [u1 ->]. cbn [snd db support_cases set_support_cases].
  subst w1. rewrite support_create_run.
  apply gate_accepts in Hp as [u ->]. cbn [snd db support_cases set_support_cases].
  split.
  - intros H. apply (f_equal length) in H. rewrite length_app in H. simpl in H. lia.
  - rewrite List.filter_app. simpl. unfold case_selected at 2. simpl.
    rewrite !bool_decide_eq_true_2 by done. simpl. rewrite app_nil_r.
    apply filter_all. intros c Hc. apply negb_true_iff, not_true_is_false.
    rewrite case_selected_iff. by apply Hfresh.
Qed.

Lemma support_create_then_delete_witness :
  let w1 := (support_create 99 "76561" "Ban" "Eve" "" "" "text"
               WebSamples.admin_world).2 in
  let w2 := (support_delete "76561" 99 w1).2 in
  support_cases (db w2) = support_cases (db WebSamples.admin_world).
Proof.
  refine (proj2 (support_create_then_delete 99 "76561" "Ban" "Eve" "" "" "text"
                   WebSamples.admin_world _ _)).
  - apply require_admin_passes. exists 1. reflexivity.
  - intros c Hc. simpl in Hc. rewrite !elem_of_cons, elem_of_nil in Hc.
    destruct Hc as [-> | [-> | []]]; intros [Hid _]; discriminate Hid.
Defined.

(** X13: [support_update] never touches the identity of a case: every stored
    case keeps its position, id, player and name snapshot, and a case that is
    not the one addressed (same id and same player) stays as it is.
    Repeating the same update leaves the database as the first one left
    it. *)
Theorem support_update_scoped (uid : string) (case_id : Z)
    (case_type supporter_name area scn content status : string) (w : World) :
  let w1 := (support_update uid case_id case_type supporter_name area scn content
               status w).2 in
  let w2 := (support_update uid case_id case_type supporter_name area scn content
               status w1).2 in
  (∀ i c, support_cases (db w) !! i = Some c →
     ∃ c', support_cases (db w1) !! i = Some c'
           ∧ sc_id c' = sc_id c ∧ sc_player_pid c' = sc_player_pid c
           ∧ sc_player_name c' = sc_player_name c
           ∧ (¬ (sc_id c = case_id ∧ sc_player_pid c = uid) → c' = c))
  ∧ length (support_cases (db w1)) = length (support_cases (db w))
  ∧ kvstore (db w1) = kvstore (db w) ∧ vehicles (db w1) = vehicles (db w)
  ∧ db w2 = db w1.
Proof.
  intros w1 w2. subst w2 w1. rewrite !support_update_run.
  destruct (require_admin w).1 as [u|e] eqn:Hgate; cbn [snd].
  - rewrite (gate_stable w) by reflexivity. rewrite Hgate.
    cbn [snd db support_cases set_support_cases kvstore vehicles].
    split; [|split; [by rewrite length_fmap | split; [done | split; [done|]]]].
    + intros i c Hc. rewrite list_lookup_fmap, Hc. simpl.
      destruct (case_selected case_id uid c) eqn:Hsel.
      * eexists. split; [reflexivity|]. simpl. repeat (split; [done|]).
        intros Hn. apply case_selected_iff in Hsel. done.
      * exists c. done.
    + unfold set_support_cases. cbn. f_equal.
      rewrite <- list_fmap_compose. apply list_fmap_ext. intros i c _. simpl.
      destruct (case_selected case_id uid c) eqn:Hsel; [|by rewrite Hsel].
      unfold case_selected in *. simpl. by rewrite Hsel.
  - rewrite Hgate. cbn [snd]. split; [|done].
    intros i c Hc. exists c. done.
Qed.

Lemma support_edit_run (uid : string) (case_id : Z) (w : World) :
  support_edit uid case_id w =
    match (require_admin w).1 with
    | Raise e => (Raise e, w)
    | Ok _ =>
        match first (select_where (support_cases (db w))
                       (case_selected case_id uid)) with
        | None => (Raise (HTTPException 404), w)
        | Some c => (Ok ("support_edit.html", c), w)
        end
    end.
Proof.
  unfold support_edit. rewrite gate_bind. destruct (require_admin w).1; [|done].
  run_m. by destruct (first _).
Qed.

(** X14: [support_edit] reads only.  Behind the gate it answers 404 exactly
    when the player has no case with the given id, and otherwise hands the
    template a stored case with that id of that player (the first one). *)
Theorem support_edit_found (uid : string) (case_id : Z) (w : World) :
  (support_edit uid case_id w).2 = w
  ∧ (passes_gate w →
       (support_edit uid case_id w = (Raise (HTTPException 404), w)
          ↔ ∀ c, c ∈ support_cases (db w) →
                 ¬ (sc_id c = case_id ∧ sc_player_pid c = uid))
       ∧ (∀ page c, support_edit uid case_id w = (Ok (page, c), w) →
            page = "support_edit.html" ∧ c ∈ support_cases (db w)
            ∧ sc_id c = case_id ∧ sc_player_pid c = uid)
       ∧ (∀ c, c ∈ support_cases (db w) →
            sc_id c = case_id → sc_player_pid c = uid →
            ∃ c', support_edit uid case_id w = (Ok ("support_edit.html", c'), w))).
Proof.
  rewrite support_edit_run. split.
  - destruct (require_admin w).1; [|done]. by destruct (first _).
  - intros Hp. apply gate_accepts in Hp as [u ->].
    destruct (first (select_where (support_cases (db w))
                       (case_selected case_id uid))) as [c0|] eqn:Hrow.
    + apply first_select_where_Some in Hrow as (l1 & l2 & Hl & Hsel & _).
      apply case_selected_iff in Hsel.
      assert (c0 ∈ support_cases (db w)) as Hin.
      { rewrite Hl. apply elem_of_app. right. by left. }
      split; [|split].
      * split; [discriminate|]. intros H. by destruct (H c0 Hin).
      * intros page c [= <- <-]. done.
      * eauto.
    + pose proof Hrow as Hnone. rewrite first_select_where_None in Hnone.
      split; [|split].
      * split; [|done]. intros _ c Hc Hsel. apply case_selected_iff in Hsel.
        rewrite (Hnone c Hc) in Hsel. discriminate.
      * intros page c [=].
      * intros c Hc Hid Hpid. exfalso.
        assert (case_selected case_id uid c = true) as Hsel
          by (by apply case_selected_iff).
        rewrite (Hnone c Hc) in Hsel. discriminate.
Qed.

Lemma support_edit_found_witness :
  ∃ c', support_edit "76561" 8 WebSamples.admin_world
        = (Ok ("support_edit.html", c'), WebSamples.admin_world).
Proof.
  refine (proj2 (proj2 (proj2 (support_edit_found "76561" 8 WebSamples.admin_world) _))
            WebSamples.open_case _ _ _).
  - apply require_admin_passes. exists 1. reflexivity.
  - simpl. rewrite !elem_of_cons. tauto.
  - reflexivity.
  - reflexivity.
Defined.

(** ** Vehicles *)

Lemma cb_ticked (v : string) :
  (cb v = 1 ↔ ticked v) ∧ (cb v = 0 ↔ ¬ ticked v) ∧ cb v ∈ [0; 1].
Proof.
  unfold cb, ticked.
  destruct (decide (Py.lower v ∈ ["1"; "true"; "on"; "yes"])) as [H | H].
  - rewrite (bool_decide_eq_true_2 _ H). split; [tauto|].
    split; [split; [discriminate | done]|]. right. by left.
  - rewrite (bool_decide_eq_false_2 _ H). split; [split; [discriminate | done]|].
    split; [tauto|]. by left.
Qed.

Lemma or_else_self (s : string) : Py.or_else (Some s) "" = s.
Proof. unfold Py.or_else. by case_decide. Qed.

Lemma vehicle_update_run (vehicle_id : Z) (alive active sold locked : string)
    (color : Z) (trunk : string) (w : World) :
  vehicle_update vehicle_id alive active sold locked color trunk w =
    match (require_admin w).1 with
    | Raise e => (Raise e, w)
    | Ok _ =>
        let vs :=
          (λ v, if bool_decide (v_id v = vehicle_id)
                then {| v_id := v_id v; v_side := v_side v;
                        v_classname := v_classname v; v_type := v_type v;
                        v_pid := v_pid v; v_alive := cb alive;
                        v_active := cb active; v_sold := cb sold;
                        v_locked := cb locked; v_color := color;
                        v_trunk := Py.or_else (Some trunk) "";
                        v_chip := v_chip v; v_ts_bought := v_ts_bought v;
                        v_ts_modified := now w |}
                else v) <$> vehicles (db w) in
        (Ok (RedirectResponse
               ("/admin/players/" +:+
                default "None" (v_pid <$> first (select_where vs
                                  (λ v, bool_decide (v_id v = vehicle_id))))
                +:+ "?tab=vehicles") 303),
         {| db := set_vehicles vs (db w);
            session := {| user_id := user_id (session w);
                          flash_store := flash_store (session w)
                                         ++ [("Fahrzeug gespeichert.", "success")] |};
            now := now w |})
    end.
Proof.
  unfold vehicle_update. rewrite gate_bind. by destruct (require_admin w).1.
Qed.

(** X15: [vehicle_update] behind the gate rewrites only the vehicle with the
    given id: it keeps what the vehicle is and whose it is, stores each of the
    four flags as 1 when the submitted value is ticked (1, true, on, yes in
    any letter case) and as 0 otherwise, stores colour and trunk as
    submitted, and stamps the modification time.  Every other vehicle, the
    key/value store and the support cases stay as they are; a request that
    does not pass the gate changes nothing. *)
Theorem vehicle_update_effect (vehicle_id : Z) (alive active sold locked : string)
    (color : Z) (trunk : string) (w : World) :
  let w' := (vehicle_update vehicle_id alive active sold locked color trunk w).2 in
  (¬ passes_gate w → w' = w)
  ∧ (passes_gate w →
       kvstore (db w') = kvstore (db w)
       ∧ support_cases (db w') = support_cases (db w)
       ∧ ∀ i v, vehicles (db w) !! i = Some v →
           ∃ v', vehicles (db w') !! i = Some v'
             ∧ same_vehicle v v'
             ∧ (v_id v ≠ vehicle_id → v' = v)
             ∧ (v_id v = vehicle_id →
                  (v_alive v' = 1 ↔ ticked alive) ∧ (v_alive v' = 0 ↔ ¬ ticked alive)
                  ∧ (v_active v' = 1 ↔ ticked active)
                  ∧ (v_active v' = 0 ↔ ¬ ticked active)
                  ∧ (v_sold v' = 1 ↔ ticked sold) ∧ (v_sold v' = 0 ↔ ¬ ticked sold)
                  ∧ (v_locked v' = 1 ↔ ticked locked)
                  ∧ (v_locked v' = 0 ↔ ¬ ticked locked)
                  ∧ v_color v' = color ∧ v_trunk v' = trunk
                  ∧ v_ts_modified v' = now w)).
Proof.
  intros w'. subst w'. rewrite vehicle_update_run. split.
  - intros Hn. apply gate_rejects in Hn as [e ->]. done.
  - intros Hp. apply gate_accepts in Hp as [u ->].
    cbn [snd db kvstore support_cases vehicles set_vehicles].
    split; [done|]. split; [done|].
    intros i v Hv. rewrite list_lookup_fmap, Hv. simpl.
    case_bool_decide as Hid.
    + eexists. split; [reflexivity|]. split; [done|]. split; [done|].
      intros _. simpl.
      destruct (cb_ticked alive) as (? & ? & _), (cb_ticked active) as (? & ? & _),
               (cb_ticked sold) as (? & ? & _), (cb_ticked locked) as (? & ? & _).
      split_and!; try done. by case_decide.
    + exists v. split; [done|]. split; [done|]. split; [done|]. done.
Qed.

Lemma elem_of_quick_actions (action : string) :
  action ∈ quick_actions ↔
  action = "restore" ∨ action = "lock" ∨ action = "unlock" ∨ action = "sell"
  ∨ action = "unsell" ∨ action = "kill" ∨ action = "revive".
Proof. unfold quick_actions. rewrite !elem_of_cons, elem_of_nil. tauto. Qed.

Lemma sets_lookup (action : string) :
  action ∈ quick_actions →
  ∃ l, sets !! action = Some l
       ∧ Forall (λ cv : string * Z,
                   cv.1 ∈ ["alive"; "active"; "sold"; "locked"] ∧ cv.2 ∈ [0; 1]) l.
Proof.
  intros Ha. apply elem_of_quick_actions in Ha.
  destruct Ha as [-> | [-> | [-> | [-> | [-> | [-> | ->]]]]]];
    (eexists; split; [vm_compute; reflexivity|]);
    repeat constructor; simpl; rewrite !elem_of_cons; tauto.
Qed.

Lemma vehicle_quick_action_valid (vehicle_id : Z) (action : string)
    (l : list (string * Z)) (w : World) :
  action ∈ quick_actions → sets !! action = Some l →
  vehicle_quick_action vehicle_id action w =
    match (require_admin w).1 with
    | Raise e => (Raise e, w)
    | Ok _ =>
        let vs :=
          (λ v, if bool_decide (v_id v = vehicle_id)
                then set_ts_modified (now w) (foldl assign v l)
                else v) <$> vehicles (db w) in
        (Ok (RedirectResponse
               ("/admin/players/" +:+
                default "None" (v_pid <$> first (select_where vs
                                  (λ v, bool_decide (v_id v = vehicle_id))))
                +:+ "?tab=vehicles") 303),
         {| db := set_vehicles vs (db w);
            session := {| user_id := user_id (session w);
                          flash_store := flash_store (session w)
                                         ++ [("Quick-Action: " +:+ action, "info")] |};
            now := now w |})
    end.
Proof.
  intros Ha Hl. apply elem_of_allowed in Ha.
  unfold vehicle_quick_action. rewrite gate_bind.
  destruct (require_admin w).1; [|done].
  rewrite (bool_decide_eq_true_2 _ Ha), Hl. reflexivity.
Qed.

Lemma foldl_assign_frame (l : list (string * Z)) (v : Vehicle) :
  Forall (λ cv : string * Z,
            cv.1 ∈ ["alive"; "active"; "sold"; "locked"] ∧ cv.2 ∈ [0; 1]) l →
  let v' := foldl assign v l in
  same_vehicle v v' ∧ v_color v' = v_color v ∧ v_trunk v' = v_trunk v
  ∧ v_ts_modified v' = v_ts_modified v
  ∧ (v_alive v' = v_alive v ∨ v_alive v' ∈ [0; 1])
  ∧ (v_active v' = v_active v ∨ v_active v' ∈ [0; 1])
  ∧ (v_sold v' = v_sold v ∨ v_sold v' ∈ [0; 1])
  ∧ (v_locked v' = v_locked v ∨ v_locked v' ∈ [0; 1]).
Proof.
  intros Hl. revert v. induction Hl as [|cv l [_ Hval] _ IH]; intros v; simpl.
  - unfold same_vehicle. tauto.
  - destruct (IH (assign v cv))
      as ((? & ? & ? & ? & ? & ? & ?) & ? & ? & ? & Ha & Hb & Hc & Hd).
    unfold same_vehicle.
    split; [done|]. split; [done|]. split; [done|]. split; [done|].
    split; [|split; [|split]].
    + destruct Ha as [Ha | ?]; [|by right]. rewrite Ha. simpl.
      destruct (decide (cv.1 = "alive")); [by right | by left].
    + destruct Hb as [Hb | ?]; [|by right]. rewrite Hb. simpl.
      destruct (decide (cv.1 = "active")); [by right | by left].
    + destruct Hc as [Hc | ?]; [|by right]. rewrite Hc. simpl.
      destruct (decide (cv.1 = "sold")); [by right | by left].
    + destruct Hd as [Hd | ?]; [|by right]. rewrite Hd. simpl.
      destruct (decide (cv.1 = "locked")); [by right | by left].
Qed.

Lemma quick_action_step (vehicle_id : Z) (action : string) (l : list (string * Z))
    (w : World) :
  passes_gate w → action ∈ quick_actions → sets !! action = Some l →
  let w' := (vehicle_quick_action vehicle_id action w).2 in
  passes_gate w' ∧ now w' = now w
  ∧ kvstore (db w') = kvstore (db w) ∧ support_cases (db w') = support_cases (db w)
  ∧ vehicles (db w')
    = (λ v, if bool_decide (v_id v = vehicle_id)
            then set_ts_modified (now w) (foldl assign v l)
            else v) <$> vehicles (db w).
Proof.
  intros Hp Ha Hl w'. subst w'.
  rewrite (vehicle_quick_action_valid _ _ _ _ Ha Hl).
  pose proof Hp as Hp'. apply gate_accepts in Hp' as [u ->]. cbn [snd].
  split; [by eapply passes_gate_stable|]. done.
Qed.

Lemma quick_assign_idem (action : string) (l : list (string * Z)) (t t' : Z)
    (v : Vehicle) :
  action ∈ quick_actions → sets !! action = Some l →
  set_ts_modified t' (foldl assign (set_ts_modified t (foldl assign v l)) l)
  = set_ts_modified t' (set_ts_modified t (foldl assign v l)).
Proof.
  intros Ha Hl. apply elem_of_quick_actions in Ha.
  destruct Ha as [-> | [-> | [-> | [-> | [-> | [-> | ->]]]]]];
    vm_compute in Hl; injection Hl as <-; destruct v; reflexivity.
Qed.

(** X16: behind the gate every one of the seven quick actions succeeds (the
    lookup of its SET fragment cannot fail) and rewrites only the vehicle with
    the given id: it keeps what the vehicle is and whose it is, its colour and
    its trunk, stamps the modification time, and leaves each of the four
    flags either as it was or at 0 or 1.  When no vehicle has the id, no row
    changes and the redirect goes to the player page of "None".  Repeating
    the action, at whatever time, changes nothing but the modification time
    of that vehicle, which is stamped again. *)
Theorem quick_action_effect (vehicle_id : Z) (action : string) (w : World) :
  action ∈ quick_actions →
  passes_gate w →
  let r := vehicle_quick_action vehicle_id action w in
  (∃ url, r.1 = Ok (RedirectResponse url 303))
  ∧ kvstore (db r.2) = kvstore (db w)
  ∧ support_cases (db r.2) = support_cases (db w)
  ∧ (∀ i v, vehicles (db w) !! i = Some v →
       ∃ v', vehicles (db r.2) !! i = Some v'
         ∧ same_vehicle v v' ∧ v_color v' = v_color v ∧ v_trunk v' = v_trunk v
         ∧ (v_id v ≠ vehicle_id → v' = v)
         ∧ (v_id v = vehicle_id →
              v_ts_modified v' = now w
              ∧ (v_alive v' = v_alive v ∨ v_alive v' ∈ [0; 1])
              ∧ (v_active v' = v_active v ∨ v_active v' ∈ [0; 1])
              ∧ (v_sold v' = v_sold v ∨ v_sold v' ∈ [0; 1])
              ∧ (v_locked v' = v_locked v ∨ v_locked v' ∈ [0; 1])))
  ∧ ((∀ v, v ∈ vehicles (db w) → v_id v ≠ vehicle_id) →
       vehicles (db r.2) = vehicles (db w)
       ∧ r.1 = Ok (RedirectResponse "/admin/players/None?tab=vehicles" 303))
  ∧ (∀ later,
       let again :=
         (vehicle_quick_action vehicle_id action
            {| db := db r.2; session := session r.2; now := later |}).2 in
       kvstore (db again) = kvstore (db r.2)
       ∧ support_cases (db again) = support_cases (db r.2)
       ∧ vehicles (db again)
         = (λ v, if bool_decide (v_id v = vehicle_id)
                 then set_ts_modified later v else v) <$> vehicles (db r.2)).
Proof.
  intros Ha Hp r. destruct (sets_lookup action Ha) as (l & Hl & Hall).
  destruct (quick_action_step vehicle_id action l w Hp Ha Hl)
    as (Hp1 & Hnow & Hkv & Hsc & Hvs).
  fold r in Hp1, Hnow, Hkv, Hsc, Hvs.
  assert (r.1 = Ok (RedirectResponse
            ("/admin/players/" +:+
             default "None" (v_pid <$> first (select_where (vehicles (db r.2))
                               (λ v, bool_decide (v_id v = vehicle_id))))
             +:+ "?tab=vehicles") 303)) as Hresp.
  { subst r. rewrite (vehicle_quick_action_valid _ _ _ _ Ha Hl).
    pose proof Hp as Hp'. apply gate_accepts in Hp' as [u ->]. reflexivity. }
  split; [eauto|]. split; [done|]. split; [done|]. split; [|split].
  - intros i v Hv. rewrite Hvs, list_lookup_fmap, Hv. simpl.
    destruct (foldl_assign_frame l v Hall) as (Hsame & Hcol & Htr & _ & Hflags).
    case_bool_decide as Hid.
    + eexists. split; [reflexivity|]. split; [exact Hsame|].
      split; [exact Hcol|]. split; [exact Htr|]. split; [done|].
      intros _. split; [done|]. exact Hflags.
    + exists v. split; [done|]. unfold same_vehicle. split_and!; try done.
  - intros Hnone.
    assert (vehicles (db r.2) = vehicles (db w)) as Heq.
    { rewrite Hvs. rewrite <- (list_fmap_id (vehicles (db w))) at 2.
      apply list_fmap_ext. intros i v Hv. simpl.
      rewrite bool_decide_eq_false_2; [done|].
      apply Hnone. by eapply list_elem_of_lookup_2. }
    split; [done|]. rewrite Hresp, Heq.
    assert (first (select_where (vehicles (db w))
              (λ v, bool_decide (v_id v = vehicle_id))) = None) as ->; [|done].
    apply first_select_where_None. intros v Hv.
    apply bool_decide_eq_false_2. by apply Hnone.
  - intros later again.
    set (w3 := {| db := db r.2; session := session r.2; now := later |}) in *.
    assert (passes_gate w3) as Hp3 by (by apply (passes_gate_stable r.2)).
    destruct (quick_action_step vehicle_id action l w3 Hp3 Ha Hl)
      as (_ & _ & Hkv3 & Hsc3 & Hvs3).
    fold again in Hkv3, Hsc3, Hvs3.
    split; [exact Hkv3|]. split; [exact Hsc3|].
    rewrite Hvs3. cbn [db now w3]. rewrite Hvs, <- !list_fmap_compose.
    apply list_fmap_ext. intros i v _. unfold compose.
    destruct (decide (v_id v = vehicle_id)) as [Hid | Hid].
    + rewrite (bool_decide_eq_true_2 _ Hid).
      destruct (foldl_assign_frame l v Hall) as ((Hid' & _) & _).
      rewrite bool_decide_eq_true_2 by (simpl in *; congruence).
      by apply (quick_assign_idem action).
    + rewrite (bool_decide_eq_false_2 _ Hid).
      by rewrite (bool_decide_eq_false_2 _ Hid).
Qed.

Lemma quick_action_effect_witness :
  ∃ url, (vehicle_quick_action 3 "sell" WebSamples.admin_world).1
         = Ok (RedirectResponse url 303).
Proof.
  refine (proj1 (quick_action_effect 3 "sell" WebSamples.admin_world _ _)).
  - apply elem_of_quick_actions. tauto.
  - apply require_admin_passes. exists 1. reflexivity.
Defined.

Lemma quick_action_at (vehicle_id : Z) (action : string) (l : list (string * Z))
    (w : World) (i : nat) (v : Vehicle) :
  passes_gate w → action ∈ quick_actions → sets !! action = Some l →
  vehicles (db w) !! i = Some v → v_id v = vehicle_id →
  let w' := (vehicle_quick_action vehicle_id action w).2 in
  let v' := set_ts_modified (now w) (foldl assign v l) in
  passes_gate w' ∧ vehicles (db w') !! i = Some v' ∧ v_id v' = vehicle_id.
Proof.
  intros Hp Ha Hl Hv Hid w' v'.
  destruct (quick_action_step vehicle_id action l w Hp Ha Hl) as (Hp1 & _ & _ & _ & Hvs).
  destruct (sets_lookup action Ha) as (l' & Hl' & Hall).
  assert (l' = l) as -> by congruence.
  destruct (foldl_assign_frame l v Hall) as ((Hid' & _) & _).
  split; [done|]. split; [|subst v'; simpl in *; congruence].
  subst w'. rewrite Hvs, list_lookup_fmap, Hv. simpl.
  by rewrite (bool_decide_eq_true_2 _ Hid).
Qed.

Ltac quick_step action l Hp Hv Hid :=
  let Hp' := fresh "Hp" in
  let Hv' := fresh "Hv" in
  let Hid' := fresh "Hid" in
  edestruct (quick_action_at _ action l _ _ _ Hp
              ltac:(apply elem_of_quick_actions; tauto) eq_refl Hv Hid)
    as (Hp' & Hv' & Hid').

(** X17: the quick actions undo one another on the vehicle they address: after
    lock then unlock the vehicle is unlocked, after unlock then lock it is
    locked, and likewise for sell and unsell and for kill and revive, the
    other flags staying as they were; restore brings a killed and sold vehicle
    back to alive, unsold and active without touching the lock. *)
Theorem quick_action_pairs (vehicle_id : Z) (w : World) (i : nat) (v : Vehicle) :
  passes_gate w →
  vehicles (db w) !! i = Some v →
  v_id v = vehicle_id →
  let run (action : string) (w : World) :=
    (vehicle_quick_action vehicle_id action w).2 in
  let after (w' : World) (alive active sold locked : Z) :=
    ∃ v', vehicles (db w') !! i = Some v'
          ∧ v_alive v' = alive ∧ v_active v' = active
          ∧ v_sold v' = sold ∧ v_locked v' = locked in
  after (run "unlock" (run "lock" w)) (v_alive v) (v_active v) (v_sold v) 0
  ∧ after (run "lock" (run "unlock" w)) (v_alive v) (v_active v) (v_sold v) 1
  ∧ after (run "unsell" (run "sell" w)) (v_alive v) (v_active v) 0 (v_locked v)
  ∧ after (run "sell" (run "unsell" w)) (v_alive v) (v_active v) 1 (v_locked v)
  ∧ after (run "revive" (run "kill" w)) 1 (v_active v) (v_sold v) (v_locked v)
  ∧ after (run "kill" (run "revive" w)) 0 (v_active v) (v_sold v) (v_locked v)
  ∧ after (run "restore" (run "sell" (run "kill" w))) 1 1 0 (v_locked v).
Proof.
  intros Hp Hv Hid run after. subst run after. cbv beta.
  split_and!.
  - quick_step "lock" [("locked", 1)] Hp Hv Hid.
    quick_step "unlock" [("locked", 0)] Hp0 Hv0 Hid0.
    eexists. split; [exact Hv1|]. done.
  - quick_step "unlock" [("locked", 0)] Hp Hv Hid.
    quick_step "lock" [("locked", 1)] Hp0 Hv0 Hid0.
    eexists. split; [exact Hv1|]. done.
  - quick_step "sell" [("sold", 1)] Hp Hv Hid.
    quick_step "unsell" [("sold", 0)] Hp0 Hv0 Hid0.
    eexists. split; [exact Hv1|]. done.
  - quick_step "unsell" [("sold", 0)] Hp Hv Hid.
    quick_step "sell" [("sold", 1)] Hp0 Hv0 Hid0.
    eexists. split; [exact Hv1|]. done.
  - quick_step "kill" [("alive", 0)] Hp Hv Hid.
    quick_step "revive" [("alive", 1)] Hp0 Hv0 Hid0.
    eexists. split; [exact Hv1|]. done.
  - quick_step "revive" [("alive", 1)] Hp Hv Hid.
    quick_step "kill" [("alive", 0)] Hp0 Hv0 Hid0.
    eexists. split; [exact Hv1|]. done.
  - quick_step "kill" [("alive", 0)] Hp Hv Hid.
    quick_step "sell" [("sold", 1)] Hp0 Hv0 Hid0.
    quick_step "restore" [("active", 1); ("sold", 0); ("alive", 1)] Hp1 Hv1 Hid1.
    eexists. split; [exact Hv2|]. done.
Qed.

Lemma quick_action_pairs_witness :
  ∃ v', vehicles (db (vehicle_quick_action 3 "unlock"
                        (vehicle_quick_action 3 "lock" WebSamples.admin_world).2).2)
          !! 0%nat = Some v'
        ∧ v_alive v' = 1 ∧ v_active v' = 0 ∧ v_sold v' = 0 ∧ v_locked v' = 0.
Proof.
  refine (proj1 (quick_action_pairs 3 WebSamples.admin_world 0 WebSamples.car _ _ _)).
  - apply require_admin_passes. exists 1. reflexivity.
  - reflexivity.
  - reflexivity.
Defined.

(** ** The admin panel: users and roles *)

Lemma panel_gate_bind {A : Type} (k : Z → M World A) (w : World) :
  (uid ← AdminRoutes.require_admin; k uid) w =
    match (require_admin w).1 with
    | Ok uid => k uid w
    | Raise e => (Raise e, w)
    end.
Proof.
  change AdminRoutes.require_admin with require_admin.
  unfold mbind, M_bind, bind. rewrite (require_admin_state w). simpl.
  by destruct (require_admin w).1.
Qed.

Lemma panel_allowed_iff (w : World) (action : string) :
  action ∈ panel_actions →
  panel_allowed w action
  ↔ ∃ uid, (require_admin w).1 = Ok uid
           ∧ is_admin (db w) uid || can_admin_panel (db w) uid action = true.
Proof.
  intros Ha. unfold panel_allowed.
  assert (∀ uid, is_admin (db w) uid || can_admin_panel (db w) uid action = true
                 ↔ holds_role (db w) uid "admin"
                   ∨ panel_permission_row (db w) uid action) as Hor.
  { intros uid. rewrite orb_true_iff, is_admin_iff, can_admin_panel_true_iff. tauto. }
  split.
  - intros [Hp (uid & Hs & Hrole)]. apply gate_accepts in Hp as [u Hu].
    destruct (gate_current_uid w u Hu) as [[Hsu _] _]. destruct Hs as [Hs _].
    assert (u = uid) as -> by congruence.
    exists uid. by rewrite Hor.
  - intros (uid & Hu & Hb). destruct (gate_current_uid w uid Hu) as [Hs _].
    split.
    + apply require_admin_passes. exists uid. by rewrite (require_admin_state w), Hu.
    + exists uid. by rewrite <- Hor.
Qed.

Lemma toggle_user_run (user_id : Z) (w : World) :
  AdminRoutes.toggle_user user_id w =
    match (require_admin w).1 with
    | Raise e => (Raise e, w)
    | Ok uid =>
        if is_admin (db w) uid || can_admin_panel (db w) uid "user_toggle"
        then
          (Ok (RedirectResponse "/admin/users" 303),
           {| db := set_admin_users
                      ((λ u, if bool_decide (au_id u = user_id)
                             then {| au_id := au_id u; au_username := au_username u;
                                     au_password_hash := au_password_hash u;
                                     au_is_active := if bool_decide (au_is_active u = 1)
                                                     then 0 else 1 |}
                             else u) <$> admin_users (db w)) (db w);
              session := {| user_id := Web.user_id (session w);
                            flash_store := flash_store (session w)
                                           ++ [("User-Status geändert.", "info")] |};
              now := now w |})
        else
          (Ok (RedirectResponse "/admin/users" 303),
           {| db := db w;
              session := {| user_id := Web.user_id (session w);
                            flash_store := flash_store (session w)
                              ++ [("Keine Berechtigung: Aktiv/Inaktiv.", "danger")] |};
              now := now w |})
    end.
Proof.
  unfold AdminRoutes.toggle_user. rewrite panel_gate_bind.
  destruct (require_admin w).1 as [uid|]; [|done]. run_m.
  by destruct (is_admin (db w) uid || can_admin_panel (db w) uid "user_toggle").
Qed.

Lemma elem_panel_action_user_toggle : "user_toggle" ∈ panel_actions.
Proof. apply elem_of_panel_actions. tauto. Qed.

Lemma toggle_user_cases (target : Z) (w : World) :
  (panel_allowed w "user_toggle"
   ∧ passes_gate (AdminRoutes.toggle_user target w).2
   ∧ user_id (session (AdminRoutes.toggle_user target w).2) = user_id (session w)
   ∧ (AdminRoutes.toggle_user target w).1 = Ok (RedirectResponse "/admin/users" 303)
   ∧ db (AdminRoutes.toggle_user target w).2
     = set_admin_users
         ((λ u, if bool_decide (au_id u = target)
                then {| au_id := au_id u; au_username := au_username u;
                        au_password_hash := au_password_hash u;
                        au_is_active := if bool_decide (au_is_active u = 1)
                                        then 0 else 1 |}
                else u) <$> admin_users (db w)) (db w))
  ∨ (¬ panel_allowed w "user_toggle"
     ∧ db (AdminRoutes.toggle_user target w).2 = db w
     ∧ (passes_gate w →
          (AdminRoutes.toggle_user target w).1
          = Ok (RedirectResponse "/admin/users" 303))).
Proof.
  pose proof (panel_allowed_iff w "user_toggle" elem_panel_action_user_toggle) as Hiff.
  rewrite toggle_user_run.
  destruct (require_admin w).1 as [uid|e] eqn:Hgate.
  - destruct (is_admin (db w) uid || can_admin_panel (db w) uid "user_toggle") eqn:Hb.
    + left. split; [apply Hiff; eauto|]. split; [|done].
      eapply (passes_gate_stable w); try reflexivity.
      apply require_admin_passes. exists uid.
      by rewrite (require_admin_state w), Hgate.
    + right. split; [|done]. rewrite Hiff. intros (u & [= <-] & Hb'). congruence.
  - right. split; [|split; [done|]].
    + rewrite Hiff. by intros (u & ? & _).
    + intros Hp. apply gate_accepts in Hp as [u Hu]. congruence.
Qed.

(** X18: [toggle_user] changes the database only for a request that may
    perform user_toggle (a request that passes the gate without that right is
    answered with a redirect and a flash message, not with 403).  It then
    flips the active flag of the accounts with the given id, 1 to 0 and any
    other value to 1, and keeps their id, username and password hash; all
    other accounts and all other tables stay as they are. *)
Theorem toggle_user_effect (target : Z) (w : World) :
  let r := AdminRoutes.toggle_user target w in
  (¬ panel_allowed w "user_toggle" → db r.2 = db w)
  ∧ (passes_gate w → r.1 = Ok (RedirectResponse "/admin/users" 303))
  ∧ (panel_allowed w "user_toggle" →
       admin_user_roles (db r.2) = admin_user_roles (db w)
       ∧ admin_roles (db r.2) = admin_roles (db w)
       ∧ admin_permissions (db r.2) = admin_permissions (db w)
       ∧ admin_panel_permissions (db r.2) = admin_panel_permissions (db w)
       ∧ admin_kv_permissions (db r.2) = admin_kv_permissions (db w)
       ∧ kvstore (db r.2) = kvstore (db w)
       ∧ support_cases (db r.2) = support_cases (db w)
       ∧ vehicles (db r.2) = vehicles (db w)
       ∧ length (admin_users (db r.2)) = length (admin_users (db w))
       ∧ ∀ i a, admin_users (db w) !! i = Some a →
           ∃ a', admin_users (db r.2) !! i = Some a'
             ∧ au_id a' = au_id a ∧ au_username a' = au_username a
             ∧ au_password_hash a' = au_password_hash a
             ∧ (au_id a ≠ target → a' = a)
             ∧ (au_id a = target →
                  (au_is_active a = 1 → au_is_active a' = 0)
                  ∧ (au_is_active a ≠ 1 → au_is_active a' = 1))).
Proof.
  intros r. subst r.
  destruct (toggle_user_cases target w) as [(Hal & _ & _ & Hr & Hdb) | (Hn & Hdb & Hr)].
  - split; [done|]. split; [done|]. intros _. rewrite Hdb.
    cbn [set_admin_users admin_users admin_user_roles admin_roles admin_permissions
         admin_panel_permissions admin_kv_permissions kvstore support_cases
         vehicles].
    split_and!; try done; [by rewrite length_fmap|].
    intros i a Ha. rewrite list_lookup_fmap, Ha. simpl.
    case_bool_decide as Hid.
    + eexists. split; [reflexivity|]. simpl.
      split; [done|]. split; [done|]. split; [done|].
      split; [intros Hn; by destruct Hn|]. intros _. split.
      * intros H1. by rewrite (bool_decide_eq_true_2 _ H1).
      * intros H1. by rewrite (bool_decide_eq_false_2 _ H1).
    + exists a. split; [done|]. split; [done|]. split; [done|].
      split; [done|]. split; [done|]. intros H1. by destruct Hid.
  - split; [done|]. split; [done|]. done.
Qed.

Section DeactivationFacts.
Import AuthRoutes.
Variable verify_password : string → string → bool.

Lemma first_select_where_fmap {A : Type} (f : A → A) (cond : A → bool) (l : list A) :
  (∀ x, cond (f x) = cond x) →
  first (select_where (f <$> l) cond) = f <$> first (select_where l cond).
Proof.
  intros Hc. unfold first, select_where. induction l as [|x l IH]; simpl; [done|].
  rewrite Hc. destruct (cond x); simpl; [done | exact IH].
Qed.

(** X19: deactivating an account locks it out of the login but not out of a
    running session.  After [toggle_user] has switched an active account off,
    every login attempt under its username gets the generic failure page,
    whatever the password; the gate of the admin panel, which never looks at
    the active flag, answers a session as before; a second toggle switches the
    account on again and the right password logs in. *)
Theorem deactivated_account_cannot_login (target : Z) (w : World)
    (username : string) (a : AdminUser) :
  panel_allowed w "user_toggle" →
  account w username a →
  au_id a = target →
  au_is_active a = 1 →
  let w1 := (AdminRoutes.toggle_user target w).2 in
  let w2 := (AdminRoutes.toggle_user target w1).2 in
  (∀ password, login verify_password username password w1 = (Ok login_failed, w1))
  ∧ (require_admin w1).1 = (require_admin w).1
  ∧ (∀ password, verify_password password (au_password_hash a) = true →
       (login verify_password username password w2).1
       = Ok (RedirectResponse "/tables" 303)).
Proof.
  intros Hal Hacc Hid Hact w1 w2.
  apply login_row_account in Hacc.
  set (flip := λ u, if bool_decide (au_id u = target)
                    then {| au_id := au_id u; au_username := au_username u;
                            au_password_hash := au_password_hash u;
                            au_is_active := if bool_decide (au_is_active u = 1)
                                            then 0 else 1 |}
                    else u).
  assert (∀ x, bool_decide (au_username (flip x) = username)
               = bool_decide (au_username x = username)) as Hflip.
  { intros x. unfold flip. by destruct (bool_decide (au_id x = target)). }
  destruct (toggle_user_cases target w)
    as [(_ & Hp1 & Hu1 & _ & Hdb1) | (Hn & _)]; [|done].
  fold w1 in Hp1, Hu1, Hdb1. fold flip in Hdb1.
  assert (panel_allowed w1 "user_toggle") as Hal1.
  { destruct Hal as [_ (uid & [Hs Hne] & Hrole)]. split; [done|].
    exists uid. split; [split; [congruence | done]|].
    unfold holds_role, panel_permission_row in *. by rewrite Hdb1. }
  destruct (toggle_user_cases target w1)
    as [(_ & _ & _ & _ & Hdb2) | (Hn & _)]; [|done].
  fold w2 in Hdb2. fold flip in Hdb2.
  split; [|split].
  - intros password. rewrite login_run, Hdb1.
    cbn [admin_users set_admin_users].
    rewrite (first_select_where_fmap flip _ _ Hflip), Hacc. simpl.
    unfold flip. rewrite (bool_decide_eq_true_2 _ Hid), (bool_decide_eq_true_2 _ Hact).
    reflexivity.
  - apply gate_stable; [done | by rewrite Hdb1..].
  - intros password Hpw. rewrite login_run, Hdb2, Hdb1.
    cbn [admin_users set_admin_users].
    rewrite !(first_select_where_fmap flip _ _ Hflip), Hacc. simpl.
    unfold flip. rewrite (bool_decide_eq_true_2 _ Hid), (bool_decide_eq_true_2 _ Hact).
    simpl. rewrite (bool_decide_eq_true_2 _ Hid). simpl. by rewrite Hpw.
Qed.

End DeactivationFacts.

Lemma deactivated_account_cannot_login_witness :
  AuthRoutes.login (λ _ _, true) "root" "secret"
    (AdminRoutes.toggle_user 1 WebSamples.admin_world).2
  = (Ok login_failed, (AdminRoutes.toggle_user 1 WebSamples.admin_world).2).
Proof.
  refine (proj1 (deactivated_account_cannot_login (λ _ _, true) 1
                   WebSamples.admin_world "root"
                   {| au_id := 1; au_username := "root"; au_password_hash := "h1";
                      au_is_active := 1 |} _ _ _ _) "secret").
  - split.
    + apply require_admin_passes. exists 1. reflexivity.
    + exists 1. split; [split; [reflexivity | discriminate]|]. left.
      exists {| ur_user_id := 1; ur_role_id := 1 |}, {| r_id := 1; r_name := "admin" |}.
      simpl. rewrite !list_elem_of_singleton. done.
  - exists [], []. split; [reflexivity|]. split; [reflexivity|].
    intros u' Hu'. by apply elem_of_nil in Hu'.
  - reflexivity.
  - reflexivity.
Defined.

Section CreateUserFacts.
Import AuthRoutes.
Variable hash_password : string → string.
Variable verify_password : string → string → bool.

Lemma elem_panel_action_user_create : "user_create" ∈ panel_actions.
Proof. apply elem_of_panel_actions. tauto. Qed.

Lemma create_user_run (new_id : Z) (username password : string) (w : World) :
  AdminRoutes.create_user hash_password new_id username password w =
    match (require_admin w).1 with
    | Raise e => (Raise e, w)
    | Ok uid =>
        let answer (d : Store) (message category : string) :=
          (Ok (RedirectResponse "/admin/users" 303),
           {| db := d;
              session := {| user_id := user_id (session w);
                            flash_store := flash_store (session w)
                                           ++ [(message, category)] |};
              now := now w |}) in
        if negb (is_admin (db w) uid || can_admin_panel (db w) uid "user_create")
        then answer (db w) "Keine Berechtigung: User anlegen." "danger"
        else if bool_decide (Py.len (Py.strip username) < 3)
        then answer (db w) "Username zu kurz (min. 3)." "danger"
        else if bool_decide (Py.len password < 8)
        then answer (db w) "Passwort zu kurz (min. 8)." "danger"
        else if Py.truthy (first (select_where (admin_users (db w))
                  (λ u, bool_decide (au_username u = Py.strip username))))
        then answer (db w) "Username existiert bereits." "danger"
        else answer
               (set_admin_users
                  (admin_users (db w) ++
                    [ {| au_id := new_id; au_username := Py.strip username;
                         au_password_hash := hash_password password;
                         au_is_active := 1 |} ]) (db w))
               "User erfolgreich angelegt." "success"
    end.
Proof.
  unfold AdminRoutes.create_user. rewrite panel_gate_bind.
  destruct (require_admin w).1 as [uid|]; [|done]. run_m.
  destruct (negb _); [done|].
  destruct (bool_decide (Py.len (Py.strip username) < 3)); [done|].
  destruct (bool_decide (Py.len password < 8)); [done|].
  by destruct (Py.truthy _).
Qed.

Lemma create_user_cases (new_id : Z) (username password : string) (w : World) :
  let r := AdminRoutes.create_user hash_password new_id username password w in
  (panel_allowed w "user_create" ∧ acceptable_account (db w) username password
   ∧ user_id (session r.2) = user_id (session w)
   ∧ db r.2 = set_admin_users
                (admin_users (db w) ++
                  [ {| au_id := new_id; au_username := Py.strip username;
                       au_password_hash := hash_password password;
                       au_is_active := 1 |} ]) (db w))
  ∨ (¬ (panel_allowed w "user_create" ∧ acceptable_account (db w) username password)
     ∧ db r.2 = db w).
Proof.
  intros r. subst r.
  pose proof (panel_allowed_iff w "user_create" elem_panel_action_user_create) as Hiff.
  rewrite create_user_run.
  destruct (require_admin w).1 as [uid|e] eqn:Hgate; cbv zeta.
  2:{ right. split; [|done]. rewrite Hiff. by intros [(u & ? & _) _]. }
  destruct (is_admin (db w) uid || can_admin_panel (db w) uid "user_create") eqn:Hb;
    cbn [negb].
  2:{ right. split; [|done]. rewrite Hiff. intros [(u & [= <-] & Hb') _]. congruence. }
  unfold acceptable_account.
  case_bool_decide as Hlen1; [right; split; [|done]; intros [_ (? & _)]; lia|].
  case_bool_decide as Hlen2; [right; split; [|done]; intros [_ (_ & ? & _)]; lia|].
  destruct (first (select_where (admin_users (db w))
              (λ u, bool_decide (au_username u = Py.strip username)))) as [a|] eqn:Hrow;
    cbn [Py.truthy].
  - right. split; [|done]. intros [_ (_ & _ & Hfresh)].
    apply first_select_where_Some in Hrow as (l1 & l2 & Hl & Ha & _).
    apply bool_decide_eq_true in Ha. apply (Hfresh a); [|done].
    rewrite Hl. apply elem_of_app. right. by left.
  - left. split; [apply Hiff; eauto|]. split; [|done].
    split; [lia|]. split; [lia|].
    rewrite first_select_where_None in Hrow. intros a Ha.
    specialize (Hrow a Ha). by apply bool_decide_eq_false in Hrow.
Qed.

(** X20: [create_user] adds an account only for a request that may perform
    user_create and only when the account is acceptable (trimmed username of
    at least three characters, password of at least eight, username not yet
    taken); it then appends one active account with the trimmed username and
    the hash of the password, and in every other case leaves the database as
    it is.  Usernames that are pairwise distinct stay pairwise distinct. *)
Theorem create_user_effect (new_id : Z) (username password : string) (w : World) :
  let r := AdminRoutes.create_user hash_password new_id username password w in
  (panel_allowed w "user_create" ∧ acceptable_account (db w) username password →
     ∃ a, admin_users (db r.2) = admin_users (db w) ++ [a]
          ∧ au_id a = new_id ∧ au_username a = Py.strip username
          ∧ au_password_hash a = hash_password password ∧ au_is_active a = 1)
  ∧ (¬ (panel_allowed w "user_create" ∧ acceptable_account (db w) username password) →
       db r.2 = db w)
  ∧ (NoDup (au_username <$> admin_users (db w)) →
       NoDup (au_username <$> admin_users (db r.2))).
Proof.
  intros r. subst r.
  destruct (create_user_cases new_id username password w)
    as [(Hal & Hacc & _ & Hdb) | (Hn & Hdb)]; rewrite Hdb.
  - split; [|split; [intros Hn; by destruct Hn|]].
    + intros _. eexists. split; [reflexivity|]. done.
    + intros Hnd. cbn [admin_users set_admin_users]. rewrite fmap_app.
      apply NoDup_app. split; [done|]. split; [|apply NoDup_singleton].
      intros name Hin Hnew. simpl in Hnew. apply list_elem_of_singleton in Hnew.
      apply list_elem_of_fmap in Hin as (a & -> & Ha).
      destruct Hacc as (_ & _ & Hfresh). by apply (Hfresh a).
  - split; [done|]. split; [done|]. done.
Qed.

(** X21: an account that [create_user] has just added can log in: provided the
    password check accepts every password against its own hash, a login with
    the trimmed username and the submitted password passes and sets the
    session user id to the id of the new account. *)
Theorem created_account_can_login (new_id : Z) (username password : string)
    (w : World) :
  (∀ p, verify_password p (hash_password p) = true) →
  panel_allowed w "user_create" →
  acceptable_account (db w) username password →
  let w1 := (AdminRoutes.create_user hash_password new_id username password w).2 in
  login verify_password (Py.strip username) password w1
  = (Ok (RedirectResponse "/tables" 303),
     set_session {| user_id := Some new_id;
                    flash_store := flash_store (session w1) |} w1).
Proof.
  intros Hverify Hal Hacc w1.
  destruct (create_user_cases new_id username password w)
    as [(_ & _ & _ & Hdb) | (Hn & _)]; [|by destruct Hn].
  fold w1 in Hdb. rewrite login_run.
  assert (first (select_where (admin_users (db w1))
            (λ u, bool_decide (au_username u = Py.strip username)))
          = Some {| au_id := new_id; au_username := Py.strip username;
                    au_password_hash := hash_password password;
                    au_is_active := 1 |}) as ->.
  { apply first_select_where_Some. exists (admin_users (db w)), [].
    rewrite Hdb. split; [reflexivity|]. split; [by apply bool_decide_eq_true|].
    intros a Ha. apply bool_decide_eq_false. destruct Hacc as (_ & _ & Hfresh).
    by apply Hfresh. }
  simpl. by rewrite Hverify.
Qed.

End CreateUserFacts.

Lemma created_account_can_login_witness :
  let hash := λ p : string, "hash:" +:+ p in
  let verify := λ p h : string, bool_decide (h = "hash:" +:+ p) in
  let w1 := (AdminRoutes.create_user hash 7 " alice " "correct horse"
               WebSamples.admin_world).2 in
  AuthRoutes.login verify (Py.strip " alice ") "correct horse" w1
  = (Ok (RedirectResponse "/tables" 303),
     set_session {| user_id := Some 7;
                    flash_store := flash_store (session w1) |} w1).
Proof.
  refine (created_account_can_login (λ p : string, "hash:" +:+ p)
            (λ p h : string, bool_decide (h = "hash:" +:+ p)) 7 " alice "
            "correct horse" WebSamples.admin_world _ _ _).
  - intros p. by apply bool_decide_eq_true.
  - split.
    + apply require_admin_passes. exists 1. reflexivity.
    + exists 1. split; [split; [reflexivity | discriminate]|]. left.
      exists {| ur_user_id := 1; ur_role_id := 1 |}, {| r_id := 1; r_name := "admin" |}.
      simpl. rewrite !list_elem_of_singleton. done.
  - split; [vm_compute; discriminate|]. split; [vm_compute; discriminate|].
    intros a Ha. simpl in Ha. apply list_elem_of_singleton in Ha. subst a.
    vm_compute. discriminate.
Defined.

Lemma elem_panel_action_user_role_remove : "user_role_remove" ∈ panel_actions.
Proof. apply elem_of_panel_actions. tauto. Qed.

Lemma remove_role_run (target role_id : Z) (w : World) :
  AdminRoutes.remove_role target role_id w =
    match (require_admin w).1 with
    | Raise e => (Raise e, w)
    | Ok uid =>
        if is_admin (db w) uid || can_admin_panel (db w) uid "user_role_remove"
        then
          (Ok (RedirectResponse "/admin/users" 303),
           {| db := set_admin_user_roles
                      (List.filter
                         (λ ur, negb (bool_decide (ur_user_id ur = target)
                                      && bool_decide (ur_role_id ur = role_id)))
                         (admin_user_roles (db w))) (db w);
              session := {| user_id := user_id (session w);
                            flash_store := flash_store (session w)
                                           ++ [("Rolle entfernt.", "warning")] |};
              now := now w |})
        else
          (Ok (RedirectResponse "/admin/users" 303),
           {| db := db w;
              session := {| user_id := user_id (session w);
                            flash_store := flash_store (session w)
                              ++ [("Keine Berechtigung: Rolle entfernen.", "danger")] |};
              now := now w |})
    end.
Proof.
  unfold AdminRoutes.remove_role. rewrite panel_gate_bind.
  destruct (require_admin w).1 as [uid|]; [|done]. run_m.
  by destruct (is_admin (db w) uid || can_admin_panel (db w) uid "user_role_remove").
Qed.

Lemma remove_role_cases (target role_id : Z) (w : World) :
  let r := AdminRoutes.remove_role target role_id w in
  (panel_allowed w "user_role_remove"
   ∧ db r.2 = set_admin_user_roles
                (List.filter
                   (λ ur, negb (bool_decide (ur_user_id ur = target)
                                && bool_decide (ur_role_id ur = role_id)))
                   (admin_user_roles (db w))) (db w))
  ∨ (¬ panel_allowed w "user_role_remove" ∧ db r.2 = db w).
Proof.
  intros r. subst r.
  pose proof (panel_allowed_iff w "user_role_remove"
                elem_panel_action_user_role_remove) as Hiff.
  rewrite remove_role_run.
  destruct (require_admin w).1 as [uid|e] eqn:Hgate.
  - destruct (is_admin (db w) uid || can_admin_panel (db w) uid "user_role_remove")
      eqn:Hb.
    + left. split; [apply Hiff; eauto | done].
    + right. split; [|done]. rewrite Hiff. intros (u & [= <-] & Hb'). congruence.
  - right. split; [|done]. rewrite Hiff. by intros (u & ? & _).
Qed.

Lemma elem_of_removed_roles (target role_id : Z) (l : list AdminUserRole)
    (ur : AdminUserRole) :
  ur ∈ List.filter (λ ur, negb (bool_decide (ur_user_id ur = target)
                                && bool_decide (ur_role_id ur = role_id))) l
  ↔ ur ∈ l ∧ ¬ (ur_user_id ur = target ∧ ur_role_id ur = role_id).
Proof.
  rewrite list_elem_of_In, filter_In, <- list_elem_of_In.
  rewrite negb_true_iff, andb_false_iff, !bool_decide_eq_false. 
  destruct (decide (ur_user_id ur = target)), (decide (ur_role_id ur = role_id)); tauto.
Qed.

(** X22: [remove_role] changes the database only for a request that may
    perform user_role_remove, and then deletes exactly the assignments of the
    given role to the given user.  It never grants anything: for every user, a
    check that passes afterwards passed before; and for every other user all
    four checks answer as before. *)
Theorem remove_role_effect (target role_id : Z) (w : World) :
  let r := AdminRoutes.remove_role target role_id w in
  (¬ panel_allowed w "user_role_remove" → db r.2 = db w)
  ∧ (panel_allowed w "user_role_remove" →
       ∀ ur, ur ∈ admin_user_roles (db r.2)
             ↔ ur ∈ admin_user_roles (db w)
               ∧ ¬ (ur_user_id ur = target ∧ ur_role_id ur = role_id))
  ∧ (∀ uid,
       (is_admin (db r.2) uid = true → is_admin (db w) uid = true)
       ∧ (∀ table_name action,
            can (db r.2) uid table_name action = true →
            can (db w) uid table_name action = true)
       ∧ (∀ action,
            can_admin_panel (db r.2) uid action = true →
            can_admin_panel (db w) uid action = true)
       ∧ (∀ side field_name,
            can_kv_field (db r.2) uid side field_name = true →
            can_kv_field (db w) uid side field_name = true))
  ∧ (∀ uid, uid ≠ target →
       is_admin (db r.2) uid = is_admin (db w) uid
       ∧ (∀ table_name action,
            can (db r.2) uid table_name action = can (db w) uid table_name action)
       ∧ (∀ action,
            can_admin_panel (db r.2) uid action = can_admin_panel (db w) uid action)
       ∧ (∀ side field_name,
            can_kv_field (db r.2) uid side field_name
            = can_kv_field (db w) uid side field_name)).
Proof.
  intros r. subst r.
  destruct (remove_role_cases target role_id w) as [[Hal Hdb] | [Hn Hdb]]; rewrite Hdb.
  2:{ split; [done|]. split; [done|]. split; [done|]. done. }
  set (d' := set_admin_user_roles _ (db w)).
  assert (grants_more d' (db w)) as Hless.
  { subst d'. repeat split; simpl; try done.
    intros ur Hur. by apply elem_of_removed_roles in Hur as [? _]. }
  split; [done|]. split; [|split].
  - intros _ ur. subst d'. cbn [admin_user_roles set_admin_user_roles].
    apply elem_of_removed_roles.
  - intros uid. by apply grants_more_checks.
  - intros uid Hne.
    assert (∀ ur, ur_user_id ur = uid →
              ur ∈ admin_user_roles d' ↔ ur ∈ admin_user_roles (db w)) as Hsame.
    { intros ur Hu. subst d'. cbn [admin_user_roles set_admin_user_roles].
      rewrite elem_of_removed_roles. split; [tauto|]. intros ?. split; [done|].
      intros [? _]. congruence. }
    assert (∀ name, holds_role d' uid name ↔ holds_role (db w) uid name) as Hrole.
    { intros name. unfold holds_role.
      split; intros (ur & ro & Hur & ? & Hu & ?); exists ur, ro;
        (split; [by apply (Hsame ur Hu)|done]). }
    split; [|split; [|split]].
    + apply Bool.eq_iff_eq_true. by rewrite !is_admin_iff.
    + intros table_name action. apply Bool.eq_iff_eq_true.
      rewrite !can_true_iff. unfold table_permission_row.
      split; intros [Ha (ur & p & Hur & ? & Hu & ?)]; (split; [done|]);
        exists ur, p; (split; [by apply (Hsame ur Hu)|done]).
    + intros action. apply Bool.eq_iff_eq_true.
      rewrite !can_admin_panel_true_iff. unfold panel_permission_row.
      split; intros [Ha (ur & p & Hur & ? & Hu & ?)]; (split; [done|]);
        exists ur, p; (split; [by apply (Hsame ur Hu)|done]).
    + intros side field_name. apply Bool.eq_iff_eq_true.
      rewrite !can_kv_field_true_iff, Hrole. unfold kv_permission_row.
      split; intros (? & ? & [? | (ur & p & Hur & ? & Hu & ?)]);
        (split; [done|]); (split; [done|]); try (by left);
        right; exists ur, p; (split; [by apply (Hsame ur Hu)|done]).
Qed.

(** ** Sessions: logout, login and the exception handler of the application *)

Section SessionFacts.
Import AuthRoutes.
Variable verify_password : string → string → bool.

(** X23: [logout] empties the session and touches nothing else.  Afterwards
    every gate answers 401, the root page sends the browser to the login
    page, and flash messages that were still waiting are gone with the
    session. *)
Theorem logout_ends_session (w : World) :
  let w' := (logout w).2 in
  (logout w).1 = Ok (RedirectResponse "/login" 303)
  ∧ db w' = db w ∧ now w' = now w
  ∧ user_id (session w') = None ∧ flash_store (session w') = []
  ∧ require_admin w' = (Raise (HTTPException 401), w')
  ∧ require_current_uid w' = (Raise (HTTPException 401), w')
  ∧ root w' = (Ok (RedirectResponse "/login" 303), w')
  ∧ ∀ uid, ¬ signed_in w' uid.
Proof.
  intros w'. subst w'. unfold logout. run_m. unfold set_session. cbn [fst snd].
  split; [done|]. split; [done|]. split; [done|]. split; [done|]. split; [done|].
  split; [by rewrite require_admin_run|].
  split; [by rewrite require_current_uid_run|].
  split; [done|].
  intros uid [Hu _]. discriminate.
Qed.

(** X24: a successful login replaces the session user, whoever was signed in
    before, and leaves the database and the waiting flash messages alone.
    The new session is recognised by the gates as the account's id, with one
    exception the code has: an account whose id is 0 logs in successfully and
    is treated as not signed in by every gate. *)
Theorem login_then_gate (w : World) (username password : string) (u : AdminUser) :
  checks_pass verify_password w username password u →
  let w' := (login verify_password username password w).2 in
  db w' = db w ∧ flash_store (session w') = flash_store (session w)
  ∧ user_id (session w') = Some (au_id u)
  ∧ (au_id u ≠ 0 →
       require_current_uid w' = (Ok (au_id u), w')
       ∧ root w' = (Ok (RedirectResponse "/tables" 303), w'))
  ∧ (au_id u = 0 →
       require_current_uid w' = (Raise (HTTPException 401), w')
       ∧ require_admin w' = (Raise (HTTPException 401), w')
       ∧ root w' = (Ok (RedirectResponse "/login" 303), w')).
Proof.
  intros (Hacc & Hact & Hpw) w'. subst w'.
  rewrite login_run. apply login_row_account in Hacc. rewrite Hacc, Hpw.
  rewrite (bool_decide_eq_false_2 _ Hact). cbn [orb negb snd].
  unfold set_session. cbn [db session user_id flash_store].
  split; [done|]. split; [done|]. split; [done|]. split.
  - intros Hne. rewrite require_current_uid_run. cbn [session user_id].
    rewrite decide_False by done. split; [done|].
    unfold root, falsy_uid. run_m. cbn [session user_id].
    by rewrite (bool_decide_eq_false_2 _ Hne).
  - intros H0. rewrite require_current_uid_run, require_admin_run.
    cbn [session user_id]. rewrite !decide_True by done. split; [done|].
    split; [done|]. unfold root, falsy_uid. run_m. cbn [session user_id].
    by rewrite (bool_decide_eq_true_2 _ H0).
Qed.

End SessionFacts.

Lemma login_then_gate_witness :
  let verify := λ p h : string, bool_decide (h = "h1") in
  user_id (session (AuthRoutes.login verify "root" "pw" WebSamples.anonymous_world).2)
  = Some 1.
Proof.
  refine (proj1 (proj2 (proj2
    (login_then_gate (λ p h : string, bool_decide (h = "h1"))
       WebSamples.anonymous_world "root" "pw"
       {| au_id := 1; au_username := "root"; au_password_hash := "h1";
          au_is_active := 1 |} _)))).
  split; [|split; [discriminate | reflexivity]].
  exists [], []. split; [reflexivity|]. split; [reflexivity|].
  intros u' Hu'. by apply elem_of_nil in Hu'.
Defined.

(** X25: under the application's exception handler a 403 never reaches the
    browser as an error: a request of a signed-in user that the admin gate
    refuses is answered, for every handler behind the gate, with a 303
    redirect to the referring page (to the root when the request names none)
    and one flash message of category danger; the database is untouched.  A
    401 of the gate goes to the default handler of the application, with the
    world as it was, and the answer of a handler that does not raise is
    passed through. *)
Theorem forbidden_becomes_redirect
    (default_exception_handler : Exn → M World Response)
    (referer : option string) (k : M World Response) (w : World) :
  let app := Main.app default_exception_handler referer in
  (∀ uid, signed_in w uid → ¬ passes_gate w →
     app (require_admin;; k) w
     = (Ok (RedirectResponse (default "/" referer) 303),
        {| db := db w;
           session := {| user_id := user_id (session w);
                         flash_store := flash_store (session w)
                           ++ [("⛔ Keine Berechtigung für diese Aktion.", "danger")] |};
           now := now w |}))
  ∧ ((∀ uid, ¬ signed_in w uid) →
       app (require_admin;; k) w
       = default_exception_handler (HTTPException 401) w)
  ∧ (∀ r w', (require_admin;; k) w = (Ok r, w') →
       app (require_admin;; k) w = (Ok r, w')).
Proof.
  intros app. subst app. unfold Main.app. split; [|split].
  - intros uid Hs Hn. rewrite gate_bind.
    assert ((require_admin w).1 = Raise (HTTPException 403)) as ->.
    { rewrite require_admin_run. destruct Hs as [Hu Hne].
      rewrite Hu, decide_False by done.
      destruct (is_admin (db w) uid || can_admin_panel (db w) uid "admin_access")
        eqn:Hb; [|done].
      exfalso. apply Hn. apply require_admin_passes. exists uid.
      rewrite require_admin_run, Hu, decide_False by done. by rewrite Hb. }
    unfold Main.custom_http_exception_handler.
    rewrite bool_decide_eq_true_2 by done. reflexivity.
  - intros Hno. rewrite gate_bind.
    assert ((require_admin w).1 = Raise (HTTPException 401)) as ->.
    2:{ unfold Main.custom_http_exception_handler.
        rewrite bool_decide_eq_false_2 by done. reflexivity. }
    rewrite require_admin_run. destruct (user_id (session w)) as [u|] eqn:Hu; [|done].
    case_decide; [done|]. exfalso. by apply (Hno u).
  - intros r w' ->. done.
Qed.


(** ** The table endpoints *)

Section TableRoutesFacts.
Import CrudDynamic TableRoutes.

Lemma require_login_cases (w : TableWorld) :
  (∃ uid, user_id (tw_session w) = Some uid ∧ uid ≠ 0 ∧ require_login w = Ok uid)
  ∨ ((∀ uid, ¬ (user_id (tw_session w) = Some uid ∧ uid ≠ 0))
     ∧ require_login w = Raise (HTTPException 401)).
Proof.
  unfold require_login, falsy_uid. destruct (user_id (tw_session w)) as [u|]; simpl.
  - case_bool_decide as Hu.
    + right. split; [|done]. intros uid [[= <-] Hne]. done.
    + left. eauto.
  - right. split; [|done]. by intros uid [? _].
Qed.

Lemma table_allowed_iff (w : TableWorld) (table_name action : string) (uid : Z) :
  require_login w = Ok uid →
  table_allowed w table_name action
  ↔ negb (can (tw_store w) uid table_name action)
    || rule (rules_of table_name) ("disable_" +:+ action) = false.
Proof.
  intros Hlogin. unfold table_allowed.
  destruct (require_login_cases w) as [(u & Hu & Hne & Hok) | [_ Hr]]; [|congruence].
  assert (u = uid) as -> by congruence.
  rewrite orb_false_iff, negb_false_iff. split.
  - intros (u' & Hu' & _ & ? & ?). assert (u' = uid) as -> by congruence. done.
  - intros [? ?]. exists uid. done.
Qed.

Lemma not_table_allowed_anonymous (w : TableWorld) (table_name action : string) :
  require_login w = Raise (HTTPException 401) → ¬ table_allowed w table_name action.
Proof.
  intros Hr (uid & Hu & Hne & _).
  destruct (require_login_cases w) as [(u & _ & _ & Hok) | [Hno _]]; [congruence|].
  by apply (Hno uid).
Qed.

Lemma create_row_log (t : Table) (form : gmap string string) (s : DbSession) :
  ∃ payload, create_row t form s
             = (Ok tt, {| data := run (Insert (t_name t) payload) (data s);
                          executed := executed s ++ [Insert (t_name t) payload] |}).
Proof. eexists. reflexivity. Qed.

Lemma update_row_log (t : Table) (pk_values form_data : gmap string string)
    (s : DbSession) :
  (∃ e, update_row t pk_values form_data s = (Raise e, s))
  ∨ (∃ s', update_row t pk_values form_data s = (Ok tt, s')
           ∧ executed s' ≠ executed s).
Proof.
  destruct (row_identity_filter t pk_values) as [conds|e] eqn:Hok.
  - destruct (sets_nothing_dec t pk_values form_data) as [Hset | Hset].
    + left. rewrite (update_row_sets_nothing _ _ _ _ _ Hok Hset). eauto.
    + right. rewrite (update_row_run _ _ _ _ _ Hok Hset). eexists. split; [done|].
      simpl. intros H. apply (f_equal length) in H. rewrite length_app in H.
      simpl in H. lia.
  - left. exists e. unfold update_row. run_m. by rewrite Hok.
Qed.

Lemma delete_row_log (t : Table) (pk_values : gmap string string) (s : DbSession) :
  (∃ e, delete_row t pk_values s = (Raise e, s))
  ∨ (∃ s', delete_row t pk_values s = (Ok tt, s') ∧ executed s' ≠ executed s).
Proof.
  destruct (row_identity_filter t pk_values) as [conds|e] eqn:Hok.
  - right. rewrite (delete_row_run _ _ _ _ Hok). eexists. split; [done|].
    simpl. intros H. apply (f_equal length) in H. rewrite length_app in H.
    simpl in H. lia.
  - left. exists e. unfold delete_row. run_m. by rewrite Hok.
Qed.


Lemma refused (action : string) (table_name : string) (w : TableWorld)
    (r : Outcome Response * TableWorld) :
  (∀ uid, require_login w = Ok uid →
     negb (can (tw_store w) uid table_name action)
     || rule (rules_of table_name) ("disable_" +:+ action) = true →
     r = (Raised (HTTPException 403), w)) →
  (require_login w = Raise (HTTPException 401) →
     r = (Raised (HTTPException 401), w)) →
  ¬ table_allowed w table_name action →
  r.2 = w
  ∧ ((∀ uid, ¬ (user_id (tw_session w) = Some uid ∧ uid ≠ 0)) →
       r.1 = Raised (HTTPException 401))
  ∧ (∀ uid, user_id (tw_session w) = Some uid → uid ≠ 0 →
       r.1 = Raised (HTTPException 403)).
Proof.
  intros H403 H401 Hn.
  destruct (require_login_cases w) as [(u & Hu & Hne & Hok) | [Hno Hr]].
  - assert (r = (Raised (HTTPException 403), w)) as ->.
    { apply (H403 u Hok). apply not_false_iff_true.
      by rewrite <- (table_allowed_iff w table_name action u Hok). }
    split; [done|]. split; [|done]. intros Hno. by destruct (Hno u).
  - rewrite (H401 Hr). split; [done|]. split; [done|].
    intros uid ? ?. by destruct (Hno uid).
Qed.

(** [can] reads two tables, and reads them off the rows of the database. *)
Lemma can_frame (d d' : gmap string (list (gmap string string))) :
  d' !! "admin_user_roles" = d !! "admin_user_roles" →
  d' !! "admin_permissions" = d !! "admin_permissions" →
  ∀ uid t a, can (store_of d') uid t a = can (store_of d) uid t a.
Proof.
  intros Hur Hp uid t a. unfold can, store_of, rows_of.
  cbn [admin_user_roles admin_permissions]. by rewrite Hur, Hp.
Qed.

Lemma guarded_intro (action : string)
    (endpoint : string → gmap string string → TableWorld
                → Outcome Response * TableWorld) :
  (∀ table_name form w,
     let r := endpoint table_name form w in
     tw_session r.2 = tw_session w
     ∧ tw_schema r.2 = tw_schema w
     ∧ (∀ n, n ≠ table_name → data (tw_db r.2) !! n = data (tw_db w) !! n)
     ∧ (¬ table_allowed w table_name action →
          r.2 = w
          ∧ ((∀ uid, ¬ (user_id (tw_session w) = Some uid ∧ uid ≠ 0)) →
               r.1 = Raised (HTTPException 401))
          ∧ (∀ uid, user_id (tw_session w) = Some uid → uid ≠ 0 →
               r.1 = Raised (HTTPException 403)))
     ∧ (table_allowed w table_name action →
          tw_schema w !! table_name = None →
          r = (NoSuchTableError table_name, w))) →
  guarded action endpoint.
Proof.
  intros H table_name form w r.
  destruct (H table_name form w) as (Hs & Hsch & Hframe & Hrefuse & Hnone).
  fold r in Hs, Hsch, Hframe, Hrefuse, Hnone.
  split; [done|]. split; [done|]. split; [done|]. split; [|done].
  intros Hn. rewrite !not_elem_of_cons in Hn. destruct Hn as (Hn1 & Hn2 & _).
  apply can_frame; apply Hframe; congruence.
Qed.

Lemma table_create_guarded : guarded "create" table_create.
Proof.
  apply guarded_intro. intros table_name form w r. subst r. unfold table_create.
  destruct (require_login w) as [uid|e] eqn:Hlogin.
  2:{ destruct (require_login_cases w) as [(? & _ & _ & ?) | [_ Hr]]; [congruence|].
      assert (e = HTTPException 401) as -> by congruence.
      split_and!; try done.
      - intros Hn. apply (refused "create" table_name w); try done. congruence.
      - intros Hal. by destruct (not_table_allowed_anonymous _ _ _ Hr Hal). }
  destruct (negb (can (tw_store w) uid table_name "create")
            || rule (rules_of table_name) "disable_create") eqn:Hb.
  { split_and!; try done.
    - intros Hn. apply (refused "create" table_name w); try done. congruence.
    - intros Hal. apply (table_allowed_iff _ _ _ _ Hlogin) in Hal.
      change ("disable_" +:+ "create") with "disable_create" in Hal. congruence. }
  assert (table_allowed w table_name "create") as Hal
    by (by apply (table_allowed_iff _ _ _ _ Hlogin)).
  unfold get_table.
  destruct (tw_schema w !! table_name) as [cols|] eqn:Hs;
    cbn [fmap option_fmap option_map].
  - destruct (create_row_log {| t_name := table_name; t_columns := cols |} form (tw_db w))
      as [payload ->]. cbn [fst snd tw_session tw_schema tw_db set_tw_db data run].
    split_and!; try done. intros n Hn. by rewrite lookup_insert_ne.
  - split_and!; done.
Qed.

Lemma update_row_frame (t : Table) (pk_values form_data : gmap string string)
    (s : DbSession) (n : string) :
  n ≠ t_name t →
  data (update_row t pk_values form_data s).2 !! n = data s !! n.
Proof.
  intros Hn. destruct (row_identity_filter t pk_values) as [conds|e] eqn:Hok.
  - destruct (sets_nothing_dec t pk_values form_data) as [Hset | Hset].
    + by rewrite (update_row_sets_nothing _ _ _ _ _ Hok Hset).
    + rewrite (update_row_run _ _ _ _ _ Hok Hset). simpl. by rewrite lookup_insert_ne.
  - unfold update_row. run_m. by rewrite Hok.
Qed.

Lemma delete_row_frame (t : Table) (pk_values : gmap string string)
    (s : DbSession) (n : string) :
  n ≠ t_name t →
  data (delete_row t pk_values s).2 !! n = data s !! n.
Proof.
  intros Hn. destruct (row_identity_filter t pk_values) as [conds|e] eqn:Hok.
  - rewrite (delete_row_run _ _ _ _ Hok). simpl. by rewrite lookup_insert_ne.
  - unfold delete_row. run_m. by rewrite Hok.
Qed.

Lemma table_update_guarded : guarded "update" table_update.
Proof.
  apply guarded_intro. intros table_name form w r. subst r. unfold table_update.
  destruct (require_login w) as [uid|e] eqn:Hlogin.
  2:{ destruct (require_login_cases w) as [(? & _ & _ & ?) | [_ Hr]]; [congruence|].
      assert (e = HTTPException 401) as -> by congruence.
      split_and!; try done.
      - intros Hn. apply (refused "update" table_name w); try done. congruence.
      - intros Hal. by destruct (not_table_allowed_anonymous _ _ _ Hr Hal). }
  destruct (negb (can (tw_store w) uid table_name "update")
            || rule (rules_of table_name) "disable_update") eqn:Hb.
  { split_and!; try done.
    - intros Hn. apply (refused "update" table_name w); try done. congruence.
    - intros Hal. apply (table_allowed_iff _ _ _ _ Hlogin) in Hal.
      change ("disable_" +:+ "update") with "disable_update" in Hal. congruence. }
  assert (table_allowed w table_name "update") as Hal
    by (by apply (table_allowed_iff _ _ _ _ Hlogin)).
  unfold get_table.
  destruct (tw_schema w !! table_name) as [cols|] eqn:Hs;
    cbn [fmap option_fmap option_map]; [|split_and!; done].
  destruct (pk_values_of _ form) as [pk_values|e]; [|split_and!; done].
  match goal with
  | |- context [update_row ?t ?pk ?fd ?s] =>
      pose proof (update_row_frame t pk fd s) as Hframe;
      destruct (update_row t pk fd s) as [[[]|e] s']
  end; cbn [fst snd tw_session tw_schema tw_db set_tw_db] in *;
    split_and!; try done; intros n Hn; by apply Hframe.
Qed.

Lemma table_delete_guarded : guarded "delete" table_delete.
Proof.
  apply guarded_intro. intros table_name form w r. subst r. unfold table_delete.
  destruct (require_login w) as [uid|e] eqn:Hlogin.
  2:{ destruct (require_login_cases w) as [(? & _ & _ & ?) | [_ Hr]]; [congruence|].
      assert (e = HTTPException 401) as -> by congruence.
      split_and!; try done.
      - intros Hn. apply (refused "delete" table_name w); try done. congruence.
      - intros Hal. by destruct (not_table_allowed_anonymous _ _ _ Hr Hal). }
  destruct (negb (can (tw_store w) uid table_name "delete")
            || rule (rules_of table_name) "disable_delete") eqn:Hb.
  { split_and!; try done.
    - intros Hn. apply (refused "delete" table_name w); try done. congruence.
    - intros Hal. apply (table_allowed_iff _ _ _ _ Hlogin) in Hal.
      change ("disable_" +:+ "delete") with "disable_delete" in Hal. congruence. }
  assert (table_allowed w table_name "delete") as Hal
    by (by apply (table_allowed_iff _ _ _ _ Hlogin)).
  unfold get_table.
  destruct (tw_schema w !! table_name) as [cols|] eqn:Hs;
    cbn [fmap option_fmap option_map]; [|split_and!; done].
  destruct (pk_values_of _ form) as [pk_values|e]; [|split_and!; done].
  match goal with
  | |- context [delete_row ?t ?pk ?s] =>
      pose proof (delete_row_frame t pk s) as Hframe;
      destruct (delete_row t pk s) as [[[]|e] s']
  end; cbn [fst snd tw_session tw_schema tw_db set_tw_db] in *;
    split_and!; try done; intros n Hn; by apply Hframe.
Qed.

(** X26: the three writing table endpoints are guarded alike.  Each of them
    leaves session and schema alone and can change nothing but the rows of
    the table it names, so the table permissions of every user stay as they
    were unless that table is admin_user_roles or admin_permissions, the
    tables [can] reads; a request that is not signed in gets 401 and a
    signed-in request without the table permission, or for an action the
    configuration disables, gets 403, in both cases before the table is
    looked up and without any change; an allowed request for a table that
    does not exist ends in NoSuchTableError. *)
Theorem table_endpoints_guarded :
  guarded "create" table_create
  ∧ guarded "update" table_update
  ∧ guarded "delete" table_delete.
Proof.
  split; [apply table_create_guarded|].
  split; [apply table_update_guarded | apply table_delete_guarded].
Qed.

(** X27: the tables plog and player_alias are read-only through the
    endpoints: for every user, whatever table permissions the user has, and
    for every form, creating, updating and deleting leave everything as it
    is. *)
Theorem configured_tables_read_only (table_name : string)
    (form : gmap string string) (w : TableWorld) :
  table_name ∈ ["plog"; "player_alias"] →
  (table_create table_name form w).2 = w
  ∧ (table_update table_name form w).2 = w
  ∧ (table_delete table_name form w).2 = w
  ∧ ∀ endpoint, endpoint ∈ [table_create; table_update; table_delete] →
      (endpoint table_name form w).1 = Raised (HTTPException 401)
      ∨ (endpoint table_name form w).1 = Raised (HTTPException 403).
Proof.
  intros Ht.
  assert (∀ action, action ∈ ["create"; "update"; "delete"] →
            ¬ table_allowed w table_name action) as Hno.
  { intros action Ha (uid & _ & _ & _ & Hrule).
    rewrite !elem_of_cons, elem_of_nil in Ht.
    rewrite !elem_of_cons, elem_of_nil in Ha.
    destruct Ht as [-> | [-> | []]]; destruct Ha as [-> | [-> | [-> | []]]];
      vm_compute in Hrule; discriminate. }
  assert (∀ action endpoint, guarded action endpoint →
            action ∈ ["create"; "update"; "delete"] →
            (endpoint table_name form w).2 = w
            ∧ ((endpoint table_name form w).1 = Raised (HTTPException 401)
               ∨ (endpoint table_name form w).1 = Raised (HTTPException 403)))
    as Hall.
  { intros action endpoint Hg Ha.
    destruct (Hg table_name form w) as (_ & _ & _ & _ & Hrefuse & _).
    destruct (Hrefuse (Hno action Ha)) as (Hw & H401 & H403). split; [done|].
    destruct (require_login_cases w) as [(u & Hu & Hne & _) | [Hanon _]].
    - right. by apply (H403 u).
    - left. by apply H401. }
  destruct (Hall "create" table_create table_create_guarded) as [Hc Hc'];
    [rewrite !elem_of_cons; tauto|].
  destruct (Hall "update" table_update table_update_guarded) as [Hu Hu'];
    [rewrite !elem_of_cons; tauto|].
  destruct (Hall "delete" table_delete table_delete_guarded) as [Hd Hd'];
    [rewrite !elem_of_cons; tauto|].
  split; [done|]. split; [done|]. split; [done|].
  intros endpoint He. rewrite !elem_of_cons, elem_of_nil in He.
  destruct He as [-> | [-> | [-> | []]]]; done.
Qed.

Lemma configured_tables_read_only_witness :
  (table_delete "plog" ∅ table_world).2 = table_world.
Proof.
  refine (proj1 (proj2 (proj2 (configured_tables_read_only "plog" ∅ table_world _)))).
  rewrite !elem_of_cons. tauto.
Defined.

Lemma pk_values_of_Ok (pks : list string) (form m : gmap string string) :
  pk_values_of pks form = Ok m →
  ∀ k, m !! k = if decide (k ∈ pks) then form !! ("pk_" +:+ k) else None.
Proof.
  revert m. induction pks as [|pk pks IH]; intros m; cbn [pk_values_of].
  - intros [= <-] k. rewrite lookup_empty.
    destruct (decide (k ∈ [])) as [Hk|]; [by apply elem_of_nil in Hk | done].
  - destruct (form !! ("pk_" +:+ pk)) as [v|] eqn:Hv; [|discriminate].
    destruct (pk_values_of pks form) as [m'|e]; [|discriminate].
    intros [= <-] k. rewrite lookup_insert. specialize (IH m' eq_refl k).
    destruct (decide (pk = k)) as [<- | Hpk].
    + rewrite decide_True by (by left). done.
    + rewrite IH. destruct (decide (k ∈ pks)) as [Hin | Hin].
      * rewrite decide_True by (by right). done.
      * rewrite decide_False; [done|]. intros Hk.
        apply elem_of_cons in Hk as [-> | ?]; done.
Qed.

Lemma pk_values_of_Raise (pks : list string) (form : gmap string string) (e : Exn) :
  pk_values_of pks form = Raise e →
  ∃ pk, pk ∈ pks ∧ form !! ("pk_" +:+ pk) = None ∧ e = KeyError ("pk_" +:+ pk).
Proof.
  induction pks as [|pk pks IH]; cbn [pk_values_of]; [discriminate|].
  destruct (form !! ("pk_" +:+ pk)) as [v|] eqn:Hv.
  - destruct (pk_values_of pks form) as [m'|e']; [discriminate|].
    intros [= <-]. destruct (IH eq_refl) as (pk' & ? & ? & ?).
    exists pk'. split; [by right | done].
  - intros [= <-]. exists pk. split; [by left | done].
Qed.

Lemma update_row_raises (t : Table) (pk_values form_data : gmap string string)
    (s : DbSession) (e : Exn) :
  row_identity_filter t pk_values = Raise e →
  update_row t pk_values form_data s = (Raise e, s).
Proof. intros Hr. unfold update_row. run_m. by rewrite Hr. Qed.

Lemma pk_values_of_present (pks : list string) (form m : gmap string string) :
  pk_values_of pks form = Ok m →
  ∀ pk, pk ∈ pks → is_Some (form !! ("pk_" +:+ pk)).
Proof.
  revert m. induction pks as [|p pks IH]; intros m; cbn [pk_values_of].
  - intros _ pk Hin. by apply elem_of_nil in Hin.
  - destruct (form !! ("pk_" +:+ p)) as [v|] eqn:Hv; [|discriminate].
    destruct (pk_values_of pks form) as [m'|e]; [|discriminate].
    intros _ pk Hin. apply elem_of_cons in Hin as [-> | Hin]; [eauto|].
    by apply (IH m').
Qed.

Lemma pk_values_of_total (pks : list string) (form : gmap string string) :
  (∀ pk, pk ∈ pks → is_Some (form !! ("pk_" +:+ pk))) →
  ∃ m, pk_values_of pks form = Ok m.
Proof.
  intros Hall. destruct (pk_values_of pks form) as [m|e] eqn:Hm; [eauto|].
  apply pk_values_of_Raise in Hm as (pk & Hin & Hnone & _).
  destruct (Hall pk Hin) as [v Hv]. congruence.
Qed.

Lemma table_update_allowed (table_name : string) (cols : list Column)
    (form : gmap string string) (w : TableWorld) :
  table_allowed w table_name "update" →
  tw_schema w !! table_name = Some cols →
  table_update table_name form w =
    let t := {| t_name := table_name; t_columns := cols |} in
    match pk_values_of (c_name <$> primary_key_columns t) form with
    | Raise e => (Raised e, w)
    | Ok pk_values =>
        match update_row t pk_values
                (filter (λ kv : string * string, Py.startswith kv.1 "pk_" = false) form)
                (tw_db w) with
        | (Raise e, s') => (Raised e, set_tw_db s' w)
        | (Ok _, s') =>
            (Returned (RedirectResponse ("/table/" +:+ table_name) 303),
             set_tw_db s' w)
        end
    end.
Proof.
  intros Hal Hs. unfold table_update.
  destruct (require_login w) as [uid|e] eqn:Hlogin.
  2:{ destruct (require_login_cases w) as [(? & _ & _ & ?) | [_ Hr]]; [congruence|].
      by destruct (not_table_allowed_anonymous _ _ _ Hr Hal). }
  apply (table_allowed_iff _ _ _ _ Hlogin) in Hal.
  change ("disable_" +:+ "update") with "disable_update" in Hal. rewrite Hal.
  unfold get_table. rewrite Hs. reflexivity.
Qed.

(** X28: how the update endpoint identifies the row.  For an allowed request
    on an existing table: a table without primary key is refused with
    ValueError and a form that lacks the field pk_<column> of a primary-key
    column with KeyError, both without any change.  Otherwise the fields that
    count are those that are columns of the table, are not primary-key
    columns and do not start with pk_: when the form holds none of them the
    UPDATE has nothing to set, [db.execute] raises and nothing is changed;
    when it holds one, one UPDATE is executed whose where clause equates
    every primary-key column, in column order, with its pk_ field, and whose
    payload holds exactly those fields, and the browser is sent back to the
    table.  So the endpoint cannot rewrite a primary key, nor a column whose
    name starts with pk_. *)
Theorem table_update_keys (table_name : string) (cols : list Column)
    (form : gmap string string) (w : TableWorld) :
  table_allowed w table_name "update" →
  tw_schema w !! table_name = Some cols →
  let pks := c_name <$> primary_key_columns
                           {| t_name := table_name; t_columns := cols |} in
  let editable (k : string) :=
    k ∈ (c_name <$> cols) ∧ (k ∉ pks) ∧ Py.startswith k "pk_" = false in
  let r := table_update table_name form w in
  (pks = [] → ∃ msg, r = (Raised (ValueError msg), w))
  ∧ (∀ pk, pk ∈ pks → form !! ("pk_" +:+ pk) = None →
       ∃ key, r = (Raised (KeyError key), w))
  ∧ (pks ≠ [] → (∀ pk, pk ∈ pks → is_Some (form !! ("pk_" +:+ pk))) →
       ((∀ k, editable k → form !! k = None) →
          ∃ statement, r = (Raised (DBAPIError statement), w))
       ∧ ((∃ k, editable k ∧ is_Some (form !! k)) →
            r.1 = Returned (RedirectResponse ("/table/" +:+ table_name) 303)
            ∧ ∃ conds payload,
                executed (tw_db r.2)
                = executed (tw_db w) ++ [Update table_name conds payload]
                ∧ Forall2 (λ pk cv, cv.1 = pk ∧ form !! ("pk_" +:+ pk) = Some cv.2)
                          pks conds
                ∧ ∀ k, payload !! k
                       = if decide (editable k) then form !! k else None)).
Proof.
  intros Hal Hs pks editable r. subst r.
  rewrite (table_update_allowed _ _ _ _ Hal Hs).
  cbv zeta. fold pks.
  set (t := {| t_name := table_name; t_columns := cols |}) in *.
  split; [|split].
  - intros Hnil. rewrite Hnil. cbn [pk_values_of].
    assert (key_incomplete t ∅) as Hkey.
    { left. intros c Hc. destruct (c_primary_key c) eqn:Hpk; [|done].
      assert (c_name c ∈ pks) as Hin.
      { apply list_elem_of_fmap. exists c. split; [done|].
        by apply elem_of_primary_key_columns. }
      rewrite Hnil in Hin. by apply elem_of_nil in Hin. }
    destruct (row_identity_filter_raises t ∅ Hkey) as [msg Hmsg].
    exists msg. rewrite (update_row_raises _ _ _ _ _ Hmsg).
    by destruct w.
  - intros pk Hin Hnone.
    destruct (pk_values_of pks form) as [m|e] eqn:Hm.
    + destruct (pk_values_of_present _ _ _ Hm pk Hin) as [v Hv]. congruence.
    + apply pk_values_of_Raise in Hm as (pk' & _ & _ & ->). eauto.
  - intros Hne Hall. destruct (pk_values_of_total pks form Hall) as [m Hm].
    rewrite Hm. pose proof (pk_values_of_Ok _ _ _ Hm) as Hlk.
    assert (∀ k, m !! k = None ↔ k ∉ pks) as Hmk.
    { intros k. rewrite Hlk. case_decide as Hin; [|tauto].
      destruct (Hall k Hin) as [v Hv]. rewrite Hv. split; [discriminate | tauto]. }
    assert (¬ key_incomplete t m) as Hkey.
    { intros [Hnone | (c & Hc & Hpk & Hmiss)].
      - apply Hne. subst pks. destruct (primary_key_columns t) as [|c l] eqn:Hl; [done|].
        assert (c ∈ primary_key_columns t) as Hin by (rewrite Hl; by left).
        apply elem_of_primary_key_columns in Hin as [Hin Hpk].
        rewrite (Hnone c Hin) in Hpk. discriminate.
      - apply Hmk in Hmiss. apply Hmiss.
        apply list_elem_of_fmap. exists c. split; [done|].
        by apply elem_of_primary_key_columns. }
    destruct (key_complete_identifies t m Hkey) as [conds Hok].
    set (fd := filter (λ kv : string * string, Py.startswith kv.1 "pk_" = false) form).
    assert (∀ k, fd !! k = if decide (Py.startswith k "pk_" = false)
                           then form !! k else None) as Hfd.
    { intros k. subst fd. case_decide as Hp.
      - apply option_eq. intros v. rewrite map_lookup_filter_Some. simpl. tauto.
      - apply map_lookup_filter_None. right. intros v _. exact Hp. }
    assert (sets_nothing t m fd ↔ ∀ k, editable k → form !! k = None) as Hsn.
    { unfold sets_nothing, editable. cbn [t_columns t]. split.
      - intros H k (Hc & Hpk & Hp). specialize (H k Hc (proj2 (Hmk k) Hpk)).
        by rewrite Hfd, decide_True in H.
      - intros H k Hc Hk. rewrite Hfd. case_decide as Hp; [|done].
        apply H. split; [done|]. split; [by apply Hmk | done]. }
    split.
    + intros Hnone. apply Hsn in Hnone.
      rewrite (update_row_sets_nothing _ _ _ _ _ Hok Hnone).
      eexists. by destruct w.
    + intros (k0 & Hed & [v0 Hv0]).
      assert (¬ sets_nothing t m fd) as Hset.
      { rewrite Hsn. intros H. rewrite (H k0 Hed) in Hv0. discriminate. }
      rewrite (update_row_run _ _ _ _ _ Hok Hset).
      cbn [fst snd tw_db set_tw_db executed].
      split; [done|]. eexists conds, _. split; [reflexivity|]. split.
      * apply row_identity_filter_Ok in Hok as [_ Hid]. unfold identifies in Hid.
        subst pks. apply Forall2_fmap_l.
        eapply Forall2_impl; [exact Hid|]. intros c cv [Hc Hv]. split; [done|].
        rewrite Hlk in Hv. by case_decide.
      * intros k. rewrite update_payload_lookup, Hfd. unfold editable.
        cbn [t_columns t].
        destruct (decide (k ∈ (c_name <$> cols))) as [Hc | Hc];
          destruct (decide (k ∈ pks)) as [Hpk | Hpk];
          destruct (decide (Py.startswith k "pk_" = false)) as [Hp | Hp].
        all: try (rewrite (decide_True (P := _ ∧ m !! k = None))
                    by (split; [done | by apply Hmk])).
        all: try (rewrite (decide_False (P := _ ∧ m !! k = None))
                    by (intros [? Hx]; apply Hmk in Hx; tauto)).
        all: try (rewrite (decide_True (P := _ ∧ _ ∧ _)) by done).
        all: try (rewrite (decide_False (P := _ ∧ _ ∧ _)) by tauto).
        all: done.
Qed.

Lemma table_update_keys_witness :
  (table_update "kvstore"
     (list_to_map [("pk_pid", "76561"); ("pk_k", "cash"); ("pk_side", "0");
                   ("v", "250"); ("pid", "1")])
     table_world).1
  = Returned (RedirectResponse "/table/kvstore" 303).
Proof.
  refine (proj1 (proj2 (proj2 (proj2 (table_update_keys "kvstore"
            (t_columns CrudSamples.kvstore_table) _ table_world _ _)) _ _) _)).
  - exists 2. split_and!; [reflexivity | lia | reflexivity | reflexivity].
  - reflexivity.
  - discriminate.
  - intros pk Hin. cbn in Hin. rewrite !elem_of_cons, elem_of_nil in Hin.
    destruct Hin as [-> | [-> | [-> | []]]]; eexists; reflexivity.
  - exists "v". split; [|eexists; reflexivity].
    cbn. rewrite !not_elem_of_cons, !elem_of_cons. split; [tauto|].
    split; [|reflexivity]. split_and!; try discriminate. apply not_elem_of_nil.
Defined.

Lemma perms_lookup (a b c d : bool) (action : string) :
  (list_to_map [("view", a); ("create", b); ("update", c); ("delete", d)]
     : gmap string bool) !! action = Some true →
  action ∈ ["create"; "update"; "delete"] →
  (action = "create" ∧ b = true) ∨ (action = "update" ∧ c = true)
  ∨ (action = "delete" ∧ d = true).
Proof.
  intros Hl Ha. rewrite !elem_of_cons, elem_of_nil in Ha.
  destruct Ha as [-> | [-> | [-> | []]]]; vm_compute in Hl;
    injection Hl as ->; tauto.
Qed.

(** X29: what the table page offers, the endpoints accept.  When [table_view]
    returns a page, the request has changed nothing, the page marks the
    table as viewable, it shows the first rows of the table, at most 200 of
    them, and every writing action it offers is one the endpoint of that
    action allows for this request; updating and deleting are offered only
    for a table with a primary key. *)
Theorem table_view_offers (table_name : string) (w : TableWorld)
    (page : TablePage) :
  (table_view table_name w).1 = Returned page →
  (table_view table_name w).2 = w
  ∧ page_table page = table_name
  ∧ page_perms page !! "view" = Some true
  ∧ page_rows page = take 200 (rows_of (data (tw_db w)) table_name)
  ∧ ∀ action, action ∈ ["create"; "update"; "delete"] →
      page_perms page !! action = Some true →
      table_allowed w table_name action
      ∧ (action ≠ "create" → page_pks page ≠ []).
Proof.
  unfold table_view.
  destruct (require_login_cases w) as [(u & Hu & Hne & ->) | [Hanon ->]];
    [|discriminate].
  destruct (can (tw_store w) u table_name "view") eqn:Hview;
    cbn [negb]; [|discriminate].
  unfold get_table. destruct (tw_schema w !! table_name) as [cols|];
    cbn [fmap option_fmap option_map]; [|discriminate].
  unfold list_rows, gets. cbn [fst snd t_name t_columns].
  change (tw_store (set_tw_db (tw_db w) w)) with (tw_store w).
  intros [= <-]. cbn [page_table page_perms page_rows page_pks].
  split; [by destruct w|]. split; [done|].
  split; [by rewrite Hview|].
  split; [by rewrite drop_0|].
  intros action Ha Hl. apply perms_lookup in Hl; [|done].
  set (t := {| t_name := table_name; t_columns := cols |}) in *.
  destruct Hl as [[-> Hb] | [[-> Hb] | [-> Hb]]].
  - apply andb_true_iff in Hb as [Hc Hr]. apply negb_true_iff in Hr.
    split; [|done]. by exists u.
  - rewrite !andb_true_iff in Hb. destruct Hb as [[[Hc Hp] Hr] _].
    apply negb_true_iff in Hr. apply negb_true_iff in Hp.
    apply bool_decide_eq_false in Hp. split; [by exists u | done].
  - rewrite !andb_true_iff in Hb. destruct Hb as [[Hc Hp] Hr].
    apply negb_true_iff in Hr. apply negb_true_iff in Hp.
    apply bool_decide_eq_false in Hp. split; [by exists u | done].
Qed.

Lemma table_view_offers_witness :
  table_allowed table_world "kvstore" "update".
Proof.
  refine (proj1 (proj2 (proj2 (proj2 (proj2
            (table_view_offers "kvstore" table_world _ _))))
            "update" _ _)).
  - reflexivity.
  - rewrite !elem_of_cons. tauto.
  - reflexivity.
Defined.

(** The permission tables are tables like any other: the sample user, who
    may create rows in admin_permissions, gives its own role the right to
    view the vehicles, and [can] answers accordingly from then on. *)
Example table_create_grants :
  let form : gmap string string :=
    list_to_map [("role_id", "5"); ("table_name", "vehicles"); ("can_view", "1")] in
  let r := table_create "admin_permissions" form table_world in
  can (tw_store table_world) 2 "vehicles" "view" = false
  ∧ r.1 = Returned (RedirectResponse "/table/admin_permissions" 303)
  ∧ can (tw_store r.2) 2 "vehicles" "view" = true
  ∧ can (tw_store r.2) 2 "vehicles" "delete" = false.
Proof. vm_compute. repeat split. Qed.

(** A form that holds the key fields and nothing to set. *)
Example table_update_nothing_to_set :
  let form : gmap string string :=
    list_to_map [("pk_pid", "76561"); ("pk_k", "cash"); ("pk_side", "0")] in
  table_update "kvstore" form table_world
  = (Raised (DBAPIError "UPDATE kvstore SET WHERE"), table_world).
Proof. vm_compute. reflexivity. Qed.

End TableRoutesFacts.

(** ** Reading a vehicle after writing it *)

Lemma vehicle_edit_run (vehicle_id : Z) (w : World) :
  vehicle_edit vehicle_id w =
    match (require_admin w).1 with
    | Raise e => (Raise e, w)
    | Ok _ =>
        match first (select_where (vehicles (db w))
                       (λ v, bool_decide (v_id v = vehicle_id))) with
        | None => (Raise (HTTPException 404), w)
        | Some v => (Ok ("vehicle_edit.html", v), w)
        end
    end.
Proof.
  unfold vehicle_edit. rewrite gate_bind. destruct (require_admin w).1; [|done].
  run_m. by destruct (first _).
Qed.

(** X30: the edit page shows what the update stored.  After a [vehicle_update]
    that passed the gate, [vehicle_edit] of the same id answers 404 when no
    vehicle has the id, and otherwise renders a vehicle of that id whose
    four flags are 1 exactly for the ticked inputs and 0 otherwise, whose
    colour and trunk are the submitted ones and whose modification time is
    the time of the update; reading changes nothing. *)
Theorem vehicle_edit_after_update (vehicle_id : Z)
    (alive active sold locked : string) (color : Z) (trunk : string) (w : World) :
  passes_gate w →
  let w1 := (vehicle_update vehicle_id alive active sold locked color trunk w).2 in
  (vehicle_edit vehicle_id w1).2 = w1
  ∧ ((∀ v, v ∈ vehicles (db w) → v_id v ≠ vehicle_id) →
       vehicle_edit vehicle_id w1 = (Raise (HTTPException 404), w1))
  ∧ (∀ v, v ∈ vehicles (db w) → v_id v = vehicle_id →
       ∃ v', vehicle_edit vehicle_id w1 = (Ok ("vehicle_edit.html", v'), w1)
             ∧ v_id v' = vehicle_id
             ∧ (v_alive v' = 1 ↔ ticked alive) ∧ (v_alive v' = 0 ↔ ¬ ticked alive)
             ∧ (v_active v' = 1 ↔ ticked active) ∧ (v_active v' = 0 ↔ ¬ ticked active)
             ∧ (v_sold v' = 1 ↔ ticked sold) ∧ (v_sold v' = 0 ↔ ¬ ticked sold)
             ∧ (v_locked v' = 1 ↔ ticked locked) ∧ (v_locked v' = 0 ↔ ¬ ticked locked)
             ∧ v_color v' = color ∧ v_trunk v' = trunk
             ∧ v_ts_modified v' = now w).
Proof.
  intros Hp w1.
  assert (passes_gate w1) as Hp1.
  { subst w1. rewrite vehicle_update_run.
    destruct (gate_accepts w Hp) as [u ->]. by apply (passes_gate_stable w). }
  destruct (gate_accepts w1 Hp1) as [u1 Hu1].
  rewrite vehicle_edit_run, Hu1.
  set (f := λ v, if bool_decide (v_id v = vehicle_id)
                 then {| v_id := v_id v; v_side := v_side v;
                         v_classname := v_classname v; v_type := v_type v;
                         v_pid := v_pid v; v_alive := cb alive;
                         v_active := cb active; v_sold := cb sold;
                         v_locked := cb locked; v_color := color;
                         v_trunk := Py.or_else (Some trunk) "";
                         v_chip := v_chip v; v_ts_bought := v_ts_bought v;
                         v_ts_modified := now w |}
                 else v).
  assert (vehicles (db w1) = f <$> vehicles (db w)) as Hvs.
  { subst w1. rewrite vehicle_update_run.
    destruct (gate_accepts w Hp) as [u ->]. reflexivity. }
  assert (∀ v, v_id (f v) = v_id v) as Hfid.
  { intros v. unfold f. by case_bool_decide. }
  rewrite Hvs.
  destruct (first (select_where (f <$> vehicles (db w))
                     (λ v, bool_decide (v_id v = vehicle_id)))) as [v'|] eqn:Hrow.
  - split; [done|].
    apply first_select_where_Some in Hrow as (l1 & l2 & Hl & Hsel & _).
    apply bool_decide_eq_true in Hsel.
    assert (v' ∈ f <$> vehicles (db w)) as Hin.
    { rewrite Hl. apply elem_of_app. right. by left. }
    apply list_elem_of_fmap in Hin as (v0 & -> & Hin0).
    rewrite Hfid in Hsel. split.
    + intros Hno. by destruct (Hno v0 Hin0).
    + intros v _ _. exists (f v0). split; [done|].
      unfold f. rewrite (bool_decide_eq_true_2 _ Hsel). cbn.
      destruct (cb_ticked alive) as (? & ? & _), (cb_ticked active) as (? & ? & _),
               (cb_ticked sold) as (? & ? & _), (cb_ticked locked) as (? & ? & _).
      split_and!; try done. by case_decide.
  - split; [done|]. rewrite first_select_where_None in Hrow. split; [done|].
    intros v Hv Hid. exfalso.
    assert (f v ∈ f <$> vehicles (db w)) as Hin
      by (apply list_elem_of_fmap; eauto).
    apply Hrow in Hin. apply bool_decide_eq_false in Hin. by rewrite Hfid in Hin.
Qed.

Lemma vehicle_edit_after_update_witness :
  (vehicle_edit 3 (vehicle_update 3 "On" "0" "yes" "" 7 "[]" WebSamples.admin_world).2).2
  = (vehicle_update 3 "On" "0" "yes" "" 7 "[]" WebSamples.admin_world).2.
Proof.
  refine (proj1 (vehicle_edit_after_update 3 "On" "0" "yes" "" 7 "[]"
                   WebSamples.admin_world _)).
  apply require_admin_passes. exists 1. reflexivity.
Defined.
